(** * StepWize task backend: the task mutation and AI history engine

    A shallow embedding of [src/main.py] (the FastAPI handlers of the task
    collection) and of the part of [src/schemas.py] they rely on.

    - Python values are an inductive type [value]; a [dict] is the ordered
      list of its items, as Python and BSON keep them; a [str] is held as
      its UTF-8 encoding, and counted and cut by characters.
    - The case table of [str.lower] belongs to the interpreter's Unicode
      database: it is a parameter ([Unicode]) of everything that lower-cases.
    - An uncaught Python or driver exception and [HTTPException] are the two
      ways a handler fails; a handler is a function from the task collection
      to an outcome and the collection it leaves behind.
    - The task collection is a finite map from ObjectId to document.
    - [datetime.now] and the ObjectId generator are inputs of the handlers. *)

From Stdlib Require Import ZArith Lia Ascii String List Bool.
From stdpp Require Import base option list gmap strings.

Local Set Warnings "-register-all".
Local Open Scope string_scope.
Local Open Scope Z_scope.

(** ** Python values *)

Module Py.

(** The values that occur in task documents.  A [datetime] is represented by
    its ISO-8601 text (what [isoformat()] returns), an [ObjectId] by the
    hexadecimal text of its bytes (what [str()] returns). *)
Inductive value : Type :=
| VNone
| VBool (b : bool)
| VInt (n : Z)
| VStr (s : string)
| VDatetime (iso : string)
| VObjectId (hex : string)
| VList (l : list value)
| VDict (d : list (string * value)).

Abbreviation dict := (list (string * value)).

(** [HTTPException(status_code, detail)], or any other exception, which the
    handlers never catch (TypeError, IndexError, KeyError, AttributeError, a
    driver error): the framework answers those with status 500. *)
Inductive exn : Type :=
| HTTPException (status_code : Z) (detail : string)
| Uncaught.

Inductive result (A : Type) : Type :=
| Ok (a : A)
| Raise (e : exn).
Arguments Ok {A} a.
Arguments Raise {A} e.

Definition rbind {A B} (r : result A) (k : A -> result B) : result B :=
  match r with
  | Ok a => k a
  | Raise e => Raise e
  end.

Notation "'let*' x := r 'in' k" := (rbind r (fun x => k))
  (at level 10, x name, r at level 200, k at level 200).

(** *** dict *)

(** [d.get(k)] *)
Fixpoint dict_get (k : string) (d : dict) : option value :=
  match d with
  | [] => None
  | (k', v) :: d' => if String.eqb k k' then Some v else dict_get k d'
  end.

(** [d.get(k, default)] *)
Definition get (d : dict) (k : string) (default : value) : value :=
  match dict_get k d with
  | Some v => v
  | None => default
  end.

(** [k in d] *)
Definition contains_key (k : string) (d : dict) : bool :=
  match dict_get k d with
  | Some _ => true
  | None => false
  end.

(** [d[k] = v]: an existing key keeps its place, a new one goes last. *)
Fixpoint dict_set (k : string) (v : value) (d : dict) : dict :=
  match d with
  | [] => [(k, v)]
  | (k', v') :: d' =>
      if String.eqb k k' then (k, v) :: d' else (k', v') :: dict_set k v d'
  end.

(** [d.update(other)], also [{**d, **other}] *)
Definition dict_update (d other : dict) : dict :=
  fold_left (fun acc kv => dict_set (fst kv) (snd kv) acc) other d.

(** [d.pop(k, None)]: the value removed (if any) and what is left. *)
Fixpoint dict_pop (k : string) (d : dict) : option value * dict :=
  match d with
  | [] => (None, [])
  | (k', v) :: d' =>
      if String.eqb k k' then (Some v, d')
      else let '(r, d'') := dict_pop k d' in (r, (k', v) :: d'')
  end.

(** *** Truth value, len, int *)

(** A [str] is a sequence of Unicode characters.  It is represented by its
    UTF-8 encoding, one [ascii] per byte, which is what the string literals
    of this file hold and what BSON stores.  A character starts at every
    byte that is not a continuation byte (0x80 to 0xBF). *)
Definition is_continuation (a : ascii) : bool :=
  let n := nat_of_ascii a in (128 <=? n)%nat && (n <=? 191)%nat.

(** [len(s)] of a [str]: its number of characters. *)
Fixpoint str_len (s : string) : nat :=
  match s with
  | EmptyString => 0%nat
  | String a s' => if is_continuation a then str_len s' else S (str_len s')
  end.

(** [bool(v)], what [not v] and [if v] test. *)
Definition truthy (v : value) : bool :=
  match v with
  | VNone => false
  | VBool b => b
  | VInt n => negb (n =? 0)
  | VStr s => negb (String.eqb s "")
  | VDatetime _ => true
  | VObjectId _ => true
  | VList l => match l with [] => false | _ => true end
  | VDict d => match d with [] => false | _ => true end
  end.

(** [len(v)] *)
Definition len (v : value) : result Z :=
  match v with
  | VStr s => Ok (Z.of_nat (str_len s))
  | VList l => Ok (Z.of_nat (length l))
  | VDict d => Ok (Z.of_nat (length d))
  | _ => Raise Uncaught
  end.

(** The integer an arithmetic operand or a comparison with an int stands for:
    [bool] is a subclass of [int]. *)
Definition as_int (v : value) : result Z :=
  match v with
  | VInt n => Ok n
  | VBool b => Ok (if b then 1 else 0)
  | _ => Raise Uncaught
  end.

(** *** list *)

(** [l[i]]: a negative index counts from the end, IndexError outside. *)
Definition getitem (l : list value) (i : Z) : result value :=
  let n := Z.of_nat (length l) in
  let j := if i <? 0 then i + n else i in
  if (0 <=? j) && (j <? n) then
    match l !! Z.to_nat j with
    | Some v => Ok v
    | None => Raise Uncaught
    end
  else Raise Uncaught.

(** [l[i] = v], with the same positions as [l[i]]. *)
Definition setitem (l : list value) (i : Z) (v : value) : result (list value) :=
  let n := Z.of_nat (length l) in
  let j := if i <? 0 then i + n else i in
  if (0 <=? j) && (j <? n) then Ok (<[Z.to_nat j := v]> l)
  else Raise Uncaught.

(** [l[:stop]]: a negative stop counts from the end; never an error. *)
Definition slice_to (l : list value) (stop : Z) : list value :=
  let n := Z.of_nat (length l) in
  let j := if stop <? 0 then Z.max 0 (stop + n) else stop in
  take (Z.to_nat j) l.

(** *** str

    Equality, concatenation, [startswith] and [in] are the same on the
    encoding as on the characters; [len], the slice and [strip] go by
    characters. *)

(** [s.lower()] follows the case mappings of the Unicode database the
    interpreter was built with (there "I" becomes "i", U+0130 becomes "i"
    and U+0307, the Kelvin sign becomes "k").  That table is not among the
    sources, so whatever lower-cases takes it as a parameter. *)
Class Unicode : Type := { lower : string -> string }.

(** [s.startswith(p)] *)
Fixpoint startswith (p s : string) : bool :=
  match p, s with
  | EmptyString, _ => true
  | String a p', String b s' => Ascii.eqb a b && startswith p' s'
  | String _ _, EmptyString => false
  end.

(** [p in s] *)
Fixpoint str_in (p s : string) : bool :=
  startswith p s ||
  match s with
  | EmptyString => false
  | String _ s' => str_in p s'
  end.

(** [s[:n]] for [n >= 0]: the first [n] characters, each with its
    continuation bytes. *)
Fixpoint str_take (n : nat) (s : string) : string :=
  match s with
  | EmptyString => EmptyString
  | String a s' =>
      if is_continuation a then String a (str_take n s')
      else match n with
           | O => EmptyString
           | S n' => String a (str_take n' s')
           end
  end.

Definition chr (n : nat) : ascii := ascii_of_nat n.

Definition utf8 (bytes : list nat) : string :=
  fold_right (fun n s => String (chr n) s) EmptyString bytes.

(** The characters [str.strip()] removes, those [str.isspace] holds of, in
    UTF-8: U+0009 to U+000D, U+001C to U+001F, the space, U+0085, U+00A0,
    U+1680, U+2000 to U+200A, U+2028, U+2029, U+202F, U+205F and U+3000. *)
Definition spaces : list string :=
  map utf8
    [[9]; [10]; [11]; [12]; [13]; [28]; [29]; [30]; [31]; [32];
     [194; 133]; [194; 160]; [225; 154; 128];
     [226; 128; 128]; [226; 128; 129]; [226; 128; 130]; [226; 128; 131];
     [226; 128; 132]; [226; 128; 133]; [226; 128; 134]; [226; 128; 135];
     [226; 128; 136]; [226; 128; 137]; [226; 128; 138];
     [226; 128; 168]; [226; 128; 169]; [226; 128; 175]; [226; 129; 159];
     [227; 128; 128]]%nat.

(** [s] without the prefix [p], when it starts with it. *)
Fixpoint without_prefix (p s : string) : option string :=
  match p, s with
  | EmptyString, _ => Some s
  | String a p', String b s' =>
      if Ascii.eqb a b then without_prefix p' s' else None
  | String _ _, EmptyString => None
  end.

(** [s] without its first character, when that is white space. *)
Definition after_space (s : string) : option string :=
  fold_right (fun w r => match without_prefix w s with
                         | Some s' => Some s'
                         | None => r
                         end) None spaces.

Fixpoint lstrip_from (fuel : nat) (s : string) : string :=
  match fuel with
  | O => s
  | S fuel' =>
      match after_space s with
      | Some s' => lstrip_from fuel' s'
      | None => s
      end
  end.

(** [s.lstrip()]; every step removes at least one byte. *)
Definition lstrip (s : string) : string := lstrip_from (String.length s) s.

(** [s.rstrip()]: [s] is cut where only white space follows. *)
Fixpoint rstrip (s : string) : string :=
  match s with
  | EmptyString => EmptyString
  | String a s' =>
      match lstrip s with
      | EmptyString => EmptyString
      | _ => String a (rstrip s')
      end
  end.

(** [s.strip()] *)
Definition strip (s : string) : string := rstrip (lstrip s).

(** [s.split(sep)] for a one character separator *)
Fixpoint split (sep : ascii) (s : string) : list string :=
  match s with
  | EmptyString => [EmptyString]
  | String a s' =>
      if Ascii.eqb a sep then EmptyString :: split sep s'
      else match split sep s' with
           | [] => [String a EmptyString]
           | w :: ws => String a w :: ws
           end
  end.

(** *** sorted *)

(** Stable insertion by key: [x] comes from the left of [l], so it goes
    before the first element whose key is not smaller. *)
Fixpoint insert_by (x : Z * value) (l : list (Z * value)) : list (Z * value) :=
  match l with
  | [] => [x]
  | y :: l' => if fst x <=? fst y then x :: y :: l' else y :: insert_by x l'
  end.

Definition sort_by (l : list (Z * value)) : list (Z * value) :=
  fold_right insert_by [] l.

(** The key of [sorted(subs, key=lambda s: s.get("estimatedMinutes", 5))]:
    [s.get] exists on a dict only.  The keys are compared as integers, the
    type [estimatedMinutes] has in every subtask the API stores; a key of
    another type is reported as an uncaught TypeError. *)
Definition sort_key (s : value) : result Z :=
  match s with
  | VDict d => as_int (get d "estimatedMinutes" (VInt 5))
  | _ => Raise Uncaught
  end.

Fixpoint keyed (l : list value) : result (list (Z * value)) :=
  match l with
  | [] => Ok []
  | s :: l' =>
      let* k := sort_key s in
      let* r := keyed l' in
      Ok ((k, s) :: r)
  end.

(** [sorted(subs, key=...)]; [subs] has to be iterable, and an empty [str]
    or [dict] yields the empty list. *)
Definition sorted_by_minutes (subs : value) : result value :=
  match subs with
  | VList l => let* kl := keyed l in Ok (VList (map snd (sort_by kl)))
  | VStr EmptyString => Ok (VList [])
  | VDict [] => Ok (VList [])
  | _ => Raise Uncaught
  end.

End Py.

(** ** The document store *)

Module Mongo.
Import Py.

(** Modelled from the spec: module [database] (the handle [db]) is not among
    the sources.  Section 6 of the specification gives the interface the
    engine consumes: point reads, inserts, deletes and partial updates with
    dotted field paths, on documents keyed by an opaque id that converts from
    and to a string.  The definitions of this module give those operations
    the behaviour of the MongoDB collection the handlers call
    ([find_one], [insert_one], [update_one] with [$set], [delete_one]), and
    the conversion from a string the behaviour of [bson.ObjectId].

    A collection maps the id of a document to its other fields; [find_one]
    hands the document out with its ["_id"] in front. *)
Abbreviation collection := (gmap string dict).

Definition is_hex_digit (a : ascii) : bool :=
  let n := nat_of_ascii a in
  ((48 <=? n)%nat && (n <=? 57)%nat) ||
  ((65 <=? n)%nat && (n <=? 70)%nat) ||
  ((97 <=? n)%nat && (n <=? 102)%nat).

(** The digit as [bytes.hex] prints it: "A" to "F" in lower case. *)
Definition hex_digit (a : ascii) : ascii :=
  let n := nat_of_ascii a in
  if (65 <=? n)%nat && (n <=? 70)%nat then ascii_of_nat (n + 32) else a.

(** The white space [bytes.fromhex] skips: tab, newline, vertical tab, form
    feed, carriage return and the space. *)
Definition is_ascii_space (a : ascii) : bool :=
  let n := nat_of_ascii a in
  ((9 <=? n)%nat && (n <=? 13)%nat) || (n =? 32)%nat.

(** [bytes.fromhex(s).hex()]: [s] is read as pairs of hexadecimal digits,
    with white space allowed before, between and after the pairs; anything
    else is a ValueError. *)
Fixpoint fromhex (s : string) : option string :=
  match s with
  | EmptyString => Some EmptyString
  | String a s1 =>
      if is_ascii_space a then fromhex s1
      else
        match s1 with
        | String b s2 =>
            if is_hex_digit a && is_hex_digit b then
              option_map (fun r => String (hex_digit a) (String (hex_digit b) r))
                         (fromhex s2)
            else None
        | EmptyString => None
        end
  end.

(** [bson.ObjectId(id_str)] for a str: a string of 24 characters that
    [bytes.fromhex] reads, or no id at all (the constructor raises
    InvalidId).  An id is represented by the hexadecimal text of its bytes,
    which is what [str()] gives; the ids the driver generates and stores
    have twelve bytes, so 24 digits. *)
Definition ObjectId (id_str : string) : option string :=
  if (str_len id_str =? 24)%nat then fromhex id_str else None.

(** One field of a [$set]: the path is followed through embedded documents,
    which are created where the field is absent; a path cannot pass through
    a value that is not a document. *)
Fixpoint set_path (p : list string) (v : value) (d : dict) : result dict :=
  match p with
  | [] => Raise Uncaught
  | k :: p' =>
      if String.eqb k "" then Raise Uncaught else
      match p' with
      | [] => Ok (dict_set k v d)
      | _ =>
          match dict_get k d with
          | None =>
              let* sub := set_path p' v [] in Ok (dict_set k (VDict sub) d)
          | Some (VDict sub) =>
              let* sub' := set_path p' v sub in Ok (dict_set k (VDict sub') d)
          | Some _ => Raise Uncaught
          end
      end
  end.

(** ["_id"] is immutable: a [$set] on it is refused. *)
Definition set_field (k : string) (v : value) (d : dict) : result dict :=
  let p := split "." k in
  match p with
  | w :: _ => if String.eqb w "_id" then Raise Uncaught else set_path p v d
  | [] => Raise Uncaught
  end.

(** [{"$set": upd}] applied to one document, field after field. *)
Definition apply_set (upd : dict) (d : dict) : result dict :=
  fold_left (fun r kv => let* acc := r in set_field (fst kv) (snd kv) acc)
            upd (Ok d).

(** A handler runs against the collection: it leaves a collection behind
    whether it returns or raises. *)
Definition handler (A : Type) : Type := collection -> result A * collection.

Definition ret {A} (a : A) : handler A := fun db => (Ok a, db).

Definition raise {A} (e : exn) : handler A := fun db => (Raise e, db).

Definition lift {A} (r : result A) : handler A := fun db => (r, db).

Definition bind {A B} (m : handler A) (k : A -> handler B) : handler B :=
  fun db =>
    match m db with
    | (Ok a, db') => k a db'
    | (Raise e, db') => (Raise e, db')
    end.

Notation "'let!' x := m 'in' k" := (bind m (fun x => k))
  (at level 10, x name, m at level 200, k at level 200).
Notation "'run!' m 'in' k" := (bind m (fun _ => k))
  (at level 10, m at level 200, k at level 200).

(** [db["task"].find_one({"_id": i})] *)
Definition find_one (i : string) : handler (option dict) :=
  fun db => (Ok (option_map (fun d => ("_id", VObjectId i) :: d) (db !! i)), db).

(** [db["task"].update_one({"_id": i}, {"$set": upd})]: no document matched
    is not an error (and nothing is inserted). *)
Definition update_one (i : string) (upd : dict) : handler unit :=
  fun db =>
    match db !! i with
    | None => (Ok tt, db)
    | Some d =>
        match apply_set upd d with
        | Ok d' => (Ok tt, <[i := d']> db)
        | Raise e => (Raise e, db)
        end
    end.

(** [db["task"].insert_one(data).inserted_id], [new_id] being the ObjectId
    the driver generates for [data]. *)
Definition insert_one (new_id : string) (data : dict) : handler string :=
  fun db =>
    match db !! new_id with
    | Some _ => (Raise Uncaught, db)
    | None => (Ok new_id, <[new_id := data]> db)
    end.

(** [db["task"].delete_one({"_id": i})] *)
Definition delete_one (i : string) : handler unit :=
  fun db => (Ok tt, delete i db).

End Mongo.

(** ** src/main.py *)

Import Py Mongo.

(** *** Utilities *)

Definition oid (id_str : string) : result string :=
  match ObjectId id_str with
  | Some i => Ok i
  | None => Raise (HTTPException 400 "Invalid id")
  end.

(** The conversions of the loop of [serialize]: a datetime becomes its ISO
    text, and so do the datetimes inside a list. *)
Definition iso_item (x : value) : value :=
  match x with
  | VDatetime iso => VStr iso
  | _ => x
  end.

Definition iso_field (v : value) : value :=
  match v with
  | VDatetime iso => VStr iso
  | VList l => VList (map iso_item l)
  | _ => v
  end.

(** [str(_id)]; ["_id"] holds an ObjectId in every document [find_one]
    returns, and the text of any other value is left out of the model. *)
Definition str_of_id (v : value) : string :=
  match v with
  | VObjectId hex => hex
  | VStr s => s
  | _ => ""
  end.

Definition serialize (doc : option dict) : value :=
  match doc with
  | None => VNone
  | Some [] => VDict []
  | Some d =>
      let '(_id, d) := dict_pop "_id" d in
      let d :=
        match _id with
        | None | Some VNone => d
        | Some i => dict_set "id" (VStr (str_of_id i)) d
        end in
      VDict (map (fun kv => (fst kv, iso_field (snd kv))) d)
  end.

(** *** Tasks: the request models *)

Module SubTaskModel.
(** [title] is required; each of the other fields is set by the body
    ([Some]) or left to its default ([None]). *)
Record t : Type := {
  emoji : option string;
  title : string;
  estimatedMinutes : option Z;
  completed : option bool
}.

(** [Field(5, ge=1, le=480)]: a default is not validated. *)
Definition valid (s : t) : bool :=
  match estimatedMinutes s with
  | Some n => (1 <=? n) && (n <=? 480)
  | None => true
  end.

(** [model_dump()]: every field, an unset one with its default. *)
Definition model_dump (s : t) : value :=
  VDict [("emoji", VStr (default "✅" (emoji s))); ("title", VStr (title s));
         ("estimatedMinutes", VInt (default 5 (estimatedMinutes s)));
         ("completed", VBool (default false (completed s)))].

Definition dump_set {A} (k : string) (f : A -> value) (x : option A) : dict :=
  match x with
  | Some a => [(k, f a)]
  | None => []
  end.

(** [model_dump(exclude_unset=True)]: the fields the body set, in the
    order of the model. *)
Definition model_dump_exclude_unset (s : t) : value :=
  VDict (dump_set "emoji" VStr (emoji s) ++ [("title", VStr (title s))] ++
         dump_set "estimatedMinutes" VInt (estimatedMinutes s) ++
         dump_set "completed" VBool (completed s)).

(** The body sets every field. *)
Definition all_set (s : t) : bool :=
  match emoji s, estimatedMinutes s, completed s with
  | Some _, Some _, Some _ => true
  | _, _, _ => false
  end.
End SubTaskModel.

Module TaskCreate.
Record t : Type := {
  userId : string;
  title : string;
  description : string;
  estimatedMinutes : Z;
  emoji : string;
  voiceReminder : bool;
  subtasks : list SubTaskModel.t
}.

(** [Field(15, ge=1, le=1440)] and the bounds of every subtask *)
Definition valid (p : t) : bool :=
  (1 <=? estimatedMinutes p) && (estimatedMinutes p <=? 1440) &&
  forallb SubTaskModel.valid (subtasks p).

Definition model_dump (p : t) : dict :=
  [("userId", VStr (userId p)); ("title", VStr (title p));
   ("description", VStr (description p));
   ("estimatedMinutes", VInt (estimatedMinutes p));
   ("emoji", VStr (emoji p)); ("voiceReminder", VBool (voiceReminder p));
   ("subtasks", VList (map SubTaskModel.model_dump (subtasks p)))].
End TaskCreate.

Module TaskUpdate.
(** Every field is [Optional] with default [None]: it is unset ([None]
    here), set to null ([Some None]) or set to a value. *)
Record t : Type := {
  title : option (option string);
  description : option (option string);
  estimatedMinutes : option (option Z);
  emoji : option (option string);
  completed : option (option bool);
  voiceReminder : option (option bool);
  subtasks : option (option (list SubTaskModel.t))
}.

(** [Field(None, ge=1, le=1440)] and the bounds of every subtask *)
Definition valid (p : t) : bool :=
  match estimatedMinutes p with
  | Some (Some n) => (1 <=? n) && (n <=? 1440)
  | _ => true
  end &&
  match subtasks p with
  | Some (Some l) => forallb SubTaskModel.valid l
  | _ => true
  end.

Definition dump_field {A} (k : string) (f : A -> value)
    (x : option (option A)) : dict :=
  match x with
  | None => []
  | Some None => [(k, VNone)]
  | Some (Some a) => [(k, f a)]
  end.

(** [payload.model_dump(exclude_unset=True)]: the fields the body set; the
    option reaches the subtasks, which are dumped without their unset
    fields too. *)
Definition model_dump_exclude_unset (p : t) : dict :=
  dump_field "title" VStr (title p) ++
  dump_field "description" VStr (description p) ++
  dump_field "estimatedMinutes" VInt (estimatedMinutes p) ++
  dump_field "emoji" VStr (emoji p) ++
  dump_field "completed" VBool (completed p) ++
  dump_field "voiceReminder" VBool (voiceReminder p) ++
  dump_field "subtasks"
    (fun l => VList (map SubTaskModel.model_dump_exclude_unset l))
    (subtasks p).
End TaskUpdate.

(** The body of a request is validated against its model before the handler
    runs; the framework answers 422 otherwise. *)
Definition validated {A} (ok : bool) (m : handler A) : handler A :=
  if ok then m else raise (HTTPException 422 "Unprocessable Entity").

(** The timer session every task starts with and [timer_stop] puts back. *)
Definition reset_timer : value :=
  VDict [("status", VStr "idle"); ("startedAt", VNone);
         ("elapsedSeconds", VInt 0); ("currentSubtaskIndex", VNone)].

(** *** Tasks: the handlers *)

Definition create_task (payload : TaskCreate.t) (now now' : string)
    (new_id : string) : handler value :=
  validated (TaskCreate.valid payload)
    (let data := TaskCreate.model_dump payload in
     let data :=
       dict_update data
         [("completed", VBool false); ("timerSession", reset_timer);
          ("aiHistory", VList []); ("aiCursor", VInt (-1));
          ("created_at", VDatetime now); ("updated_at", VDatetime now')] in
     let! _id := insert_one new_id data in
     let! doc := find_one _id in
     ret (serialize doc)).

Definition update_task (task_id : string) (payload : TaskUpdate.t)
    (now : string) : handler value :=
  validated (TaskUpdate.valid payload)
    (let updates := TaskUpdate.model_dump_exclude_unset payload in
     if negb (truthy (VDict updates)) then
       let! i := lift (oid task_id) in
       let! doc := find_one i in
       ret (serialize doc)
     else
       let updates := dict_set "updated_at" (VDatetime now) updates in
       let! i := lift (oid task_id) in
       run! update_one i updates in
       let! i := lift (oid task_id) in
       let! doc := find_one i in
       ret (serialize doc)).

Definition delete_task (task_id : string) : handler value :=
  let! i := lift (oid task_id) in
  run! delete_one i in
  ret (VDict [("ok", VBool true)]).

Definition complete_task (task_id : string) (completed : bool)
    (now : string) : handler value :=
  let! i := lift (oid task_id) in
  run! update_one i [("completed", VBool completed);
                     ("updated_at", VDatetime now)] in
  let! i := lift (oid task_id) in
  let! doc := find_one i in
  ret (serialize doc).

(** [if not task: raise HTTPException(status_code=404, ...)] *)
Definition found (task : option dict) : handler dict :=
  match task with
  | Some t =>
      if truthy (VDict t) then ret t
      else raise (HTTPException 404 "Task not found")
  | None => raise (HTTPException 404 "Task not found")
  end.

(** [subs[index]["completed"] = not subs[index].get("completed", False)]:
    [subs] is indexed as a list and its element has to be a dict. *)
Definition flip_completed (subs : value) (index : Z) : result value :=
  match subs with
  | VList l =>
      let* s := getitem l index in
      match s with
      | VDict d =>
          let v := VBool (negb (truthy (get d "completed" (VBool false)))) in
          let* l' := setitem l index (VDict (dict_set "completed" v d)) in
          Ok (VList l')
      | _ => Raise Uncaught
      end
  | _ => Raise Uncaught
  end.

Definition toggle_subtask (task_id : string) (index : Z) (now : string)
    : handler value :=
  let! i := lift (oid task_id) in
  let! task := find_one i in
  let! task := found task in
  let subs := get task "subtasks" (VList []) in
  let! outside :=
    lift (if index <? 0 then Ok true
          else let* n := len subs in Ok (index >=? n)) in
  if outside then
    raise (HTTPException 400 "Invalid subtask index")
  else
    let! subs := lift (flip_completed subs index) in
    let! i := lift (oid task_id) in
    run! update_one i [("subtasks", subs); ("updated_at", VDatetime now)] in
    let! i := lift (oid task_id) in
    let! doc := find_one i in
    ret (serialize doc).

(** *** Timer controls *)

Definition timer_start (task_id : string) (subtaskIndex : option Z)
    (now now' : string) : handler value :=
  let! i := lift (oid task_id) in
  run! update_one i
    [("timerSession.status", VStr "running");
     ("timerSession.startedAt", VStr now);
     ("timerSession.currentSubtaskIndex",
        match subtaskIndex with Some n => VInt n | None => VNone end);
     ("updated_at", VDatetime now')] in
  let! i := lift (oid task_id) in
  let! doc := find_one i in
  ret (serialize doc).

Definition timer_pause (task_id : string) (elapsedSeconds : Z)
    (now : string) : handler value :=
  let! i := lift (oid task_id) in
  run! update_one i
    [("timerSession.status", VStr "paused");
     ("timerSession.elapsedSeconds", VInt elapsedSeconds);
     ("updated_at", VDatetime now)] in
  let! i := lift (oid task_id) in
  let! doc := find_one i in
  ret (serialize doc).

Definition timer_stop (task_id : string) (now : string) : handler value :=
  let! i := lift (oid task_id) in
  run! update_one i
    [("timerSession", reset_timer); ("updated_at", VDatetime now)] in
  let! i := lift (oid task_id) in
  let! doc := find_one i in
  ret (serialize doc).

(** *** AI (mock) *)

Module AIEditPayload.
Record t : Type := { taskId : string; prompt : string }.
End AIEditPayload.

Module AIHistoryMove.
Record t : Type := { taskId : string }.
End AIHistoryMove.

(** The fields a snapshot keeps. *)
Definition editable : list string :=
  ["title"; "description"; "estimatedMinutes"; "emoji"; "subtasks"].

(** [{k: task[k] for k in [...] if k in task}] *)
Definition snapshot_of (task : dict) : dict :=
  flat_map (fun k => match dict_get k task with
                     | Some v => [(k, v)]
                     | None => []
                     end) editable.

(** [history[: cursor + 1] + [snapshot]] *)
Definition push_snapshot (history cursor : value) (snapshot : value)
    : result (list value) :=
  let* c := as_int cursor in
  match history with
  | VList h => Ok (slice_to h (c + 1) ++ [snapshot])%list
  | _ => Raise Uncaught
  end.

Definition LF : ascii := "010"%char.

Definition more_specifics : string :=
  String LF (String LF
    "More specifics: steps, tools, and a clear finish line.").

Definition tuned : string := String LF (String LF "Tuned for clarity.").

Definition sparkles : string := "✨".

(** [(d[:120] + "...") if len(d) > 120 else d] *)
Definition simpler (d : value) : result value :=
  let* n := len d in
  if 120 <? n then
    match d with
    | VStr s => Ok (VStr (str_take 120 s +:+ "..."))
    | _ => Raise Uncaught
    end
  else Ok d.

(** [(d + suffix).strip()] *)
Definition append_stripped (d : value) (suffix : string) : result value :=
  match d with
  | VStr s => Ok (VStr (strip (s +:+ suffix)))
  | _ => Raise Uncaught
  end.

(** The field updates the prompt asks for, in the order of the [if]s. *)
Definition derive_updates (task : dict) (prompt : string) : result dict :=
  let updates : dict := [] in
  let* updates :=
    if str_in "simpler" prompt || str_in "shorter" prompt then
      let* v := simpler (get task "description" (VStr "")) in
      Ok (dict_set "description" v updates)
    else Ok updates in
  let* updates :=
    if str_in "more details" prompt || str_in "expand" prompt then
      let* v := append_stripped (get task "description" (VStr ""))
                  more_specifics in
      Ok (dict_set "description" v updates)
    else Ok updates in
  let* updates :=
    if str_in "prioritize" prompt then
      let* subs := sorted_by_minutes (get task "subtasks" (VList [])) in
      Ok (dict_set "subtasks" subs updates)
    else Ok updates in
  let updates :=
    if str_in "emoji" prompt then dict_set "emoji" (VStr sparkles) updates
    else updates in
  if negb (truthy (VDict updates)) then
    let* v := append_stripped (get task "description" (VStr "")) tuned in
    Ok (dict_set "description" v updates)
  else Ok updates.

Definition ai_edit_task `{Unicode} (payload : AIEditPayload.t) (now : string)
    : handler value :=
  let! i := lift (oid (AIEditPayload.taskId payload)) in
  let! task := find_one i in
  let! task := found task in
  let snapshot := VDict (snapshot_of task) in
  let history := get task "aiHistory" (VList []) in
  let cursor := get task "aiCursor" (VInt (-1)) in
  let! new_history := lift (push_snapshot history cursor snapshot) in
  let prompt := lower (AIEditPayload.prompt payload) in
  let! updates := lift (derive_updates task prompt) in
  let updates := dict_set "aiHistory" (VList new_history) updates in
  let updates :=
    dict_set "aiCursor" (VInt (Z.of_nat (length new_history) - 1)) updates in
  let updates := dict_set "updated_at" (VDatetime now) updates in
  let! i := lift (oid (AIEditPayload.taskId payload)) in
  run! update_one i updates in
  let! i := lift (oid (AIEditPayload.taskId payload)) in
  let! doc := find_one i in
  ret (serialize doc).

(** [snap = history[k]], spread as [{**snap, ...}]: a list element that is
    a dict. *)
Definition snapshot_at (history : value) (k : Z) : result dict :=
  match history with
  | VList h =>
      let* s := getitem h k in
      match s with
      | VDict d => Ok d
      | _ => Raise Uncaught
      end
  | _ => Raise Uncaught
  end.

Definition ai_undo (payload : AIHistoryMove.t) (now : string)
    : handler value :=
  let! i := lift (oid (AIHistoryMove.taskId payload)) in
  let! task := find_one i in
  let! task := found task in
  let cursor := get task "aiCursor" (VInt (-1)) in
  let history := get task "aiHistory" (VList []) in
  let! c := lift (as_int cursor) in
  if c <? 0 then ret (serialize (Some task))
  else
    let! snap := lift (snapshot_at history c) in
    let! i := lift (oid (AIHistoryMove.taskId payload)) in
    run! update_one i
      (dict_update snap [("aiCursor", VInt (c - 1));
                         ("updated_at", VDatetime now)]) in
    let! i := lift (oid (AIHistoryMove.taskId payload)) in
    let! doc := find_one i in
    ret (serialize doc).

Definition ai_redo (payload : AIHistoryMove.t) (now : string)
    : handler value :=
  let! i := lift (oid (AIHistoryMove.taskId payload)) in
  let! task := find_one i in
  let! task := found task in
  let cursor := get task "aiCursor" (VInt (-1)) in
  let history := get task "aiHistory" (VList []) in
  let! c := lift (as_int cursor) in
  let! n := lift (len history) in
  if c + 1 >=? n then ret (serialize (Some task))
  else
    let! snap := lift (snapshot_at history (c + 1)) in
    let! i := lift (oid (AIHistoryMove.taskId payload)) in
    run! update_one i
      (dict_update snap [("aiCursor", VInt (c + 1));
                         ("updated_at", VDatetime now)]) in
    let! i := lift (oid (AIHistoryMove.taskId payload)) in
    let! doc := find_one i in
    ret (serialize doc).

(** ** Tasks as documents

    [schemas.Task] read on a stored document: the editable fields have the
    types of the schema, every history entry is a snapshot of such fields,
    and the cursor points into the history or is -1. *)

Definition is_str (v : value) : bool :=
  match v with VStr _ => true | _ => false end.

Definition is_int (v : value) : bool :=
  match v with VInt _ => true | _ => false end.

(** [schemas.SubTask] *)
Definition subtask_ok (v : value) : bool :=
  match v with
  | VDict s =>
      match dict_get "emoji" s, dict_get "title" s,
            dict_get "estimatedMinutes" s, dict_get "completed" s with
      | Some (VStr _), Some (VStr _), Some (VInt _), Some (VBool _) => true
      | _, _, _, _ => false
      end
  | _ => false
  end.

Definition is_subtasks (v : value) : bool :=
  match v with VList l => forallb subtask_ok l | _ => false end.

(** The type [schemas.Task] gives an editable field. *)
Definition field_ok (k : string) (v : value) : bool :=
  if String.eqb k "title" then is_str v
  else if String.eqb k "description" then is_str v
  else if String.eqb k "estimatedMinutes" then is_int v
  else if String.eqb k "emoji" then is_str v
  else if String.eqb k "subtasks" then is_subtasks v
  else true.

Definition editable_ok (d : dict) : bool :=
  forallb (fun k => match dict_get k d with
                    | Some v => field_ok k v
                    | None => false
                    end) editable.

(** A history entry: the five editable fields, in the order [ai_edit_task]
    snapshots them. *)
Definition snapshot_ok (v : value) : bool :=
  match v with
  | VDict [(k1, v1); (k2, v2); (k3, v3); (k4, v4); (k5, v5)] =>
      String.eqb k1 "title" && is_str v1 &&
      String.eqb k2 "description" && is_str v2 &&
      String.eqb k3 "estimatedMinutes" && is_int v3 &&
      String.eqb k4 "emoji" && is_str v4 &&
      String.eqb k5 "subtasks" && is_subtasks v5
  | _ => false
  end.

Definition history_ok (d : dict) : bool :=
  match dict_get "aiHistory" d, dict_get "aiCursor" d with
  | Some (VList h), Some (VInt c) =>
      forallb snapshot_ok h && (-1 <=? c) && (c <=? Z.of_nat (length h) - 1)
  | _, _ => false
  end.

Definition is_task (d : dict) : bool := editable_ok d && history_ok d.

(** [-1 <= aiCursor <= len(aiHistory) - 1] *)
Definition cursor_in_range (d : dict) : Prop :=
  exists h c,
    dict_get "aiHistory" d = Some (VList h) /\
    dict_get "aiCursor" d = Some (VInt c) /\
    -1 <= c <= Z.of_nat (length h) - 1.

(** The editable fields of a document, in the order of [editable]. *)
Definition editable_fields (d : dict) : list (option value) :=
  map (fun k => dict_get k d) editable.

(** The keywords [ai_edit_task] looks for in the lower-cased prompt. *)
Definition keywords : list string :=
  ["simpler"; "shorter"; "more details"; "expand"; "prioritize"; "emoji"].

Definition matches_keyword `{Unicode} (prompt : string) : bool :=
  existsb (fun w => str_in w (lower prompt)) keywords.

(** [s.endswith(suffix)] *)
Fixpoint endswith (suffix s : string) : bool :=
  String.eqb suffix s ||
  match s with
  | EmptyString => false
  | String _ s' => endswith suffix s'
  end.

(** The byte [c] occurs in [w]. *)
Fixpoint has_byte (c : ascii) (w : string) : bool :=
  match w with
  | EmptyString => false
  | String a w' => Ascii.eqb a c || has_byte c w'
  end.

(** A field name [$set] takes as it is: no dot, not empty, not ["_id"]. *)
Definition plain_key (k : string) : bool :=
  match split "." k with
  | [w] => negb (String.eqb w "") && negb (String.eqb w "_id")
  | _ => false
  end.

(** *** Sequences of requests on one task *)

Inductive op : Type :=
| Edit (prompt : string) (now : string)
| Undo (now : string)
| Redo (now : string).

Definition run_op `{Unicode} (task_id : string) (o : op) : handler value :=
  match o with
  | Edit p now =>
      ai_edit_task {| AIEditPayload.taskId := task_id;
                      AIEditPayload.prompt := p |} now
  | Undo now => ai_undo {| AIHistoryMove.taskId := task_id |} now
  | Redo now => ai_redo {| AIHistoryMove.taskId := task_id |} now
  end.

(** The collection after a sequence of requests, each running against what
    the one before left (whether it returned or raised). *)
Definition run_ops `{Unicode} (task_id : string) (ops : list op)
    (db : collection) : collection :=
  fold_left (fun db o => snd (run_op task_id o db)) ops db.

(** [n] edits, one per (prompt, clock reading). *)
Definition edits (ps : list (string * string)) : list op :=
  map (fun p => Edit (fst p) (snd p)) ps.

(** One undo per clock reading. *)
Definition undos (ts : list string) : list op := map Undo ts.

(** *** The documents the AI handlers write *)

(** What [ai_undo] and [ai_redo] leave of [d]: [{**snap, "aiCursor": c,
    "updated_at": now}] set on it. *)
Definition restored (snap : dict) (c : Z) (now : string) (d : dict) : dict :=
  dict_update d
    (dict_update snap [("aiCursor", VInt c); ("updated_at", VDatetime now)]).

(** What [ai_edit_task] leaves of [d]: the derived updates [u], the new
    history and its cursor, and the time, set on it. *)
Definition edited (u : dict) (new_history : list value) (now : string)
    (d : dict) : dict :=
  dict_update d
    (dict_set "updated_at" (VDatetime now)
       (dict_set "aiCursor" (VInt (Z.of_nat (length new_history) - 1))
          (dict_set "aiHistory" (VList new_history) u))).

(** The fields [derive_updates] may set, with the types it gives them. *)
Definition derived_ok (k : string) (v : value) : bool :=
  (String.eqb k "description" && is_str v) ||
  (String.eqb k "subtasks" && is_subtasks v) ||
  (String.eqb k "emoji" && is_str v).

(** *** The documents the task handlers write *)

(** The subtask [toggle_subtask] puts back:
    [s["completed"] = not s.get("completed", False)]. *)
Definition flipped (s : dict) : value :=
  VDict (dict_set "completed"
           (VBool (negb (truthy (get s "completed" (VBool false))))) s).

(** [task["subtasks"][n]["completed"]] *)
Definition subtask_completed (d : dict) (n : nat) : option value :=
  match dict_get "subtasks" d with
  | Some (VList l) =>
      match l !! n with
      | Some (VDict s) => dict_get "completed" s
      | _ => None
      end
  | _ => None
  end.

(** The [data] that [create_task] inserts. *)
Definition new_task (payload : TaskCreate.t) (now now' : string) : dict :=
  dict_update (TaskCreate.model_dump payload)
    [("completed", VBool false); ("timerSession", reset_timer);
     ("aiHistory", VList []); ("aiCursor", VInt (-1));
     ("created_at", VDatetime now); ("updated_at", VDatetime now')].

(** A [TaskUpdate] body with no recognized field. *)
Definition no_fields : TaskUpdate.t :=
  {| TaskUpdate.title := None; TaskUpdate.description := None;
     TaskUpdate.estimatedMinutes := None; TaskUpdate.emoji := None;
     TaskUpdate.completed := None; TaskUpdate.voiceReminder := None;
     TaskUpdate.subtasks := None |}.

(** Bodies that set one field: [description] to null, [subtasks] to null,
    [title] to a text. *)
Definition null_description : TaskUpdate.t :=
  {| TaskUpdate.title := None; TaskUpdate.description := Some None;
     TaskUpdate.estimatedMinutes := None; TaskUpdate.emoji := None;
     TaskUpdate.completed := None; TaskUpdate.voiceReminder := None;
     TaskUpdate.subtasks := None |}.

Definition null_subtasks : TaskUpdate.t :=
  {| TaskUpdate.title := None; TaskUpdate.description := None;
     TaskUpdate.estimatedMinutes := None; TaskUpdate.emoji := None;
     TaskUpdate.completed := None; TaskUpdate.voiceReminder := None;
     TaskUpdate.subtasks := Some None |}.

Definition new_title (title : string) : TaskUpdate.t :=
  {| TaskUpdate.title := Some (Some title); TaskUpdate.description := None;
     TaskUpdate.estimatedMinutes := None; TaskUpdate.emoji := None;
     TaskUpdate.completed := None; TaskUpdate.voiceReminder := None;
     TaskUpdate.subtasks := None |}.

(** The integers a BSON document holds: 64 bits, signed.  The encoder
    refuses a larger one, which the operations of [Mongo] do not model; a
    property that depends on the size of a number says so with [int64]. *)
Definition int64 (n : Z) : bool := (- 2 ^ 63 <=? n) && (n <? 2 ^ 63).

(** The timer sequence of the specification's scenario:
    Start(subtaskIndex=1), Pause(elapsedSeconds=42), Stop. *)
Definition start_pause_stop (task_id : string) (t1 t1' t2 t3 : string)
    (db : collection) : collection :=
  let db := snd (timer_start task_id (Some 1) t1 t1' db) in
  let db := snd (timer_pause task_id 42 t2 db) in
  snd (timer_stop task_id t3 db).

(** The responses to a sequence of requests on one task. *)
Fixpoint responses `{Unicode} (task_id : string) (ops : list op)
    (db : collection) : list (result value) :=
  match ops with
  | [] => []
  | o :: ops' =>
      let '(r, db') := run_op task_id o db in
      r :: responses task_id ops' db'
  end.

Definition returned {A} (r : result A) : bool :=
  match r with Ok _ => true | Raise _ => false end.

(** *** A sample collection *)

Definition sample_id : string := "0123456789abcdef01234567".

Definition other_id : string := "aaaaaaaaaaaaaaaaaaaaaaaa".

Definition sample_subtask (title : string) (minutes : Z) (done : bool)
    : SubTaskModel.t :=
  {| SubTaskModel.emoji := Some "*"; SubTaskModel.title := title;
     SubTaskModel.estimatedMinutes := Some minutes;
     SubTaskModel.completed := Some done |}.

Definition sample_payload : TaskCreate.t :=
  {| TaskCreate.userId := "u1"; TaskCreate.title := "Write report";
     TaskCreate.description := "Quarterly figures";
     TaskCreate.estimatedMinutes := 15; TaskCreate.emoji := "R";
     TaskCreate.voiceReminder := false;
     TaskCreate.subtasks :=
       [sample_subtask "Collect" 20 false; sample_subtask "Draft" 5 false;
        sample_subtask "Review" 10 true] |}.

Definition sample_task : dict := new_task sample_payload "t0" "t0".

(** A Patch body that renames the task and replaces its subtasks. *)
Definition sample_patch : TaskUpdate.t :=
  {| TaskUpdate.title := Some (Some "Write the report");
     TaskUpdate.description := None; TaskUpdate.estimatedMinutes := None;
     TaskUpdate.emoji := None; TaskUpdate.completed := None;
     TaskUpdate.voiceReminder := None;
     TaskUpdate.subtasks :=
       Some (Some [sample_subtask "Outline" 10 false;
                   sample_subtask "Write" 30 false]) |}.

Definition sample_db : collection := {[ sample_id := sample_task ]}.

(** *** Every request of the task API *)

Inductive request : Type :=
| Create (payload : TaskCreate.t) (now now' : string) (new_id : string)
| Patch (task_id : string) (payload : TaskUpdate.t) (now : string)
| Delete (task_id : string)
| Complete (task_id : string) (completed : bool) (now : string)
| Toggle (task_id : string) (index : Z) (now : string)
| TimerStart (task_id : string) (subtaskIndex : option Z) (now now' : string)
| TimerPause (task_id : string) (elapsedSeconds : Z) (now : string)
| TimerStop (task_id : string) (now : string)
| AiEdit (payload : AIEditPayload.t) (now : string)
| AiUndo (payload : AIHistoryMove.t) (now : string)
| AiRedo (payload : AIHistoryMove.t) (now : string).

Definition handle `{Unicode} (r : request) : handler value :=
  match r with
  | Create payload now now' new_id => create_task payload now now' new_id
  | Patch task_id payload now => update_task task_id payload now
  | Delete task_id => delete_task task_id
  | Complete task_id completed now => complete_task task_id completed now
  | Toggle task_id index now => toggle_subtask task_id index now
  | TimerStart task_id sub now now' => timer_start task_id sub now now'
  | TimerPause task_id secs now => timer_pause task_id secs now
  | TimerStop task_id now => timer_stop task_id now
  | AiEdit payload now => ai_edit_task payload now
  | AiUndo payload now => ai_undo payload now
  | AiRedo payload now => ai_redo payload now
  end.

(** A field of a [TaskUpdate] body that is not set to null. *)
Definition not_null {A} (x : option (option A)) : bool :=
  match x with
  | Some None => false
  | _ => true
  end.

(** A Patch body without an explicit null for an editable field. *)
Definition no_null (p : TaskUpdate.t) : bool :=
  not_null (TaskUpdate.title p) && not_null (TaskUpdate.description p) &&
  not_null (TaskUpdate.estimatedMinutes p) && not_null (TaskUpdate.emoji p) &&
  not_null (TaskUpdate.subtasks p).

Definition null_free (r : request) : bool :=
  match r with
  | Patch _ payload _ => no_null payload
  | _ => true
  end.

(** A Patch body whose subtasks, when it sets them, come with every field
    set: their dumps then hold the four fields of [schemas.SubTask]. *)
Definition full_subtasks (p : TaskUpdate.t) : bool :=
  match TaskUpdate.subtasks p with
  | Some (Some l) => forallb SubTaskModel.all_set l
  | _ => true
  end.

Definition whole_subtasks (r : request) : bool :=
  match r with
  | Patch _ payload _ => full_subtasks payload
  | _ => true
  end.

(** Every stored document is a task. *)
Definition tasks_only (db : collection) : Prop :=
  forall i d, db !! i = Some d -> is_task d = true.

(** The first component of the path a [$set] field names. *)
Definition path_head (k : string) : string :=
  match split "." k with
  | w :: _ => w
  | [] => ""
  end.

(** The fields [is_task] reads. *)
Definition task_keys : list string :=
  (editable ++ ["aiHistory"; "aiCursor"])%list.

(** A [$set] that names none of the fields [is_task] reads. *)
Definition spares_task_keys (upd : dict) : bool :=
  forallb (fun kv =>
             forallb (fun k => negb (String.eqb (path_head (fst kv)) k))
                     task_keys) upd.

(** A [$set] field that keeps a task a task: an editable field gets a
    value of its type, and the history and its cursor are not named. *)
Definition keeps_task (kv : string * value) : bool :=
  field_ok (fst kv) (snd kv) && plain_key (fst kv) &&
  negb (String.eqb "aiHistory" (fst kv)) &&
  negb (String.eqb "aiCursor" (fst kv)).

(** ** Further requests and measures *)

(** The collection after a sequence of API requests. *)
Definition handle_all `{Unicode} (rs : list request) (db : collection)
    : collection :=
  fold_left (fun db r => snd (handle r db)) rs db.

(** The task id a request carries in its path or body, if any. *)
Definition request_task_id (r : request) : option string :=
  match r with
  | Create _ _ _ _ => None
  | Patch task_id _ _ => Some task_id
  | Delete task_id => Some task_id
  | Complete task_id _ _ => Some task_id
  | Toggle task_id _ _ => Some task_id
  | TimerStart task_id _ _ _ => Some task_id
  | TimerPause task_id _ _ => Some task_id
  | TimerStop task_id _ => Some task_id
  | AiEdit payload _ => Some (AIEditPayload.taskId payload)
  | AiUndo payload _ => Some (AIHistoryMove.taskId payload)
  | AiRedo payload _ => Some (AIHistoryMove.taskId payload)
  end.

(** The body of the request passes the validation of its model. *)
Definition body_valid (r : request) : bool :=
  match r with
  | Create payload _ _ _ => TaskCreate.valid payload
  | Patch _ payload _ => TaskUpdate.valid payload
  | _ => true
  end.

(** [payload.title.strip()], [payload.description.strip()] and the list
    [ai_generate_subtasks] answers with. *)
Module AIGeneratePayload.
Record t : Type := { title : string; description : string }.
End AIGeneratePayload.

Definition generated (emoji title : string) (minutes : Z) : value :=
  VDict [("emoji", VStr emoji); ("title", VStr title);
         ("estimatedMinutes", VInt minutes); ("completed", VBool false)].

(** [base.insert(1, x)] on a list that has a first element or not:
    [list.insert] never raises. *)
Definition insert_at_1 (x : value) (base : list value) : list value :=
  match base with
  | [] => [x]
  | y :: rest => y :: x :: rest
  end.

Definition ai_generate_subtasks (payload : AIGeneratePayload.t) : value :=
  let title := strip (AIGeneratePayload.title payload) in
  let desc := strip (AIGeneratePayload.description payload) in
  let base :=
    [generated "📝" ("Define the goal for '" +:+ title +:+ "'") 5;
     generated "🧩" "Break into 3-5 bite-sized actions" 10;
     generated "⏱️" "Estimate time for each action" 5;
     generated "🚀" "Do the easiest first for momentum" 10;
     generated "✅" "Review and check off what's done" 5] in
  let base :=
    if truthy (VStr desc)
    then insert_at_1
           (generated "🔍" "Skim any reference/context provided" 5) base
    else base in
  VDict [("subtasks", VList base)].

(** The minutes [sorted] orders a subtask by, 5 where it cannot tell. *)
Definition minutes_of (s : value) : Z :=
  match sort_key s with
  | Ok n => n
  | Raise _ => 5
  end.

(** [l] is in ascending order. *)
Fixpoint ascending (l : list Z) : bool :=
  match l with
  | a :: (b :: _) as t => (a <=? b) && ascending t
  | _ => true
  end.

(** The lower-cased prompt contains one of the words. *)
Definition wants `{Unicode} (ws : list string) (prompt : string) : bool :=
  existsb (fun w => str_in w (lower prompt)) ws.

(** The description [ai_edit_task] stores for a prompt, the old one being
    [s]: the later [if] wins over the earlier, and the fallback applies when
    no keyword matched at all. *)
Definition edited_description `{Unicode} (prompt s : string) : string :=
  if wants ["more details"; "expand"] prompt
  then strip (s +:+ more_specifics)
  else if wants ["simpler"; "shorter"] prompt
  then (if 120 <? Z.of_nat (str_len s)
        then str_take 120 s +:+ "..." else s)
  else if wants keywords prompt then s
  else strip (s +:+ tuned).

(** What a Patch leaves in a field: the old value when the body does not
    set the field, null when it sets it to null, the new value otherwise. *)
Definition patched {A} (f : A -> value) (x : option (option A))
    (old : option value) : option value :=
  match x with
  | None => old
  | Some None => Some VNone
  | Some (Some a) => Some (f a)
  end.

(** No datetime is left at the top of a value or directly inside a list. *)
Definition json_ready (v : value) : bool :=
  match v with
  | VDatetime _ => false
  | VList l =>
      forallb (fun x => match x with VDatetime _ => false | _ => true end) l
  | _ => true
  end.

(** A generated subtask passes the bounds of [SubTaskModel] and is open. *)
Definition fresh_subtask (s : value) : bool :=
  subtask_ok s && (1 <=? minutes_of s) && (minutes_of s <=? 480) &&
  match s with
  | VDict d => negb (truthy (get d "completed" (VBool true)))
  | _ => false
  end.

(** ** Auth (mock OTP and guest)

    The collections [otp], [user] and [session] hold documents of fixed
    shape ([schemas.OTP], [schemas.User], [schemas.Session]); they are kept
    as lists in insertion order, which is the order [find_one] searches.
    An instant is the number of microseconds since the epoch, and the ISO
    text stored in [expiresAt] is represented by the instant it denotes
    ([fromisoformat] undoes [isoformat]).  The successive readings of the
    clock during a request and the ObjectIds the driver generates are
    inputs. *)

Module Auth.

Record otp_doc : Type := {
  otp_id : string;
  otp_email : string;
  otp_code : string;
  otp_expiresAt : Z;
  otp_updated_at : Z;
  otp_created_at : Z
}.

Record user_doc : Type := {
  user_id : string;
  user_email : option string;
  user_name : option string;
  user_role : string;
  user_isGuest : bool;
  user_created_at : Z;
  user_updated_at : Z
}.

Record session_doc : Type := {
  session_userId : string;
  session_token : string;
  session_createdAt : Z
}.

Record store : Type := {
  otp : list otp_doc;
  user : list user_doc;
  session : list session_doc
}.

(** [find_one(filter)]: the first document that matches. *)
Fixpoint find_first {A} (p : A -> bool) (l : list A) : option A :=
  match l with
  | [] => None
  | x :: l' => if p x then Some x else find_first p l'
  end.

(** [update_one(filter, update, upsert=True)]: the first match is updated;
    without a match the document [fresh] is inserted. *)
Fixpoint upsert {A} (p : A -> bool) (f : A -> A) (fresh : A) (l : list A)
    : list A :=
  match l with
  | [] => [fresh]
  | x :: l' => if p x then f x :: l' else x :: upsert p f fresh l'
  end.

Definition digit (n : Z) : ascii :=
  ascii_of_nat (48 + Z.to_nat (n mod 10)).

(** [f"{x:06d}"[-6:]] for [x >= 0]: the last six decimal digits. *)
Definition six_digits (x : Z) : string :=
  String (digit (x / 100000)) (String (digit (x / 10000))
    (String (digit (x / 1000)) (String (digit (x / 100))
      (String (digit (x / 10)) (String (digit x) EmptyString))))).

(** [int(datetime.now().timestamp())]: whole seconds, truncated. *)
Definition seconds (t : Z) : Z := Z.quot t 1000000.

(** [timedelta(minutes=10)] *)
Definition ten_minutes : Z := 600000000.

Definition has_email (e : string) (o : otp_doc) : bool :=
  String.eqb (otp_email o) e.

Definition user_has_email (e : string) (u : user_doc) : bool :=
  match user_email u with
  | Some e' => String.eqb e' e
  | None => false
  end.

(** [request_otp]; [clock k] is the [k]-th reading of [datetime.now]. *)
Definition request_otp (email : string) (clock : nat -> Z)
    (new_otp_id new_user_id : string) (db : store) : value * store :=
  let code := six_digits (seconds (clock 0%nat) mod 1000000) in
  let expires_at := clock 1%nat + ten_minutes in
  let otp' :=
    upsert (has_email email)
      (fun o => {| otp_id := otp_id o; otp_email := email; otp_code := code;
                   otp_expiresAt := expires_at;
                   otp_updated_at := clock 2%nat;
                   otp_created_at := otp_created_at o |})
      {| otp_id := new_otp_id; otp_email := email; otp_code := code;
         otp_expiresAt := expires_at; otp_updated_at := clock 2%nat;
         otp_created_at := clock 3%nat |}
      (otp db) in
  let user' :=
    upsert (user_has_email email) (fun u => u)
      {| user_id := new_user_id; user_email := Some email;
         user_name := None; user_role := "user"; user_isGuest := false;
         user_created_at := clock 4%nat; user_updated_at := clock 5%nat |}
      (user db) in
  (VDict [("ok", VBool true); ("message", VStr "OTP sent (mock)");
          ("code", VStr code)],
   {| otp := otp'; user := user'; session := session db |}).

(** [verify_otp]; [utcnow] and [now] are its two readings of the clock and
    [token] the session token generated. *)
Definition verify_otp (email code : string) (utcnow now : Z) (token : string)
    (db : store) : result value * store :=
  match find_first (has_email email) (otp db) with
  | None => (Raise (HTTPException 400 "Invalid code"), db)
  | Some rec =>
      if negb (String.eqb (otp_code rec) code)
      then (Raise (HTTPException 400 "Invalid code"), db)
      else if otp_expiresAt rec <? utcnow
      then (Raise (HTTPException 400 "Code expired"), db)
      else
        match find_first (user_has_email email) (user db) with
        | None => (Raise (HTTPException 400 "User missing"), db)
        | Some u =>
            (Ok (VDict [("ok", VBool true); ("token", VStr token);
                        ("userId", VStr (user_id u))]),
             {| otp := otp db; user := user db;
                session :=
                  (session db ++
                   [{| session_userId := user_id u; session_token := token;
                       session_createdAt := now |}])%list |})
        end
  end.

(** [guest_login]; [name] is [payload.name], [None] for null. *)
Definition guest_login (name : option string) (clock : nat -> Z)
    (new_user_id token : string) (db : store) : value * store :=
  let shown :=
    match name with
    | Some n => if truthy (VStr n) then n else "Guest"
    | None => "Guest"
    end in
  (VDict [("ok", VBool true); ("token", VStr token);
          ("userId", VStr new_user_id)],
   {| otp := otp db;
      user :=
        (user db ++
         [{| user_id := new_user_id; user_email := None;
             user_name := Some shown; user_role := "user";
             user_isGuest := true; user_created_at := clock 0%nat;
             user_updated_at := clock 1%nat |}])%list;
      session :=
        (session db ++
         [{| session_userId := new_user_id; session_token := token;
             session_createdAt := clock 2%nat |}])%list |}).

End Auth.

(** *** A case table for the sample runs

    [str.lower] on ASCII text: "A" to "Z" become "a" to "z" and nothing
    else changes.  The prompts of the sample runs are ASCII. *)

Definition ascii_lower_char (a : ascii) : ascii :=
  let n := nat_of_ascii a in
  if (65 <=? n)%nat && (n <=? 90)%nat then ascii_of_nat (n + 32) else a.

Fixpoint ascii_lower (s : string) : string :=
  match s with
  | EmptyString => EmptyString
  | String a s' => String (ascii_lower_char a) (ascii_lower s')
  end.

#[global] Instance ascii_table : Unicode | 100 := {| lower := ascii_lower |}.

(** * Properties *)

(** ** Dictionaries and [$set] *)

Lemma dict_get_dict_set k k' v d :
  dict_get k (dict_set k' v d) =
  if String.eqb k k' then Some v else dict_get k d.
Proof.
  induction d as [|[k0 v0] d IH]; simpl.
  - reflexivity.
  - destruct (String.eqb_spec k' k0) as [->|N0]; simpl.
    + destruct (String.eqb k k0); reflexivity.
    + rewrite IH.
      destruct (String.eqb_spec k k0) as [->|N1]; [|reflexivity].
      destruct (String.eqb_spec k0 k'); congruence.
Qed.

Lemma split_nonempty sep s : split sep s <> [].
Proof.
  destruct s as [|a s]; simpl; [discriminate|].
  destruct (Ascii.eqb a sep); [discriminate|].
  destruct (split sep s); discriminate.
Qed.

Lemma split_single sep s w : split sep s = [w] -> w = s.
Proof.
  revert w. induction s as [|a s IH]; simpl; intros w H.
  - congruence.
  - pose proof (split_nonempty sep s) as Hne.
    destruct (Ascii.eqb a sep).
    + destruct (split sep s); [congruence|discriminate].
    + destruct (split sep s) as [|w' ws] eqn:E; [congruence|].
      injection H as <- ->. f_equal. now apply IH.
Qed.

Lemma set_field_plain k v d :
  plain_key k = true -> set_field k v d = Ok (dict_set k v d).
Proof.
  unfold plain_key, set_field. intros H.
  destruct (split "." k) as [|w [|w' ws]] eqn:E; try discriminate.
  apply split_single in E. subst w.
  apply andb_true_iff in H as [H1 H2].
  apply negb_true_iff in H1, H2.
  simpl. now rewrite H1, H2.
Qed.

Lemma apply_set_plain upd d :
  forallb (fun kv => plain_key (fst kv)) upd = true ->
  apply_set upd d = Ok (dict_update d upd).
Proof.
  unfold apply_set, dict_update. revert d.
  induction upd as [|[k v] upd IH]; simpl; intros d H; [reflexivity|].
  apply andb_true_iff in H as [Hk H].
  rewrite (set_field_plain _ _ _ Hk). now apply IH.
Qed.

Lemma forallb_keys_dict_set (P : string -> bool) k v d :
  P k = true ->
  forallb (fun kv => P (fst kv)) d = true ->
  forallb (fun kv => P (fst kv)) (dict_set k v d) = true.
Proof.
  intros Hk. induction d as [|[k0 v0] d IH]; simpl; intros H.
  - now rewrite Hk.
  - apply andb_true_iff in H as [H0 H].
    destruct (String.eqb k k0); simpl.
    + now rewrite Hk.
    + now rewrite H0, IH.
Qed.

Lemma dict_get_dict_update_other k d upd :
  forallb (fun kv => negb (String.eqb k (fst kv))) upd = true ->
  dict_get k (dict_update d upd) = dict_get k d.
Proof.
  unfold dict_update. revert d.
  induction upd as [|[k0 v0] upd IH]; simpl; intros d H; [reflexivity|].
  apply andb_true_iff in H as [H0 H].
  rewrite IH by assumption. rewrite dict_get_dict_set.
  apply negb_true_iff in H0. now rewrite H0.
Qed.

Lemma oid_Some s i : ObjectId s = Some i -> oid s = Ok i.
Proof. unfold oid. now intros ->. Qed.

Lemma bind_lift_Ok {A B} (r : result A) a (k : A -> handler B) db :
  r = Ok a -> bind (lift r) k db = k a db.
Proof. now intros ->. Qed.

Lemma bind_lift_Raise {A B} (r : result A) e (k : A -> handler B) db :
  r = Raise e -> bind (lift r) k db = (Raise e, db).
Proof. now intros ->. Qed.

Lemma bind_find_one {B} i (k : option dict -> handler B) db :
  bind (find_one i) k db =
  k (option_map (fun d => ("_id", VObjectId i) :: d) (db !! i)) db.
Proof. reflexivity. Qed.

Lemma bind_found_Some {B} x t (k : dict -> handler B) db :
  bind (found (Some (x :: t))) k db = k (x :: t) db.
Proof. reflexivity. Qed.

Lemma bind_found_None {B} (k : dict -> handler B) db :
  bind (found None) k db = (Raise (HTTPException 404 "Task not found"), db).
Proof. reflexivity. Qed.

Lemma bind_update_one_Some {B} i upd d d' (k : unit -> handler B) db :
  db !! i = Some d -> apply_set upd d = Ok d' ->
  bind (update_one i upd) k db = k tt (<[i := d']> db).
Proof. intros Hd Hs. unfold bind, update_one. now rewrite Hd, Hs. Qed.

Lemma bind_update_one_Raise {B} i upd d e (k : unit -> handler B) db :
  db !! i = Some d -> apply_set upd d = Raise e ->
  bind (update_one i upd) k db = (Raise e, db).
Proof. intros Hd Hs. unfold bind, update_one. now rewrite Hd, Hs. Qed.

Lemma bind_update_one_None {B} i upd (k : unit -> handler B) db :
  db !! i = None -> bind (update_one i upd) k db = k tt db.
Proof. intros Hd. unfold bind, update_one. now rewrite Hd. Qed.

Lemma get_Some d k v dflt : dict_get k d = Some v -> get d k dflt = v.
Proof. unfold get. now intros ->. Qed.

Lemma dict_get_cons_ne k k0 v0 d :
  String.eqb k k0 = false -> dict_get k ((k0, v0) :: d) = dict_get k d.
Proof. simpl. now intros ->. Qed.

Lemma getitem_lookup l k v :
  0 <= k -> l !! Z.to_nat k = Some v -> getitem l k = Ok v.
Proof.
  intros Hk Hl. unfold getitem.
  pose proof (lookup_lt_Some _ _ _ Hl) as Hlt.
  destruct (Z.ltb_spec k 0); [lia|].
  destruct (Z.leb_spec 0 k); [|lia].
  destruct (Z.ltb_spec k (Z.of_nat (length l))); [|lia].
  simpl. now rewrite Hl.
Qed.

Lemma get_task_field k x d v dflt :
  dict_get k d = Some v -> String.eqb k "_id" = false ->
  get (("_id", x) :: d) k dflt = v.
Proof. intros H E. unfold get. simpl. now rewrite E, H. Qed.

Lemma is_str_inv v : is_str v = true -> exists s, v = VStr s.
Proof. destruct v; try discriminate. eauto. Qed.

Lemma is_int_inv v : is_int v = true -> exists n, v = VInt n.
Proof. destruct v; try discriminate. eauto. Qed.

Lemma is_subtasks_inv v :
  is_subtasks v = true -> exists l, v = VList l /\ forallb subtask_ok l = true.
Proof. destruct v; try discriminate. eauto. Qed.

Lemma editable_ok_inv d :
  editable_ok d = true ->
  exists t s m e l,
    dict_get "title" d = Some (VStr t) /\
    dict_get "description" d = Some (VStr s) /\
    dict_get "estimatedMinutes" d = Some (VInt m) /\
    dict_get "emoji" d = Some (VStr e) /\
    dict_get "subtasks" d = Some (VList l) /\
    forallb subtask_ok l = true.
Proof.
  unfold editable_ok, editable. cbn [forallb]. intros H.
  repeat (apply andb_true_iff in H as [? H]).
  destruct (dict_get "title" d) as [v1|]; [|discriminate].
  destruct (dict_get "description" d) as [v2|]; [|discriminate].
  destruct (dict_get "estimatedMinutes" d) as [v3|]; [|discriminate].
  destruct (dict_get "emoji" d) as [v4|]; [|discriminate].
  destruct (dict_get "subtasks" d) as [v5|]; [|discriminate].
  cbn in *.
  destruct (is_str_inv v1) as [t ->]; [assumption|].
  destruct (is_str_inv v2) as [s ->]; [assumption|].
  destruct (is_int_inv v3) as [m ->]; [assumption|].
  destruct (is_str_inv v4) as [e ->]; [assumption|].
  destruct (is_subtasks_inv v5) as [l [-> Hl]]; [assumption|].
  exists t, s, m, e, l. repeat split; auto.
Qed.

Lemma editable_ok_intro d t s m e l :
  dict_get "title" d = Some (VStr t) ->
  dict_get "description" d = Some (VStr s) ->
  dict_get "estimatedMinutes" d = Some (VInt m) ->
  dict_get "emoji" d = Some (VStr e) ->
  dict_get "subtasks" d = Some (VList l) ->
  forallb subtask_ok l = true ->
  editable_ok d = true.
Proof.
  intros H1 H2 H3 H4 H5 Hl. unfold editable_ok, editable. cbn [forallb].
  rewrite H1, H2, H3, H4, H5. cbn. now rewrite Hl.
Qed.

Lemma history_ok_inv d :
  history_ok d = true ->
  exists h c,
    dict_get "aiHistory" d = Some (VList h) /\
    dict_get "aiCursor" d = Some (VInt c) /\
    forallb snapshot_ok h = true /\
    -1 <= c <= Z.of_nat (length h) - 1.
Proof.
  unfold history_ok. intros H.
  destruct (dict_get "aiHistory" d) as [[| | | | | |h|]|]; try discriminate.
  destruct (dict_get "aiCursor" d) as [[| |c| | | | |]|]; try discriminate.
  apply andb_true_iff in H as [H H3]. apply andb_true_iff in H as [H1 H2].
  exists h, c. repeat split; auto; lia.
Qed.

Lemma history_ok_intro d h c :
  dict_get "aiHistory" d = Some (VList h) ->
  dict_get "aiCursor" d = Some (VInt c) ->
  forallb snapshot_ok h = true ->
  -1 <= c <= Z.of_nat (length h) - 1 ->
  history_ok d = true.
Proof.
  intros H1 H2 H3 H4. unfold history_ok. rewrite H1, H2, H3. cbn.
  apply andb_true_iff. split; lia.
Qed.

Lemma snapshot_ok_inv v :
  snapshot_ok v = true ->
  exists t s m e l,
    v = VDict [("title", VStr t); ("description", VStr s);
               ("estimatedMinutes", VInt m); ("emoji", VStr e);
               ("subtasks", VList l)] /\
    forallb subtask_ok l = true.
Proof.
  unfold snapshot_ok. intros H.
  destruct v as [| | | | | | |d]; try discriminate.
  destruct d as [|[k1 v1] [|[k2 v2] [|[k3 v3] [|[k4 v4] [|[k5 v5] [|]]]]]];
    try discriminate.
  repeat (apply andb_true_iff in H as [H ?]).
  repeat match goal with
         | E : String.eqb _ _ = true |- _ => apply String.eqb_eq in E; subst
         end.
  destruct (is_str_inv v1) as [t ->]; [assumption|].
  destruct (is_str_inv v2) as [s ->]; [assumption|].
  destruct (is_int_inv v3) as [m ->]; [assumption|].
  destruct (is_str_inv v4) as [e ->]; [assumption|].
  destruct (is_subtasks_inv v5) as [l [-> Hl]]; [assumption|].
  exists t, s, m, e, l. repeat split; auto.
Qed.

Lemma is_task_inv d :
  is_task d = true -> editable_ok d = true /\ history_ok d = true.
Proof. unfold is_task. intros H. now apply andb_true_iff in H. Qed.

Lemma forallb_lookup {A} (f : A -> bool) (l : list A) n x :
  forallb f l = true -> l !! n = Some x -> f x = true.
Proof.
  intros H Hx. rewrite forallb_forall in H. apply H.
  apply list_elem_of_In. eapply list_elem_of_lookup_2. exact Hx.
Qed.

Lemma forallb_take {A} (f : A -> bool) (l : list A) n :
  forallb f l = true -> forallb f (take n l) = true.
Proof.
  revert n. induction l as [|x l IH]; intros [|n] H; simpl in *; auto.
  apply andb_true_iff in H as [Hx H]. rewrite Hx. now apply IH.
Qed.

Lemma forallb_impl {A} (f g : A -> bool) l :
  (forall x, f x = true -> g x = true) ->
  forallb f l = true -> forallb g l = true.
Proof.
  intros Hfg. induction l as [|x l IH]; simpl; [auto|].
  intros H. apply andb_true_iff in H as [Hx H].
  now rewrite (Hfg _ Hx), IH.
Qed.

Lemma dict_set_fresh k v u :
  forallb (fun kv => negb (String.eqb k (fst kv))) u = true ->
  dict_set k v u = (u ++ [(k, v)])%list.
Proof.
  induction u as [|[k0 v0] u IH]; simpl; intros H; [reflexivity|].
  apply andb_true_iff in H as [H0 H]. apply negb_true_iff in H0.
  now rewrite H0, IH.
Qed.

Lemma dict_update_app d a b :
  dict_update d (a ++ b) = dict_update (dict_update d a) b.
Proof. unfold dict_update. apply fold_left_app. Qed.

Lemma dict_update_set_fresh d k v u :
  forallb (fun kv => negb (String.eqb k (fst kv))) u = true ->
  dict_update d (dict_set k v u) = dict_set k v (dict_update d u).
Proof.
  intros H. rewrite (dict_set_fresh _ _ _ H), dict_update_app. reflexivity.
Qed.

Lemma dict_update_pres (P : string -> value -> bool) d u k :
  forallb (fun kv => P (fst kv) (snd kv)) u = true ->
  match dict_get k d with Some v => P k v | None => false end = true ->
  match dict_get k (dict_update d u) with
  | Some v => P k v
  | None => false
  end = true.
Proof.
  unfold dict_update. revert d.
  induction u as [|[k0 v0] u IH]; simpl; intros d Hu Hd; [exact Hd|].
  apply andb_true_iff in Hu as [H0 Hu].
  apply IH; [exact Hu|].
  rewrite dict_get_dict_set.
  destruct (String.eqb_spec k k0) as [->|]; [exact H0|exact Hd].
Qed.

Lemma derived_ok_plain k v : derived_ok k v = true -> plain_key k = true.
Proof.
  unfold derived_ok. intros H.
  destruct (String.eqb_spec k "description") as [->|]; [reflexivity|].
  destruct (String.eqb_spec k "subtasks") as [->|]; [reflexivity|].
  destruct (String.eqb_spec k "emoji") as [->|]; [reflexivity|].
  discriminate.
Qed.

Lemma derived_ok_field k v : derived_ok k v = true -> field_ok k v = true.
Proof.
  unfold derived_ok, field_ok. intros H.
  destruct (String.eqb_spec k "description") as [->|];
    [cbn in H |- *; now rewrite ?orb_false_r in H|].
  destruct (String.eqb_spec k "subtasks") as [->|];
    [cbn in H |- *; now rewrite ?orb_false_r in H|].
  destruct (String.eqb_spec k "emoji") as [->|];
    [cbn in H |- *; now rewrite ?orb_false_r in H|].
  discriminate.
Qed.

Lemma derived_ok_other k0 k v :
  derived_ok k v = true ->
  String.eqb k0 "description" = false ->
  String.eqb k0 "subtasks" = false ->
  String.eqb k0 "emoji" = false ->
  negb (String.eqb k0 k) = true.
Proof.
  unfold derived_ok. intros H H1 H2 H3.
  destruct (String.eqb_spec k "description") as [->|]; [now rewrite H1|].
  destruct (String.eqb_spec k "subtasks") as [->|]; [now rewrite H2|].
  destruct (String.eqb_spec k "emoji") as [->|]; [now rewrite H3|].
  discriminate.
Qed.

Lemma derived_keys_other k0 u :
  forallb (fun kv => derived_ok (fst kv) (snd kv)) u = true ->
  String.eqb k0 "description" = false ->
  String.eqb k0 "subtasks" = false ->
  String.eqb k0 "emoji" = false ->
  forallb (fun kv => negb (String.eqb k0 (fst kv))) u = true.
Proof.
  intros Hu H1 H2 H3. revert Hu. apply forallb_impl.
  intros [k v] H. now apply (derived_ok_other k0 k v).
Qed.

Lemma edited_eq u nh now d :
  forallb (fun kv => derived_ok (fst kv) (snd kv)) u = true ->
  edited u nh now d =
  dict_set "updated_at" (VDatetime now)
    (dict_set "aiCursor" (VInt (Z.of_nat (length nh) - 1))
       (dict_set "aiHistory" (VList nh) (dict_update d u))).
Proof.
  intros Hu. unfold edited.
  rewrite dict_update_set_fresh.
  2:{ apply (forallb_keys_dict_set (fun k => negb (String.eqb "updated_at" k)));
        [reflexivity|].
      apply (forallb_keys_dict_set (fun k => negb (String.eqb "updated_at" k)));
        [reflexivity|].
      now apply derived_keys_other. }
  rewrite dict_update_set_fresh.
  2:{ apply (forallb_keys_dict_set (fun k => negb (String.eqb "aiCursor" k)));
        [reflexivity|].
      now apply derived_keys_other. }
  rewrite dict_update_set_fresh by now apply derived_keys_other.
  reflexivity.
Qed.

(** ** [sorted] keeps the subtasks *)

Lemma forallb_insert_by (g : Z * value -> bool) x l :
  g x = true -> forallb g l = true -> forallb g (insert_by x l) = true.
Proof.
  intros Hx. induction l as [|y l IH]; simpl; intros H.
  - now rewrite Hx.
  - apply andb_true_iff in H as [Hy H].
    destruct (fst x <=? fst y); simpl.
    + now rewrite Hx, Hy, H.
    + now rewrite Hy, IH.
Qed.

Lemma forallb_sort_by (g : Z * value -> bool) l :
  forallb g l = true -> forallb g (sort_by l) = true.
Proof.
  induction l as [|x l IH]; simpl; intros H; [reflexivity|].
  apply andb_true_iff in H as [Hx H].
  apply forallb_insert_by; auto.
Qed.

Lemma sort_key_subtask s :
  subtask_ok s = true -> exists n, sort_key s = Ok n.
Proof.
  unfold subtask_ok, sort_key, get. intros H.
  destruct s as [| | | | | | |d]; try discriminate.
  destruct (dict_get "emoji" d) as [[]|]; try discriminate.
  destruct (dict_get "title" d) as [[]|]; try discriminate.
  destruct (dict_get "estimatedMinutes" d) as [[| |n| | | | |]|];
    try discriminate.
  exists n. reflexivity.
Qed.

Lemma keyed_subtasks l :
  forallb subtask_ok l = true ->
  exists kl, keyed l = Ok kl /\
             forallb (fun x => subtask_ok (snd x)) kl = true.
Proof.
  induction l as [|s l IH]; simpl; intros H.
  - exists []. auto.
  - apply andb_true_iff in H as [Hs H].
    destruct (IH H) as [kl [Hkl Hok]]. rewrite Hkl.
    destruct (sort_key_subtask s Hs) as [n ->]. simpl.
    eexists. split; [reflexivity|]. simpl. now rewrite Hs, Hok.
Qed.

Lemma forallb_map {A B} (f : B -> bool) (g : A -> B) l :
  forallb f (map g l) = forallb (fun x => f (g x)) l.
Proof. induction l as [|x l IH]; simpl; [reflexivity|now rewrite IH]. Qed.

Lemma sorted_by_minutes_subtasks l :
  forallb subtask_ok l = true ->
  exists l', sorted_by_minutes (VList l) = Ok (VList l') /\
             forallb subtask_ok l' = true.
Proof.
  intros H. destruct (keyed_subtasks l H) as [kl [Hkl Hok]].
  unfold sorted_by_minutes. rewrite Hkl. simpl.
  eexists. split; [reflexivity|].
  rewrite forallb_map. now apply forallb_sort_by.
Qed.

(** ** The updates a prompt derives *)

Lemma simpler_str s : exists s', simpler (VStr s) = Ok (VStr s').
Proof.
  unfold simpler. simpl.
  destruct (120 <? Z.of_nat (str_len s)); eauto.
Qed.

Lemma derive_updates_task x d p :
  editable_ok d = true ->
  exists u, derive_updates (("_id", x) :: d) p = Ok u /\
            forallb (fun kv => derived_ok (fst kv) (snd kv)) u = true.
Proof.
  intros Hd.
  destruct (editable_ok_inv d Hd) as (t & s & m & e & l & H1 & H2 & H3 & H4 & H5 & Hl).
  unfold derive_updates.
  rewrite !(get_task_field "description" _ _ _ _ H2 eq_refl).
  rewrite !(get_task_field "subtasks" _ _ _ _ H5 eq_refl).
  destruct (simpler_str s) as [s' ->].
  destruct (sorted_by_minutes_subtasks l Hl) as (l' & -> & Hl').
  unfold append_stripped.
  destruct (str_in "simpler" p || str_in "shorter" p);
    destruct (str_in "more details" p || str_in "expand" p);
    destruct (str_in "prioritize" p);
    destruct (str_in "emoji" p);
    cbn; eexists; (split; [reflexivity|]);
    unfold derived_ok; cbn; rewrite ?Hl'; reflexivity.
Qed.

Lemma derive_updates_no_keyword `{Unicode} x d p s :
  dict_get "description" d = Some (VStr s) ->
  matches_keyword p = false ->
  derive_updates (("_id", x) :: d) (lower p) =
  Ok [("description", VStr (strip (s +:+ tuned)))].
Proof.
  intros H2 Hk. unfold matches_keyword, keywords in Hk. cbn [existsb] in Hk.
  repeat (apply orb_false_iff in Hk as [? Hk]).
  unfold derive_updates.
  rewrite !(get_task_field "description" _ _ _ _ H2 eq_refl).
  repeat match goal with E : str_in _ _ = false |- _ => rewrite E; clear E end.
  reflexivity.
Qed.

(** ** One request on an existing task *)

Lemma slice_to_take h c :
  -1 <= c -> slice_to h (c + 1) = take (Z.to_nat (c + 1)) h.
Proof.
  intros Hc. unfold slice_to.
  destruct (Z.ltb_spec (c + 1) 0); [lia|reflexivity].
Qed.

Lemma snapshot_of_task x d :
  snapshot_of (("_id", x) :: d) = snapshot_of d.
Proof. reflexivity. Qed.

Lemma snapshot_of_editable d t s m e l :
  dict_get "title" d = Some (VStr t) ->
  dict_get "description" d = Some (VStr s) ->
  dict_get "estimatedMinutes" d = Some (VInt m) ->
  dict_get "emoji" d = Some (VStr e) ->
  dict_get "subtasks" d = Some (VList l) ->
  snapshot_of d =
  [("title", VStr t); ("description", VStr s); ("estimatedMinutes", VInt m);
   ("emoji", VStr e); ("subtasks", VList l)].
Proof.
  intros H1 H2 H3 H4 H5. unfold snapshot_of, editable. cbn [flat_map].
  now rewrite H1, H2, H3, H4, H5.
Qed.

Lemma ai_edit_task_step `{Unicode} tid p i db d h c u now :
  ObjectId tid = Some i -> db !! i = Some d ->
  dict_get "aiHistory" d = Some (VList h) ->
  dict_get "aiCursor" d = Some (VInt c) ->
  derive_updates (("_id", VObjectId i) :: d) (lower p) = Ok u ->
  forallb (fun kv => derived_ok (fst kv) (snd kv)) u = true ->
  let nh := (slice_to h (c + 1) ++ [VDict (snapshot_of d)])%list in
  let d' := edited u nh now d in
  ai_edit_task {| AIEditPayload.taskId := tid; AIEditPayload.prompt := p |}
    now db =
  (Ok (serialize (Some (("_id", VObjectId i) :: d'))), <[i := d']> db).
Proof.
  intros Hi Hd Hh Hc Hu Hok nh d'.
  unfold ai_edit_task. cbn [AIEditPayload.taskId AIEditPayload.prompt].
  rewrite (bind_lift_Ok _ i) by now apply oid_Some.
  rewrite bind_find_one, Hd. cbn [option_map].
  rewrite bind_found_Some. cbv zeta.
  rewrite (get_task_field "aiCursor" _ _ _ _ Hc eq_refl).
  rewrite (get_task_field "aiHistory" _ _ _ _ Hh eq_refl).
  rewrite (bind_lift_Ok _ nh) by reflexivity.
  rewrite (bind_lift_Ok _ u) by exact Hu.
  rewrite (bind_lift_Ok _ i) by now apply oid_Some.
  rewrite (bind_update_one_Some _ _ d d' _ _ Hd).
  2:{ apply apply_set_plain.
      do 3 (apply forallb_keys_dict_set; [reflexivity|]).
      revert Hok. apply forallb_impl. intros [k v]. apply derived_ok_plain. }
  rewrite (bind_lift_Ok _ i) by now apply oid_Some.
  rewrite bind_find_one, lookup_insert_eq. reflexivity.
Qed.

Lemma ai_undo_noop tid i db d c now :
  ObjectId tid = Some i -> db !! i = Some d ->
  dict_get "aiCursor" d = Some (VInt c) -> c < 0 ->
  ai_undo {| AIHistoryMove.taskId := tid |} now db =
  (Ok (serialize (Some (("_id", VObjectId i) :: d))), db).
Proof.
  intros Hi Hd Hc Hlt.
  unfold ai_undo. cbn [AIHistoryMove.taskId].
  rewrite (bind_lift_Ok _ i) by now apply oid_Some.
  rewrite bind_find_one, Hd. cbn [option_map].
  rewrite bind_found_Some. cbv zeta.
  rewrite (get_task_field "aiCursor" _ _ _ _ Hc eq_refl).
  rewrite (bind_lift_Ok _ c) by reflexivity.
  destruct (Z.ltb_spec c 0); [reflexivity|lia].
Qed.

Lemma snapshot_plain snap :
  snapshot_ok (VDict snap) = true ->
  forallb (fun kv => plain_key (fst kv)) snap = true.
Proof.
  intros H. destruct (snapshot_ok_inv _ H) as (t & s & m & e & l & E & _).
  injection E as ->. reflexivity.
Qed.

Lemma ai_undo_step tid i db d h c snap now :
  ObjectId tid = Some i -> db !! i = Some d ->
  dict_get "aiHistory" d = Some (VList h) ->
  dict_get "aiCursor" d = Some (VInt c) -> 0 <= c ->
  h !! Z.to_nat c = Some (VDict snap) ->
  snapshot_ok (VDict snap) = true ->
  let d' := restored snap (c - 1) now d in
  ai_undo {| AIHistoryMove.taskId := tid |} now db =
  (Ok (serialize (Some (("_id", VObjectId i) :: d'))), <[i := d']> db).
Proof.
  intros Hi Hd Hh Hc Hge Hsnap Hok d'.
  unfold ai_undo. cbn [AIHistoryMove.taskId].
  rewrite (bind_lift_Ok _ i) by now apply oid_Some.
  rewrite bind_find_one, Hd. cbn [option_map].
  rewrite bind_found_Some. cbv zeta.
  rewrite (get_task_field "aiCursor" _ _ _ _ Hc eq_refl).
  rewrite (get_task_field "aiHistory" _ _ _ _ Hh eq_refl).
  rewrite (bind_lift_Ok _ c) by reflexivity.
  destruct (Z.ltb_spec c 0); [lia|].
  rewrite (bind_lift_Ok _ snap).
  2:{ unfold snapshot_at. now rewrite (getitem_lookup _ _ _ Hge Hsnap). }
  rewrite (bind_lift_Ok _ i) by now apply oid_Some.
  rewrite (bind_update_one_Some _ _ d d' _ _ Hd).
  2:{ apply apply_set_plain. unfold dict_update. cbn [fold_left fst snd].
      do 2 (apply forallb_keys_dict_set; [reflexivity|]).
      now apply snapshot_plain. }
  rewrite (bind_lift_Ok _ i) by now apply oid_Some.
  rewrite bind_find_one, lookup_insert_eq. reflexivity.
Qed.

Lemma ai_redo_noop tid i db d h c now :
  ObjectId tid = Some i -> db !! i = Some d ->
  dict_get "aiHistory" d = Some (VList h) ->
  dict_get "aiCursor" d = Some (VInt c) ->
  Z.of_nat (length h) <= c + 1 ->
  ai_redo {| AIHistoryMove.taskId := tid |} now db =
  (Ok (serialize (Some (("_id", VObjectId i) :: d))), db).
Proof.
  intros Hi Hd Hh Hc Hlt.
  unfold ai_redo. cbn [AIHistoryMove.taskId].
  rewrite (bind_lift_Ok _ i) by now apply oid_Some.
  rewrite bind_find_one, Hd. cbn [option_map].
  rewrite bind_found_Some. cbv zeta.
  rewrite (get_task_field "aiCursor" _ _ _ _ Hc eq_refl).
  rewrite (get_task_field "aiHistory" _ _ _ _ Hh eq_refl).
  rewrite (bind_lift_Ok _ c) by reflexivity.
  rewrite (bind_lift_Ok _ (Z.of_nat (length h))) by reflexivity.
  destruct (Z.geb_spec (c + 1) (Z.of_nat (length h))); [reflexivity|lia].
Qed.

Lemma ai_redo_step tid i db d h c snap now :
  ObjectId tid = Some i -> db !! i = Some d ->
  dict_get "aiHistory" d = Some (VList h) ->
  dict_get "aiCursor" d = Some (VInt c) -> -1 <= c ->
  h !! Z.to_nat (c + 1) = Some (VDict snap) ->
  snapshot_ok (VDict snap) = true ->
  let d' := restored snap (c + 1) now d in
  ai_redo {| AIHistoryMove.taskId := tid |} now db =
  (Ok (serialize (Some (("_id", VObjectId i) :: d'))), <[i := d']> db).
Proof.
  intros Hi Hd Hh Hc Hge Hsnap Hok d'.
  pose proof (lookup_lt_Some _ _ _ Hsnap) as Hlt.
  unfold ai_redo. cbn [AIHistoryMove.taskId].
  rewrite (bind_lift_Ok _ i) by now apply oid_Some.
  rewrite bind_find_one, Hd. cbn [option_map].
  rewrite bind_found_Some. cbv zeta.
  rewrite (get_task_field "aiCursor" _ _ _ _ Hc eq_refl).
  rewrite (get_task_field "aiHistory" _ _ _ _ Hh eq_refl).
  rewrite (bind_lift_Ok _ c) by reflexivity.
  rewrite (bind_lift_Ok _ (Z.of_nat (length h))) by reflexivity.
  destruct (Z.geb_spec (c + 1) (Z.of_nat (length h))); [lia|].
  rewrite (bind_lift_Ok _ snap).
  2:{ unfold snapshot_at. rewrite (getitem_lookup _ _ (VDict snap)); auto. lia. }
  rewrite (bind_lift_Ok _ i) by now apply oid_Some.
  rewrite (bind_update_one_Some _ _ d d' _ _ Hd).
  2:{ apply apply_set_plain. unfold dict_update. cbn [fold_left fst snd].
      do 2 (apply forallb_keys_dict_set; [reflexivity|]).
      now apply snapshot_plain. }
  rewrite (bind_lift_Ok _ i) by now apply oid_Some.
  rewrite bind_find_one, lookup_insert_eq. reflexivity.
Qed.

(** ** The documents written *)

Lemma restored_get snap c now d k :
  snapshot_ok (VDict snap) = true ->
  dict_get k (restored snap c now d) =
  if String.eqb k "updated_at" then Some (VDatetime now)
  else if String.eqb k "aiCursor" then Some (VInt c)
  else match dict_get k snap with
       | Some v => Some v
       | None => dict_get k d
       end.
Proof.
  intros H. destruct (snapshot_ok_inv _ H) as (t & s & m & e & l & E & _).
  injection E as ->.
  unfold restored, dict_update. cbn [fold_left fst snd dict_set String.eqb Ascii.eqb Bool.eqb].
  rewrite !dict_get_dict_set. cbn [dict_get].
  destruct (String.eqb_spec k "updated_at") as [->|]; [reflexivity|].
  destruct (String.eqb_spec k "aiCursor") as [->|]; [reflexivity|].
  destruct (String.eqb_spec k "subtasks") as [->|]; [reflexivity|].
  destruct (String.eqb_spec k "emoji") as [->|]; [reflexivity|].
  destruct (String.eqb_spec k "estimatedMinutes") as [->|]; [reflexivity|].
  destruct (String.eqb_spec k "description") as [->|]; [reflexivity|].
  destruct (String.eqb_spec k "title") as [->|]; reflexivity.
Qed.

Lemma restored_is_task snap c now d h c0 :
  is_task d = true ->
  dict_get "aiHistory" d = Some (VList h) ->
  dict_get "aiCursor" d = Some (VInt c0) ->
  snapshot_ok (VDict snap) = true ->
  -1 <= c <= Z.of_nat (length h) - 1 ->
  is_task (restored snap c now d) = true.
Proof.
  intros Hd Hh Hc0 Hs Hc.
  destruct (is_task_inv d Hd) as [He Hhist].
  destruct (history_ok_inv d Hhist) as (h' & c' & Hh' & Hc' & Hall & _).
  rewrite Hh in Hh'. injection Hh' as <-.
  destruct (snapshot_ok_inv _ Hs) as (t & s & m & e & l & E & Hl).
  unfold is_task. apply andb_true_iff. split.
  - apply (editable_ok_intro _ t s m e l); auto;
      rewrite (restored_get _ _ _ _ _ Hs); injection E as ->; reflexivity.
  - apply (history_ok_intro _ h c); auto;
      rewrite (restored_get _ _ _ _ _ Hs); injection E as ->; cbn; auto.
Qed.

Lemma editable_ok_dict_update d u :
  editable_ok d = true ->
  forallb (fun kv => field_ok (fst kv) (snd kv)) u = true ->
  editable_ok (dict_update d u) = true.
Proof.
  unfold editable_ok. intros Hd Hu.
  rewrite forallb_forall in Hd. apply forallb_forall. intros k Hk.
  apply (dict_update_pres field_ok); auto.
Qed.

Lemma editable_ok_dict_set k v d :
  forallb (fun e => negb (String.eqb e k)) editable = true ->
  editable_ok d = true ->
  editable_ok (dict_set k v d) = true.
Proof.
  unfold editable_ok. intros Hk Hd.
  rewrite forallb_forall in Hd, Hk. apply forallb_forall. intros e He.
  rewrite dict_get_dict_set.
  specialize (Hk e He). apply negb_true_iff in Hk. rewrite Hk. auto.
Qed.

Lemma edited_get_other u nh now d k :
  forallb (fun kv => derived_ok (fst kv) (snd kv)) u = true ->
  String.eqb k "description" = false ->
  String.eqb k "subtasks" = false ->
  String.eqb k "emoji" = false ->
  dict_get k (edited u nh now d) =
  if String.eqb k "updated_at" then Some (VDatetime now)
  else if String.eqb k "aiCursor"
       then Some (VInt (Z.of_nat (length nh) - 1))
  else if String.eqb k "aiHistory" then Some (VList nh)
  else dict_get k d.
Proof.
  intros Hu H1 H2 H3. rewrite (edited_eq _ _ _ _ Hu).
  rewrite !dict_get_dict_set.
  rewrite dict_get_dict_update_other by now apply derived_keys_other.
  reflexivity.
Qed.

Lemma edited_is_task u nh now d :
  editable_ok d = true ->
  forallb (fun kv => derived_ok (fst kv) (snd kv)) u = true ->
  forallb snapshot_ok nh = true ->
  (0 < length nh)%nat ->
  is_task (edited u nh now d) = true.
Proof.
  intros Hd Hu Hnh Hlen. unfold is_task. apply andb_true_iff. split.
  - rewrite (edited_eq _ _ _ _ Hu).
    do 3 (apply editable_ok_dict_set; [reflexivity|]).
    apply editable_ok_dict_update; [exact Hd|].
    revert Hu. apply forallb_impl. intros [k v]. apply derived_ok_field.
  - apply (history_ok_intro _ nh (Z.of_nat (length nh) - 1)); auto;
      try (rewrite (edited_get_other _ _ _ _ _ Hu) by reflexivity; reflexivity).
    lia.
Qed.

(** ** The three AI requests on a task *)

Lemma snapshot_of_ok d :
  editable_ok d = true -> snapshot_ok (VDict (snapshot_of d)) = true.
Proof.
  intros Hd.
  destruct (editable_ok_inv d Hd)
    as (t & s & m & e & l & H1 & H2 & H3 & H4 & H5 & Hl).
  rewrite (snapshot_of_editable d t s m e l) by assumption.
  cbn. exact Hl.
Qed.

Lemma edit_task `{Unicode} tid p i db d h c now :
  ObjectId tid = Some i -> db !! i = Some d -> is_task d = true ->
  dict_get "aiHistory" d = Some (VList h) ->
  dict_get "aiCursor" d = Some (VInt c) ->
  exists u,
    derive_updates (("_id", VObjectId i) :: d) (lower p) = Ok u /\
    forallb (fun kv => derived_ok (fst kv) (snd kv)) u = true /\
    let nh := (take (Z.to_nat (c + 1)) h ++ [VDict (snapshot_of d)])%list in
    let d' := edited u nh now d in
    ai_edit_task {| AIEditPayload.taskId := tid; AIEditPayload.prompt := p |}
      now db =
    (Ok (serialize (Some (("_id", VObjectId i) :: d'))), <[i := d']> db) /\
    is_task d' = true.
Proof.
  intros Hi Hd Ht Hh Hc.
  destruct (is_task_inv d Ht) as [He Hhist].
  destruct (history_ok_inv d Hhist) as (h' & c' & Hh' & Hc' & Hall & Hr).
  rewrite Hh in Hh'. injection Hh' as <-.
  rewrite Hc in Hc'. injection Hc' as <-.
  destruct (derive_updates_task (VObjectId i) d (lower p) He) as (u & Hu & Hok).
  exists u. split; [exact Hu|]. split; [exact Hok|].
  intros nh d'. split.
  - pose proof (ai_edit_task_step tid p i db d h c u now Hi Hd Hh Hc Hu Hok)
      as Hstep.
    cbv zeta in Hstep. rewrite slice_to_take in Hstep by lia. exact Hstep.
  - apply edited_is_task; auto.
    + unfold nh. rewrite forallb_app. cbn [forallb].
      rewrite (forallb_take _ _ _ Hall), (snapshot_of_ok d He). reflexivity.
    + unfold nh. rewrite length_app. cbn. lia.
Qed.

Lemma undo_task tid i db d h c now :
  ObjectId tid = Some i -> db !! i = Some d -> is_task d = true ->
  dict_get "aiHistory" d = Some (VList h) ->
  dict_get "aiCursor" d = Some (VInt c) ->
  (c = -1 /\
   ai_undo {| AIHistoryMove.taskId := tid |} now db =
   (Ok (serialize (Some (("_id", VObjectId i) :: d))), db)) \/
  (exists snap,
     0 <= c /\
     h !! Z.to_nat c = Some (VDict snap) /\
     snapshot_ok (VDict snap) = true /\
     let d' := restored snap (c - 1) now d in
     ai_undo {| AIHistoryMove.taskId := tid |} now db =
     (Ok (serialize (Some (("_id", VObjectId i) :: d'))), <[i := d']> db) /\
     is_task d' = true).
Proof.
  intros Hi Hd Ht Hh Hc.
  destruct (is_task_inv d Ht) as [He Hhist].
  destruct (history_ok_inv d Hhist) as (h' & c' & Hh' & Hc' & Hall & Hr).
  rewrite Hh in Hh'. injection Hh' as <-.
  rewrite Hc in Hc'. injection Hc' as <-.
  destruct (Z_lt_ge_dec c 0) as [Hneg|Hpos].
  - left. split; [lia|]. now apply (ai_undo_noop tid i db d c).
  - right.
    destruct (lookup_lt_is_Some_2 h (Z.to_nat c)) as [v Hv]; [lia|].
    pose proof (forallb_lookup _ _ _ _ Hall Hv) as Hok.
    destruct (snapshot_ok_inv _ Hok) as (t & s & m & e & l & E & _).
    subst v. eexists. split; [lia|]. split; [exact Hv|]. split; [exact Hok|].
    intros d'. split.
    + apply (ai_undo_step tid i db d h c); auto. lia.
    + apply (restored_is_task _ _ _ _ h c); auto. lia.
Qed.

Lemma redo_task tid i db d h c now :
  ObjectId tid = Some i -> db !! i = Some d -> is_task d = true ->
  dict_get "aiHistory" d = Some (VList h) ->
  dict_get "aiCursor" d = Some (VInt c) ->
  (Z.of_nat (length h) <= c + 1 /\
   ai_redo {| AIHistoryMove.taskId := tid |} now db =
   (Ok (serialize (Some (("_id", VObjectId i) :: d))), db)) \/
  (exists snap,
     c + 1 < Z.of_nat (length h) /\
     h !! Z.to_nat (c + 1) = Some (VDict snap) /\
     snapshot_ok (VDict snap) = true /\
     let d' := restored snap (c + 1) now d in
     ai_redo {| AIHistoryMove.taskId := tid |} now db =
     (Ok (serialize (Some (("_id", VObjectId i) :: d'))), <[i := d']> db) /\
     is_task d' = true).
Proof.
  intros Hi Hd Ht Hh Hc.
  destruct (is_task_inv d Ht) as [He Hhist].
  destruct (history_ok_inv d Hhist) as (h' & c' & Hh' & Hc' & Hall & Hr).
  rewrite Hh in Hh'. injection Hh' as <-.
  rewrite Hc in Hc'. injection Hc' as <-.
  destruct (Z_lt_ge_dec (c + 1) (Z.of_nat (length h))) as [Hlt|Hge].
  - right.
    destruct (lookup_lt_is_Some_2 h (Z.to_nat (c + 1))) as [v Hv]; [lia|].
    pose proof (forallb_lookup _ _ _ _ Hall Hv) as Hok.
    destruct (snapshot_ok_inv _ Hok) as (t & s & m & e & l & E & _).
    subst v. eexists. split; [lia|]. split; [exact Hv|]. split; [exact Hok|].
    intros d'. split.
    + apply (ai_redo_step tid i db d h c); auto. lia.
    + apply (restored_is_task _ _ _ _ h c); auto. lia.
  - left. split; [lia|]. apply (ai_redo_noop tid i db d h c); auto. lia.
Qed.

Lemma run_op_is_task `{Unicode} tid i o db d :
  ObjectId tid = Some i -> db !! i = Some d -> is_task d = true ->
  exists d', snd (run_op tid o db) !! i = Some d' /\ is_task d' = true.
Proof.
  intros Hi Hd Ht.
  destruct (is_task_inv d Ht) as [He Hhist].
  destruct (history_ok_inv d Hhist) as (h & c & Hh & Hc & Hall & Hr).
  destruct o as [p now|now|now]; cbn [run_op].
  - destruct (edit_task tid p i db d h c now Hi Hd Ht Hh Hc)
      as (u & _ & _ & Hrun).
    cbv zeta in Hrun. destruct Hrun as [-> Ht'].
    eexists. split; [apply lookup_insert_eq|exact Ht'].
  - destruct (undo_task tid i db d h c now Hi Hd Ht Hh Hc)
      as [[_ ->]|(snap & _ & _ & _ & Hrun)].
    + exists d. auto.
    + cbv zeta in Hrun. destruct Hrun as [-> Ht'].
      eexists. split; [apply lookup_insert_eq|exact Ht'].
  - destruct (redo_task tid i db d h c now Hi Hd Ht Hh Hc)
      as [[_ ->]|(snap & _ & _ & _ & Hrun)].
    + exists d. auto.
    + cbv zeta in Hrun. destruct Hrun as [-> Ht'].
      eexists. split; [apply lookup_insert_eq|exact Ht'].
Qed.

Lemma run_ops_is_task `{Unicode} tid i ops db d :
  ObjectId tid = Some i -> db !! i = Some d -> is_task d = true ->
  exists d', run_ops tid ops db !! i = Some d' /\ is_task d' = true.
Proof.
  intros Hi. revert db d.
  induction ops as [|o ops IH]; intros db d Hd Ht; cbn.
  - exists d. auto.
  - destruct (run_op_is_task tid i o db d Hi Hd Ht) as (d1 & Hd1 & Ht1).
    exact (IH _ d1 Hd1 Ht1).
Qed.

Lemma is_task_cursor_in_range d : is_task d = true -> cursor_in_range d.
Proof.
  intros Ht. destruct (is_task_inv d Ht) as [_ Hhist].
  destruct (history_ok_inv d Hhist) as (h & c & Hh & Hc & _ & Hr).
  exists h, c. auto.
Qed.

(** ** Edits followed by as many undos *)

Lemma run_ops_app `{Unicode} tid a b db :
  run_ops tid (a ++ b) db = run_ops tid b (run_ops tid a db).
Proof. unfold run_ops. apply fold_left_app. Qed.

Lemma run_ops_cons `{Unicode} tid o ops db :
  run_ops tid (o :: ops) db = run_ops tid ops (snd (run_op tid o db)).
Proof. reflexivity. Qed.

Lemma split_last {A} (l : list A) n :
  length l = S n -> exists l' x, l = (l' ++ [x])%list /\ length l' = n.
Proof.
  intros H. destruct (exists_last (l := l)) as (l' & x & ->).
  - intros ->. discriminate.
  - exists l', x. split; [reflexivity|].
    rewrite length_app in H. cbn in H. lia.
Qed.

Lemma restored_editable_fields d0 c now d :
  editable_ok d0 = true ->
  editable_fields (restored (snapshot_of d0) c now d) = editable_fields d0.
Proof.
  intros Hd.
  pose proof (snapshot_of_ok d0 Hd) as Hok.
  destruct (editable_ok_inv d0 Hd)
    as (t & s & m & e & l & H1 & H2 & H3 & H4 & H5 & Hl).
  unfold editable_fields, editable. cbn [map].
  rewrite !(restored_get _ _ _ _ _ Hok).
  rewrite (snapshot_of_editable d0 t s m e l) by assumption.
  cbn. now rewrite H1, H2, H3, H4, H5.
Qed.

Lemma edits_undos_restore `{Unicode} tid i ps :
  ObjectId tid = Some i ->
  forall ts db d h c,
    db !! i = Some d -> is_task d = true ->
    dict_get "aiHistory" d = Some (VList h) ->
    dict_get "aiCursor" d = Some (VInt c) ->
    length ps = length ts ->
    exists d' h',
      run_ops tid (edits ps ++ undos ts) db !! i = Some d' /\
      is_task d' = true /\
      editable_fields d' = editable_fields d /\
      dict_get "aiCursor" d' = Some (VInt c) /\
      dict_get "aiHistory" d' = Some (VList h') /\
      take (Z.to_nat (c + 1)) h' = take (Z.to_nat (c + 1)) h.
Proof.
  intros Hi. induction ps as [|[p now] ps IH]; intros ts db d h c Hd Ht Hh Hc Hlen.
  - destruct ts; [|discriminate]. cbn. exists d, h. repeat split; auto.
  - cbn [length] in Hlen. symmetry in Hlen.
    destruct (split_last ts _ Hlen) as (ts' & t & -> & Hlen').
    destruct (is_task_inv d Ht) as [He Hhist].
    destruct (history_ok_inv d Hhist) as (h0 & c0 & Hh0 & Hc0 & Hall & Hr).
    rewrite Hh in Hh0. injection Hh0 as <-.
    rewrite Hc in Hc0. injection Hc0 as <-.
    destruct (edit_task tid p i db d h c now Hi Hd Ht Hh Hc)
      as (u & Hu & Hok & Hrun).
    cbv zeta in Hrun. destruct Hrun as [Hrun Ht1].
    set (nh := (take (Z.to_nat (c + 1)) h ++ [VDict (snapshot_of d)])%list) in *.
    set (d1 := edited u nh now d) in *.
    assert (Hlen_take : length (take (Z.to_nat (c + 1)) h) = Z.to_nat (c + 1))
      by (rewrite length_take; lia).
    assert (Hnh : Z.of_nat (length nh) - 1 = c + 1)
      by (unfold nh; rewrite length_app, Hlen_take; cbn; lia).
    assert (Hh1 : dict_get "aiHistory" d1 = Some (VList nh))
      by (unfold d1; rewrite (edited_get_other _ _ _ _ _ Hok) by reflexivity;
          reflexivity).
    assert (Hc1 : dict_get "aiCursor" d1 = Some (VInt (c + 1)))
      by (unfold d1; rewrite (edited_get_other _ _ _ _ _ Hok) by reflexivity;
          cbn; now rewrite Hnh).
    unfold undos. rewrite map_app. fold (undos ts'). cbn [map edits].
    fold (edits ps). rewrite <- app_comm_cons, app_assoc.
    rewrite run_ops_cons. cbn [run_op fst snd]. rewrite Hrun. cbn [snd].
    rewrite run_ops_app.
    destruct (IH ts' (<[i := d1]> db) d1 nh (c + 1))
      as (d2 & h2 & Hd2 & Ht2 & He2 & Hc2 & Hh2 & Htk); auto.
    { apply lookup_insert_eq. }
    set (db2 := run_ops tid (edits ps ++ undos ts') (<[i := d1]> db)) in *.
    rewrite (take_ge nh) in Htk by lia.
    rewrite run_ops_cons. cbn [run_ops fold_left run_op].
    assert (Hsnap : h2 !! Z.to_nat (c + 1) = Some (VDict (snapshot_of d))).
    { assert (E : take (Z.to_nat (c + 1 + 1)) h2 !! Z.to_nat (c + 1)
                  = nh !! Z.to_nat (c + 1)) by now rewrite Htk.
      rewrite lookup_take_lt in E by lia. rewrite E.
      unfold nh. rewrite lookup_app_r by lia.
      rewrite Hlen_take, Nat.sub_diag. reflexivity. }
    destruct (undo_task tid i db2 d2 h2 (c + 1) t Hi Hd2 Ht2 Hh2 Hc2)
      as [[Hneg _]|(snap & _ & Hs & Hsok & Hrun2)]; [lia|].
    rewrite Hsnap in Hs. injection Hs as <-.
    cbv zeta in Hrun2. destruct Hrun2 as [-> Ht3].
    replace (c + 1 - 1) with c in * by lia.
    cbn [snd]. eexists. exists h2.
    split; [apply lookup_insert_eq|].
    split; [exact Ht3|].
    split; [now apply restored_editable_fields|].
    split; [rewrite (restored_get _ _ _ _ _ Hsok); reflexivity|].
    split.
    + rewrite (restored_get _ _ _ _ _ Hsok).
      rewrite (snapshot_of_ok d He) in Hsok.
      destruct (editable_ok_inv d He)
        as (t0 & s0 & m0 & e0 & l0 & H1 & H2 & H3 & H4 & H5 & Hl).
      rewrite (snapshot_of_editable d t0 s0 m0 e0 l0) by assumption.
      cbn. exact Hh2.
    + assert (E : take (Z.to_nat (c + 1)) (take (Z.to_nat (c + 1 + 1)) h2)
                  = take (Z.to_nat (c + 1)) nh) by now rewrite Htk.
      rewrite take_take in E.
      rewrite Nat.min_l in E by lia. rewrite E.
      unfold nh. rewrite take_app_le by (rewrite Hlen_take; lia).
      rewrite take_take. now rewrite Nat.min_id.
Qed.

(** ** Subtasks *)

Lemma subtask_ok_inv v :
  subtask_ok v = true ->
  exists s b, v = VDict s /\ dict_get "completed" s = Some (VBool b).
Proof.
  unfold subtask_ok. intros H.
  destruct v as [| | | | | | |s]; try discriminate.
  destruct (dict_get "emoji" s) as [[]|]; try discriminate.
  destruct (dict_get "title" s) as [[]|]; try discriminate.
  destruct (dict_get "estimatedMinutes" s) as [[]|]; try discriminate.
  destruct (dict_get "completed" s) as [[| b| | | | | |]|] eqn:Ec;
    try discriminate.
  exists s, b. split; [reflexivity|exact Ec].
Qed.

Lemma flipped_bool s b :
  dict_get "completed" s = Some (VBool b) ->
  flipped s = VDict (dict_set "completed" (VBool (negb b)) s).
Proof. intros H. unfold flipped. now rewrite (get_Some _ _ _ _ H). Qed.

Lemma subtask_ok_flipped s :
  subtask_ok (VDict s) = true -> subtask_ok (flipped s) = true.
Proof.
  intros H. destruct (subtask_ok_inv _ H) as (s' & b & E & Hb).
  injection E as <-. rewrite (flipped_bool s b Hb).
  unfold subtask_ok in *. rewrite !dict_get_dict_set. cbn.
  destruct (dict_get "emoji" s) as [[]|]; try discriminate.
  destruct (dict_get "title" s) as [[]|]; try discriminate.
  destruct (dict_get "estimatedMinutes" s) as [[]|]; try discriminate.
  reflexivity.
Qed.

Lemma dict_set_dict_set k v1 v2 d :
  dict_set k v2 (dict_set k v1 d) = dict_set k v2 d.
Proof.
  induction d as [|[k0 v0] d IH]; cbn.
  - now rewrite String.eqb_refl.
  - destruct (String.eqb k k0) eqn:E; cbn.
    + now rewrite String.eqb_refl.
    + now rewrite E, IH.
Qed.


Lemma flip_completed_lookup l index s :
  0 <= index -> l !! Z.to_nat index = Some (VDict s) ->
  flip_completed (VList l) index =
  Ok (VList (<[Z.to_nat index := flipped s]> l)).
Proof.
  intros Hge Hl. pose proof (lookup_lt_Some _ _ _ Hl) as Hlt.
  unfold flip_completed. rewrite (getitem_lookup _ _ _ Hge Hl). cbn [rbind].
  unfold setitem.
  destruct (Z.ltb_spec index 0); [lia|].
  destruct (Z.leb_spec 0 index); [|lia].
  destruct (Z.ltb_spec index (Z.of_nat (length l))); [|lia].
  reflexivity.
Qed.

Lemma toggle_subtask_missing tid i db index now :
  ObjectId tid = Some i -> db !! i = None ->
  toggle_subtask tid index now db =
  (Raise (HTTPException 404 "Task not found"), db).
Proof.
  intros Hi Hd. unfold toggle_subtask.
  rewrite (bind_lift_Ok _ i) by now apply oid_Some.
  rewrite bind_find_one, Hd. reflexivity.
Qed.

Lemma toggle_subtask_invalid tid i db d l index now :
  ObjectId tid = Some i -> db !! i = Some d ->
  dict_get "subtasks" d = Some (VList l) ->
  index < 0 \/ Z.of_nat (length l) <= index ->
  toggle_subtask tid index now db =
  (Raise (HTTPException 400 "Invalid subtask index"), db).
Proof.
  intros Hi Hd Hl Hr. unfold toggle_subtask.
  rewrite (bind_lift_Ok _ i) by now apply oid_Some.
  rewrite bind_find_one, Hd. cbn [option_map].
  rewrite bind_found_Some. cbv zeta.
  rewrite (get_task_field "subtasks" _ _ _ _ Hl eq_refl).
  rewrite (bind_lift_Ok _ true); [reflexivity|].
  destruct (Z.ltb_spec index 0); [reflexivity|]. cbn.
  destruct (Z.geb_spec index (Z.of_nat (length l))); [reflexivity|lia].
Qed.

Lemma toggle_subtask_step tid i db d l s index now :
  ObjectId tid = Some i -> db !! i = Some d ->
  dict_get "subtasks" d = Some (VList l) ->
  0 <= index -> l !! Z.to_nat index = Some (VDict s) ->
  let d' := dict_set "updated_at" (VDatetime now)
              (dict_set "subtasks"
                 (VList (<[Z.to_nat index := flipped s]> l)) d) in
  toggle_subtask tid index now db =
  (Ok (serialize (Some (("_id", VObjectId i) :: d'))), <[i := d']> db).
Proof.
  intros Hi Hd Hl Hge Hs d'. pose proof (lookup_lt_Some _ _ _ Hs) as Hlt.
  unfold toggle_subtask.
  rewrite (bind_lift_Ok _ i) by now apply oid_Some.
  rewrite bind_find_one, Hd. cbn [option_map].
  rewrite bind_found_Some. cbv zeta.
  rewrite (get_task_field "subtasks" _ _ _ _ Hl eq_refl).
  rewrite (bind_lift_Ok _ false).
  2:{ destruct (Z.ltb_spec index 0); [lia|]. cbn.
      destruct (Z.geb_spec index (Z.of_nat (length l))); [lia|reflexivity]. }
  rewrite (bind_lift_Ok _ _ _ _ (flip_completed_lookup l index s Hge Hs)).
  rewrite (bind_lift_Ok _ i) by now apply oid_Some.
  rewrite (bind_update_one_Some _ _ d d' _ _ Hd) by reflexivity.
  rewrite (bind_lift_Ok _ i) by now apply oid_Some.
  rewrite bind_find_one, lookup_insert_eq. reflexivity.
Qed.

(** ** Timer, create and patch *)

Lemma timer_stop_step tid i db d now :
  ObjectId tid = Some i -> db !! i = Some d ->
  let d' := dict_set "updated_at" (VDatetime now)
              (dict_set "timerSession" reset_timer d) in
  timer_stop tid now db =
  (Ok (serialize (Some (("_id", VObjectId i) :: d'))), <[i := d']> db).
Proof.
  intros Hi Hd d'. unfold timer_stop.
  rewrite (bind_lift_Ok _ i) by now apply oid_Some.
  rewrite (bind_update_one_Some _ _ d d' _ _ Hd) by reflexivity.
  rewrite (bind_lift_Ok _ i) by now apply oid_Some.
  rewrite bind_find_one, lookup_insert_eq. reflexivity.
Qed.

Lemma update_one_present i upd db d :
  db !! i = Some d ->
  exists d', snd (update_one i upd db) !! i = Some d'.
Proof.
  intros Hd. unfold update_one. rewrite Hd.
  destruct (apply_set upd d) as [d'|e]; cbn [snd].
  - exists d'. apply lookup_insert_eq.
  - exists d. exact Hd.
Qed.

Lemma snd_update_then_read tid i upd db :
  ObjectId tid = Some i ->
  snd (bind (update_one i upd)
         (fun _ => bind (lift (oid tid))
            (fun j => bind (find_one j) (fun doc => ret (serialize doc)))) db)
  = snd (update_one i upd db).
Proof.
  intros Hi. unfold bind at 1.
  destruct (update_one i upd db) as [[[]|e] db']; [|reflexivity].
  rewrite (bind_lift_Ok _ i) by now apply oid_Some. reflexivity.
Qed.

Lemma timer_start_present tid i sub t t' db d :
  ObjectId tid = Some i -> db !! i = Some d ->
  exists d', snd (timer_start tid sub t t' db) !! i = Some d'.
Proof.
  intros Hi Hd. unfold timer_start.
  rewrite (bind_lift_Ok _ i) by now apply oid_Some.
  rewrite (snd_update_then_read tid i _ _ Hi).
  now apply (update_one_present i _ db d).
Qed.

Lemma timer_pause_present tid i secs t db d :
  ObjectId tid = Some i -> db !! i = Some d ->
  exists d', snd (timer_pause tid secs t db) !! i = Some d'.
Proof.
  intros Hi Hd. unfold timer_pause.
  rewrite (bind_lift_Ok _ i) by now apply oid_Some.
  rewrite (snd_update_then_read tid i _ _ Hi).
  now apply (update_one_present i _ db d).
Qed.

Lemma create_task_step payload now now' new_id db :
  TaskCreate.valid payload = true -> db !! new_id = None ->
  let d := new_task payload now now' in
  create_task payload now now' new_id db =
  (Ok (serialize (Some (("_id", VObjectId new_id) :: d))),
   <[new_id := d]> db).
Proof.
  intros Hv Hd d. unfold create_task, validated. rewrite Hv. cbv zeta.
  fold (new_task payload now now'). fold d.
  unfold bind at 1, insert_one. rewrite Hd.
  rewrite bind_find_one, lookup_insert_eq. reflexivity.
Qed.

Lemma dict_get_map_iso k d :
  dict_get k (map (fun kv => (fst kv, iso_field (snd kv))) d) =
  option_map iso_field (dict_get k d).
Proof.
  induction d as [|[k0 v0] d IH]; cbn; [reflexivity|].
  destruct (String.eqb k k0); [reflexivity|exact IH].
Qed.

Lemma serialize_task i d :
  serialize (Some (("_id", VObjectId i) :: d)) =
  VDict (map (fun kv => (fst kv, iso_field (snd kv)))
           (dict_set "id" (VStr i) d)).
Proof. reflexivity. Qed.

Lemma update_task_no_fields tid i db now :
  ObjectId tid = Some i ->
  update_task tid no_fields now db =
  (Ok (serialize (option_map (fun d => ("_id", VObjectId i) :: d) (db !! i))),
   db).
Proof.
  intros Hi. unfold update_task, validated, bind, lift, find_one, ret. cbn.
  rewrite (oid_Some _ _ Hi). reflexivity.
Qed.

Lemma update_task_missing tid i payload db now :
  ObjectId tid = Some i -> db !! i = None ->
  TaskUpdate.valid payload = true ->
  update_task tid payload now db = (Ok VNone, db).
Proof.
  intros Hi Hd Hv. unfold update_task, validated. rewrite Hv. cbv zeta.
  destruct (negb (truthy (VDict (TaskUpdate.model_dump_exclude_unset payload)))).
  - rewrite (bind_lift_Ok _ i) by now apply oid_Some.
    rewrite bind_find_one, Hd. reflexivity.
  - rewrite (bind_lift_Ok _ i) by now apply oid_Some.
    rewrite (bind_update_one_None _ _ _ _ Hd).
    rewrite (bind_lift_Ok _ i) by now apply oid_Some.
    rewrite bind_find_one, Hd. reflexivity.
Qed.

(** ** The suffix of an edit without keyword *)

Lemma append_assoc_str (a b c : string) : (a +:+ b) +:+ c = a +:+ (b +:+ c).
Proof.
  induction a as [|x a IH]; [reflexivity|].
  change (String x ((a +:+ b) +:+ c) = String x (a +:+ (b +:+ c))).
  now rewrite IH.
Qed.

Lemma without_prefix_app w c t : forall x r,
  has_byte c w = false ->
  without_prefix w (x +:+ String c t) = Some r ->
  exists x', r = x' +:+ String c t.
Proof.
  induction w as [|a w IH]; intros x r Hc H.
  - injection H as <-. now exists x.
  - cbn [has_byte] in Hc. apply orb_false_iff in Hc as [Hac Hw].
    destruct x as [|b x].
    + change ("" +:+ String c t) with (String c t) in H.
      cbn [without_prefix] in H. rewrite Hac in H. discriminate.
    + change (String b x +:+ String c t) with (String b (x +:+ String c t)) in H.
      cbn [without_prefix] in H.
      destruct (Ascii.eqb a b); [|discriminate].
      now apply (IH x r).
Qed.

Lemma after_space_app c t x r :
  forallb (fun w => negb (has_byte c w)) spaces = true ->
  after_space (x +:+ String c t) = Some r ->
  exists x', r = x' +:+ String c t.
Proof.
  unfold after_space. induction spaces as [|w ws IH]; cbn [fold_right forallb].
  - discriminate.
  - intros Hc H. apply andb_true_iff in Hc as [Hw Hws].
    apply negb_true_iff in Hw.
    destruct (without_prefix w (x +:+ String c t)) as [r'|] eqn:E.
    + injection H as <-. exact (without_prefix_app w c t x r' Hw E).
    + now apply IH.
Qed.

Lemma lstrip_from_app c t fuel : forall x,
  forallb (fun w => negb (has_byte c w)) spaces = true ->
  exists x', lstrip_from fuel (x +:+ String c t) = x' +:+ String c t.
Proof.
  induction fuel as [|fuel IH]; intros x Hc; cbn [lstrip_from].
  - now exists x.
  - destruct (after_space (x +:+ String c t)) as [r|] eqn:E.
    + destruct (after_space_app c t x r Hc E) as [x' ->]. now apply IH.
    + now exists x.
Qed.

Lemma lstrip_app c t x :
  forallb (fun w => negb (has_byte c w)) spaces = true ->
  exists x', lstrip (x +:+ String c t) = x' +:+ String c t.
Proof. intros Hc. unfold lstrip. now apply lstrip_from_app. Qed.

Lemma lstrip_tuned s :
  exists x, lstrip (s +:+ tuned) = x +:+ "Tuned for clarity.".
Proof.
  unfold tuned.
  change (String LF (String LF "Tuned for clarity."))
    with (String LF (String LF "") +:+ "Tuned for clarity.").
  rewrite <- append_assoc_str. now apply lstrip_app.
Qed.

Lemma rstrip_app_kept x :
  rstrip (x +:+ "Tuned for clarity.") = x +:+ "Tuned for clarity.".
Proof.
  induction x as [|a x IH].
  - reflexivity.
  - change (String a x +:+ "Tuned for clarity.")
      with (String a (x +:+ "Tuned for clarity.")).
    cbn [rstrip]. rewrite IH.
    destruct (lstrip_app "T" "uned for clarity." (String a x) eq_refl)
      as [x' E].
    change (String a x +:+ "Tuned for clarity.")
      with (String a (x +:+ "Tuned for clarity.")) in E.
    rewrite E. destruct x'; reflexivity.
Qed.

Lemma endswith_app x w : endswith w (x +:+ w) = true.
Proof.
  induction x as [|a x IH].
  - change ("" +:+ w) with w.
    destruct w; cbn [endswith]; now rewrite String.eqb_refl.
  - change (String a x +:+ w) with (String a (x +:+ w)).
    cbn [endswith]. rewrite IH. apply orb_true_r.
Qed.

Lemma strip_tuned_endswith s :
  endswith "Tuned for clarity." (strip (s +:+ tuned)) = true.
Proof.
  unfold strip. destruct (lstrip_tuned s) as [x ->].
  rewrite rstrip_app_kept. apply endswith_app.
Qed.

(** ** Frame of undo and redo, responses, new tasks *)

Lemma snapshot_get_other snap k :
  snapshot_ok (VDict snap) = true -> ~ In k editable ->
  dict_get k snap = None.
Proof.
  intros H Hk. destruct (snapshot_ok_inv _ H) as (t & s & m & e & l & E & _).
  injection E as ->. cbn [dict_get].
  destruct (String.eqb_spec k "title") as [->|]; [exfalso; apply Hk; cbn; tauto|].
  destruct (String.eqb_spec k "description") as [->|];
    [exfalso; apply Hk; cbn; tauto|].
  destruct (String.eqb_spec k "estimatedMinutes") as [->|];
    [exfalso; apply Hk; cbn; tauto|].
  destruct (String.eqb_spec k "emoji") as [->|]; [exfalso; apply Hk; cbn; tauto|].
  destruct (String.eqb_spec k "subtasks") as [->|];
    [exfalso; apply Hk; cbn; tauto|].
  reflexivity.
Qed.

Lemma restored_frame snap c now d k :
  snapshot_ok (VDict snap) = true ->
  ~ In k editable -> k <> "aiCursor" -> k <> "updated_at" ->
  dict_get k (restored snap c now d) = dict_get k d.
Proof.
  intros H Hk H1 H2. rewrite (restored_get _ _ _ _ _ H).
  apply String.eqb_neq in H1, H2. rewrite H1, H2.
  now rewrite (snapshot_get_other _ _ H Hk).
Qed.

Lemma run_op_returns `{Unicode} tid i o db d :
  ObjectId tid = Some i -> db !! i = Some d -> is_task d = true ->
  exists v db' d',
    run_op tid o db = (Ok v, db') /\ db' !! i = Some d' /\ is_task d' = true.
Proof.
  intros Hi Hd Ht.
  destruct (is_task_inv d Ht) as [He Hhist].
  destruct (history_ok_inv d Hhist) as (h & c & Hh & Hc & Hall & Hr).
  destruct o as [p now|now|now]; cbn [run_op].
  - destruct (edit_task tid p i db d h c now Hi Hd Ht Hh Hc)
      as (u & _ & _ & Hrun).
    cbv zeta in Hrun. destruct Hrun as [-> Ht'].
    do 3 eexists. split; [reflexivity|].
    split; [apply lookup_insert_eq|exact Ht'].
  - destruct (undo_task tid i db d h c now Hi Hd Ht Hh Hc)
      as [[_ ->]|(snap & _ & _ & _ & Hrun)].
    + do 3 eexists. split; [reflexivity|]. split; [exact Hd|exact Ht].
    + cbv zeta in Hrun. destruct Hrun as [-> Ht'].
      do 3 eexists. split; [reflexivity|].
      split; [apply lookup_insert_eq|exact Ht'].
  - destruct (redo_task tid i db d h c now Hi Hd Ht Hh Hc)
      as [[_ ->]|(snap & _ & _ & _ & Hrun)].
    + do 3 eexists. split; [reflexivity|]. split; [exact Hd|exact Ht].
    + cbv zeta in Hrun. destruct Hrun as [-> Ht'].
      do 3 eexists. split; [reflexivity|].
      split; [apply lookup_insert_eq|exact Ht'].
Qed.

Lemma responses_returned `{Unicode} tid i ops :
  ObjectId tid = Some i ->
  forall db d, db !! i = Some d -> is_task d = true ->
  forallb returned (responses tid ops db) = true.
Proof.
  intros Hi. induction ops as [|o ops IH]; intros db d Hd Ht; [reflexivity|].
  destruct (run_op_returns tid i o db d Hi Hd Ht)
    as (v & db' & d' & Hrun & Hd' & Ht').
  cbn [responses]. rewrite Hrun. cbn [forallb returned andb].
  exact (IH db' d' Hd' Ht').
Qed.

Lemma model_dump_subtask_ok s :
  subtask_ok (SubTaskModel.model_dump s) = true.
Proof. reflexivity. Qed.

Lemma new_task_is_task payload now now' :
  is_task (new_task payload now now') = true.
Proof.
  unfold is_task, editable_ok, history_ok, new_task. cbn.
  rewrite forallb_map. rewrite andb_true_r.
  induction (TaskCreate.subtasks payload) as [|s l IH]; [reflexivity|exact IH].
Qed.

(** ** The stored documents stay tasks *)

Lemma is_task_ext d d' :
  (forall k, In k task_keys -> dict_get k d' = dict_get k d) ->
  is_task d' = is_task d.
Proof.
  intros H. unfold is_task, editable_ok, history_ok, editable. cbn [forallb].
  rewrite !H by (cbn; tauto). reflexivity.
Qed.

Lemma set_path_frame p v d d' k :
  set_path p v d = Ok d' -> String.eqb k (hd "" p) = false ->
  dict_get k d' = dict_get k d.
Proof.
  destruct p as [|k0 p']; [discriminate|]. cbn [set_path hd].
  intros H Hk. destruct (String.eqb k0 ""); [discriminate|].
  destruct p' as [|k1 p''].
  - injection H as <-. now rewrite dict_get_dict_set, Hk.
  - destruct (dict_get k0 d) as [[| | | | | | |sub]|].
    1-7: discriminate.
    + destruct (set_path (k1 :: p'') v sub); [|discriminate].
      injection H as <-. now rewrite dict_get_dict_set, Hk.
    + destruct (set_path (k1 :: p'') v []); [|discriminate].
      injection H as <-. now rewrite dict_get_dict_set, Hk.
Qed.

Lemma set_field_frame key v d d' k :
  set_field key v d = Ok d' -> String.eqb k (path_head key) = false ->
  dict_get k d' = dict_get k d.
Proof.
  unfold set_field, path_head. cbv zeta.
  destruct (split "." key) as [|w ws] eqn:E; [discriminate|].
  destruct (String.eqb w "_id"); [discriminate|].
  intros H Hk. now apply (set_path_frame (w :: ws) v).
Qed.

Lemma apply_set_Raise upd e :
  fold_left (fun r kv => let* acc := r in set_field (fst kv) (snd kv) acc)
            upd (Raise e) = Raise e.
Proof. induction upd as [|kv upd IH]; [reflexivity|exact IH]. Qed.

Lemma apply_set_cons k v upd d :
  apply_set ((k, v) :: upd) d =
  let* d1 := set_field k v d in apply_set upd d1.
Proof.
  unfold apply_set. cbn [fold_left fst snd rbind].
  destruct (set_field k v d); [reflexivity|apply apply_set_Raise].
Qed.

Lemma apply_set_frame upd d d' k :
  apply_set upd d = Ok d' ->
  forallb (fun kv => negb (String.eqb k (path_head (fst kv)))) upd = true ->
  dict_get k d' = dict_get k d.
Proof.
  revert d. induction upd as [|[k0 v0] upd IH]; intros d H Hk.
  - injection H as <-. reflexivity.
  - rewrite apply_set_cons in H. cbn [forallb fst] in Hk.
    apply andb_true_iff in Hk as [H0 Hk]. apply negb_true_iff in H0.
    destruct (set_field k0 v0 d) as [d1|] eqn:E; [|discriminate].
    cbn [rbind] in H. rewrite (IH d1 H Hk).
    now apply (set_field_frame k0 v0).
Qed.

Lemma apply_set_spares upd d d' :
  spares_task_keys upd = true -> is_task d = true ->
  apply_set upd d = Ok d' -> is_task d' = true.
Proof.
  intros Hs Ht H. rewrite (is_task_ext d d'); [exact Ht|].
  intros k Hk. apply (apply_set_frame upd d d' k H).
  unfold spares_task_keys in Hs. revert Hs. apply forallb_impl.
  intros [k0 v0] H0. rewrite forallb_forall in H0.
  specialize (H0 k Hk). now rewrite String.eqb_sym.
Qed.

Lemma tasks_only_insert db i d :
  tasks_only db -> is_task d = true -> tasks_only (<[i := d]> db).
Proof.
  intros Hdb Hd j dj. rewrite lookup_insert.
  destruct (decide (i = j)); [congruence|apply Hdb].
Qed.

Lemma tasks_only_delete db i : tasks_only db -> tasks_only (delete i db).
Proof.
  intros Hdb j dj. rewrite lookup_delete.
  destruct (decide (i = j)); [discriminate|apply Hdb].
Qed.

Lemma tasks_only_update_one db i upd :
  tasks_only db ->
  (forall d d', db !! i = Some d -> apply_set upd d = Ok d' ->
                is_task d' = true) ->
  tasks_only (snd (update_one i upd db)).
Proof.
  intros Hdb H. unfold update_one.
  destruct (db !! i) as [d|] eqn:Hd; [|exact Hdb].
  destruct (apply_set upd d) as [d'|] eqn:E; [|exact Hdb].
  cbn [snd]. apply tasks_only_insert; eauto.
Qed.

Lemma oid_None s : ObjectId s = None -> oid s = Raise (HTTPException 400 "Invalid id").
Proof. unfold oid. now intros ->. Qed.

Lemma snd_update_then_read_any tid upd db :
  snd (bind (lift (oid tid)) (fun i =>
         bind (update_one i upd)
           (fun _ => bind (lift (oid tid))
              (fun j => bind (find_one j) (fun doc => ret (serialize doc)))))
         db)
  = match ObjectId tid with
    | Some i => snd (update_one i upd db)
    | None => db
    end.
Proof.
  destruct (ObjectId tid) as [i|] eqn:Hi.
  - rewrite (bind_lift_Ok _ i) by now apply oid_Some.
    apply (snd_update_then_read tid i upd db Hi).
  - rewrite (bind_lift_Raise _ (HTTPException 400 "Invalid id"))
      by now apply oid_None.
    reflexivity.
Qed.

Lemma tasks_only_set tid upd db :
  tasks_only db -> spares_task_keys upd = true ->
  tasks_only
    (snd (bind (lift (oid tid)) (fun i =>
            bind (update_one i upd)
              (fun _ => bind (lift (oid tid))
                 (fun j => bind (find_one j)
                    (fun doc => ret (serialize doc))))) db)).
Proof.
  intros Hdb Hs. rewrite snd_update_then_read_any.
  destruct (ObjectId tid) as [i|]; [|exact Hdb].
  apply tasks_only_update_one; [exact Hdb|].
  intros d d' Hd. apply apply_set_spares; eauto.
Qed.

Lemma keeps_task_inv kv :
  keeps_task kv = true ->
  field_ok (fst kv) (snd kv) = true /\ plain_key (fst kv) = true /\
  negb (String.eqb "aiHistory" (fst kv)) = true /\
  negb (String.eqb "aiCursor" (fst kv)) = true.
Proof.
  unfold keeps_task. intros H.
  repeat (apply andb_true_iff in H as [H ?]). auto.
Qed.

Lemma is_task_dict_update d upd :
  is_task d = true -> forallb keeps_task upd = true ->
  is_task (dict_update d upd) = true.
Proof.
  intros Ht Hu. destruct (is_task_inv d Ht) as [He Hhist].
  destruct (history_ok_inv d Hhist) as (h & c & Hh & Hc & Hall & Hr).
  unfold is_task. apply andb_true_iff. split.
  - apply editable_ok_dict_update; [exact He|].
    revert Hu. apply forallb_impl. intros kv H.
    now destruct (keeps_task_inv kv H).
  - apply (history_ok_intro _ h c); auto.
    + rewrite dict_get_dict_update_other; [exact Hh|].
      revert Hu. apply forallb_impl. intros kv H.
      now destruct (keeps_task_inv kv H) as (_ & _ & ? & _).
    + rewrite dict_get_dict_update_other; [exact Hc|].
      revert Hu. apply forallb_impl. intros kv H.
      now destruct (keeps_task_inv kv H) as (_ & _ & _ & ?).
Qed.

Lemma apply_set_keeps upd d d' :
  forallb keeps_task upd = true -> is_task d = true ->
  apply_set upd d = Ok d' -> is_task d' = true.
Proof.
  intros Hu Ht H. rewrite apply_set_plain in H.
  - injection H as <-. now apply is_task_dict_update.
  - revert Hu. apply forallb_impl. intros kv Hk.
    now destruct (keeps_task_inv kv Hk) as (_ & ? & _).
Qed.

Lemma forallb_dict_set (P : string * value -> bool) k v d :
  P (k, v) = true -> forallb P d = true -> forallb P (dict_set k v d) = true.
Proof.
  intros Hk. induction d as [|[k0 v0] d IH]; cbn; intros H.
  - now rewrite Hk.
  - apply andb_true_iff in H as [H0 H].
    destruct (String.eqb k k0); cbn.
    + now rewrite Hk, H.
    + now rewrite H0, IH.
Qed.

Lemma forallb_list_insert {A} (f : A -> bool) (l : list A) n x :
  f x = true -> forallb f l = true -> forallb f (<[n := x]> l) = true.
Proof.
  intros Hx. revert n. induction l as [|y l IH]; intros [|n] H; cbn in *; auto.
  - apply andb_true_iff in H as [_ H]. now rewrite Hx, H.
  - apply andb_true_iff in H as [Hy H]. now rewrite Hy, IH.
Qed.

Lemma all_set_subtask_ok s :
  SubTaskModel.all_set s = true ->
  subtask_ok (SubTaskModel.model_dump_exclude_unset s) = true.
Proof.
  unfold SubTaskModel.all_set, SubTaskModel.model_dump_exclude_unset.
  destruct (SubTaskModel.emoji s), (SubTaskModel.estimatedMinutes s),
    (SubTaskModel.completed s); try discriminate.
  reflexivity.
Qed.

Lemma patch_updates_keep payload :
  no_null payload = true -> full_subtasks payload = true ->
  forallb keeps_task (TaskUpdate.model_dump_exclude_unset payload) = true.
Proof.
  unfold no_null, full_subtasks, TaskUpdate.model_dump_exclude_unset.
  intros H Hfull.
  repeat (apply andb_true_iff in H as [H ?]).
  rewrite !forallb_app. repeat (apply andb_true_iff; split).
  - destruct (TaskUpdate.title payload) as [[?|]|]; try discriminate; reflexivity.
  - destruct (TaskUpdate.description payload) as [[?|]|];
      try discriminate; reflexivity.
  - destruct (TaskUpdate.estimatedMinutes payload) as [[?|]|];
      try discriminate; reflexivity.
  - destruct (TaskUpdate.emoji payload) as [[?|]|]; try discriminate; reflexivity.
  - destruct (TaskUpdate.completed payload) as [[?|]|]; reflexivity.
  - destruct (TaskUpdate.voiceReminder payload) as [[?|]|]; reflexivity.
  - destruct (TaskUpdate.subtasks payload) as [[l|]|];
      try discriminate; [|reflexivity].
    cbn. unfold keeps_task. cbn. rewrite forallb_map, !andb_true_r.
    revert Hfull. apply forallb_impl. intros s Hs.
    now apply all_set_subtask_ok.
Qed.

Lemma tasks_only_update_task tid payload now db :
  tasks_only db -> no_null payload = true -> full_subtasks payload = true ->
  tasks_only (snd (update_task tid payload now db)).
Proof.
  intros Hdb Hn Hfull. unfold update_task, validated.
  destruct (TaskUpdate.valid payload); [|exact Hdb]. cbv zeta.
  destruct (negb (truthy (VDict (TaskUpdate.model_dump_exclude_unset payload)))).
  - destruct (ObjectId tid) as [i|] eqn:Hi.
    + rewrite (bind_lift_Ok _ i) by now apply oid_Some. exact Hdb.
    + rewrite (bind_lift_Raise _ (HTTPException 400 "Invalid id"))
        by now apply oid_None.
      exact Hdb.
  - rewrite snd_update_then_read_any.
    destruct (ObjectId tid) as [i|]; [|exact Hdb].
    apply tasks_only_update_one; [exact Hdb|].
    intros d d' Hd. apply apply_set_keeps; eauto.
    apply forallb_dict_set; [reflexivity|].
    now apply patch_updates_keep.
Qed.

Lemma tasks_only_create_task payload now now' new_id db :
  tasks_only db -> tasks_only (snd (create_task payload now now' new_id db)).
Proof.
  intros Hdb. unfold create_task, validated.
  destruct (TaskCreate.valid payload); [|exact Hdb]. cbv zeta.
  fold (new_task payload now now').
  unfold bind at 1, insert_one.
  destruct (db !! new_id); [exact Hdb|].
  rewrite bind_find_one. cbn [ret snd].
  apply tasks_only_insert; [exact Hdb|apply new_task_is_task].
Qed.

Lemma tasks_only_delete_task tid db :
  tasks_only db -> tasks_only (snd (delete_task tid db)).
Proof.
  intros Hdb. unfold delete_task.
  destruct (ObjectId tid) as [i|] eqn:Hi.
  - rewrite (bind_lift_Ok _ i) by now apply oid_Some.
    cbn. now apply tasks_only_delete.
  - rewrite (bind_lift_Raise _ (HTTPException 400 "Invalid id"))
      by now apply oid_None.
    exact Hdb.
Qed.

Lemma tasks_only_toggle_subtask tid index now db :
  tasks_only db -> tasks_only (snd (toggle_subtask tid index now db)).
Proof.
  intros Hdb.
  destruct (ObjectId tid) as [i|] eqn:Hi.
  2:{ unfold toggle_subtask.
      rewrite (bind_lift_Raise _ (HTTPException 400 "Invalid id"))
        by now apply oid_None.
      exact Hdb. }
  destruct (db !! i) as [d|] eqn:Hd.
  2:{ now rewrite (toggle_subtask_missing tid i db index now Hi Hd). }
  pose proof (Hdb i d Hd) as Ht.
  destruct (is_task_inv d Ht) as [He _].
  destruct (editable_ok_inv d He)
    as (t & s0 & m & e & l & H1 & H2 & H3 & H4 & H5 & Hl).
  destruct (Z_lt_ge_dec index 0) as [Hneg|Hge].
  { rewrite (toggle_subtask_invalid tid i db d l index now Hi Hd H5);
      [exact Hdb|now left]. }
  destruct (Z_lt_ge_dec index (Z.of_nat (length l))) as [Hlt|Hbig].
  2:{ rewrite (toggle_subtask_invalid tid i db d l index now Hi Hd H5);
        [exact Hdb|right; lia]. }
  destruct (lookup_lt_is_Some_2 l (Z.to_nat index)) as [v Hv]; [lia|].
  pose proof (forallb_lookup _ _ _ _ Hl Hv) as Hvok.
  destruct (subtask_ok_inv v Hvok) as (s & b & -> & Hb).
  pose proof (toggle_subtask_step tid i db d l s index now Hi Hd H5) as Hrun.
  cbv zeta in Hrun. rewrite Hrun by (auto; lia). cbn [snd].
  apply tasks_only_insert; [exact Hdb|].
  apply (is_task_dict_update d
           [("subtasks", VList (<[Z.to_nat index := flipped s]> l));
            ("updated_at", VDatetime now)]); [exact Ht|].
  cbn. unfold keeps_task. cbn. rewrite !andb_true_r.
  apply forallb_list_insert; [now apply subtask_ok_flipped|exact Hl].
Qed.

Lemma tasks_only_run_op `{Unicode} tid o db :
  tasks_only db -> tasks_only (snd (run_op tid o db)).
Proof.
  intros Hdb.
  destruct (ObjectId tid) as [i|] eqn:Hi.
  2:{ destruct o; cbn [run_op];
        unfold ai_edit_task, ai_undo, ai_redo;
        cbn [AIEditPayload.taskId AIHistoryMove.taskId];
        rewrite (bind_lift_Raise _ (HTTPException 400 "Invalid id"))
          by (now apply oid_None); exact Hdb. }
  destruct (db !! i) as [d|] eqn:Hd.
  2:{ destruct o; cbn [run_op];
        unfold ai_edit_task, ai_undo, ai_redo;
        cbn [AIEditPayload.taskId AIHistoryMove.taskId];
        rewrite (bind_lift_Ok _ i) by (now apply oid_Some);
        rewrite bind_find_one, Hd; exact Hdb. }
  pose proof (Hdb i d Hd) as Ht.
  destruct (is_task_inv d Ht) as [_ Hhist].
  destruct (history_ok_inv d Hhist) as (h & c & Hh & Hc & _ & _).
  destruct o as [p now|now|now]; cbn [run_op].
  - destruct (edit_task tid p i db d h c now Hi Hd Ht Hh Hc)
      as (u & _ & _ & Hrun).
    cbv zeta in Hrun. destruct Hrun as [-> Ht'].
    now apply tasks_only_insert.
  - destruct (undo_task tid i db d h c now Hi Hd Ht Hh Hc)
      as [[_ ->]|(snap & _ & _ & _ & Hrun)]; [exact Hdb|].
    cbv zeta in Hrun. destruct Hrun as [-> Ht'].
    now apply tasks_only_insert.
  - destruct (redo_task tid i db d h c now Hi Hd Ht Hh Hc)
      as [[_ ->]|(snap & _ & _ & _ & Hrun)]; [exact Hdb|].
    cbv zeta in Hrun. destruct Hrun as [-> Ht'].
    now apply tasks_only_insert.
Qed.

(** Every request of the API keeps the collection a collection of tasks,
    a Patch that sets an editable field to null, or a subtask without one
    of its fields, apart. *)
Theorem handle_keeps_tasks `{Unicode} r db :
  tasks_only db -> null_free r = true -> whole_subtasks r = true ->
  tasks_only (snd (handle r db)).
Proof.
  intros Hdb Hr Hw. destruct r; cbn [handle null_free whole_subtasks] in *.
  - now apply tasks_only_create_task.
  - now apply tasks_only_update_task.
  - now apply tasks_only_delete_task.
  - now apply tasks_only_set.
  - now apply tasks_only_toggle_subtask.
  - now apply tasks_only_set.
  - now apply tasks_only_set.
  - now apply tasks_only_set.
  - destruct payload as [tid p].
    exact (tasks_only_run_op tid (Edit p now) db Hdb).
  - destruct payload as [tid].
    exact (tasks_only_run_op tid (Undo now) db Hdb).
  - destruct payload as [tid].
    exact (tasks_only_run_op tid (Redo now) db Hdb).
Qed.

Lemma tasks_only_empty : tasks_only ∅.
Proof. intros i d H. rewrite lookup_empty in H. discriminate. Qed.

(** ** The scenarios of the specification, and one outside the schema *)

(** Create, then Edit "make it simpler": the cursor is 0 and the history
    holds one entry, the snapshot taken before the edit. *)
Example scenario_simpler :
  let db := snd (ai_edit_task {| AIEditPayload.taskId := sample_id;
                                 AIEditPayload.prompt := "make it simpler" |}
                   "t1" sample_db) in
  option_map (fun d => (dict_get "aiCursor" d, dict_get "aiHistory" d))
             (db !! sample_id) =
  Some (Some (VInt 0), Some (VList [VDict (snapshot_of sample_task)])).
Proof. reflexivity. Qed.

(** Subtasks of 20, 5 and 10 minutes, Edit "please prioritize this": the
    subtasks come out in the order 5, 10, 20. *)
Example scenario_prioritize :
  let db := snd (ai_edit_task
                   {| AIEditPayload.taskId := sample_id;
                      AIEditPayload.prompt := "please prioritize this" |}
                   "t1" sample_db) in
  option_map (fun d => dict_get "subtasks" d) (db !! sample_id) =
  Some (Some (VList (map SubTaskModel.model_dump
                       [sample_subtask "Draft" 5 false;
                        sample_subtask "Review" 10 true;
                        sample_subtask "Collect" 20 false]))).
Proof. reflexivity. Qed.

(** The sort is stable: equal keys keep their order. *)
Example sort_by_stable :
  map snd (sort_by [(5, VStr "a"); (1, VStr "b"); (5, VStr "c");
                    (1, VStr "d")]) =
  [VStr "b"; VStr "d"; VStr "a"; VStr "c"].
Proof. reflexivity. Qed.

(** A malformed id is refused before any lookup. *)
Example scenario_invalid_id :
  toggle_subtask "42" 0 "t1" sample_db =
  (Raise (HTTPException 400 "Invalid id"), sample_db).
Proof. reflexivity. Qed.

(** [ObjectId] goes by [bytes.fromhex]: white space between the pairs of
    digits counts towards the 24 characters and not towards the bytes. *)
Example scenario_spaced_id :
  ObjectId "01 23 45 67 89 AB cd ef " = Some "0123456789abcdef" /\
  ObjectId "0123456789ABCDEF01234567" = Some sample_id /\
  ObjectId "0123456789abcdef0123456" = None.
Proof. repeat split; reflexivity. Qed.

(** [len], the slice and [strip] go by characters: two letters "é", a
    no-break space and an ideographic space. *)
Example scenario_characters :
  len (VStr "éé") = Ok 2 /\
  str_take 1 "éa" = "é" /\
  strip (utf8 [194; 160]%nat +:+ "a b" +:+ utf8 [227; 128; 128; 10]%nat)
    = "a b".
Proof. repeat split; reflexivity. Qed.

(** Outside the schema: a Patch body with [description] set to null stores
    the null; the stored document is then no task, and an Edit without
    keyword raises on it without writing. *)
Example scenario_null_description :
  let db := snd (update_task sample_id null_description "t1" sample_db) in
  option_map is_task (db !! sample_id) = Some false /\
  ai_edit_task {| AIEditPayload.taskId := sample_id;
                  AIEditPayload.prompt := "hello" |} "t2" db =
  (Raise Uncaught, db).
Proof. split; reflexivity. Qed.

(** * The claims *)

(** ** Sample values *)

Lemma sample_oid : ObjectId sample_id = Some sample_id.
Proof. reflexivity. Qed.

Lemma sample_lookup : sample_db !! sample_id = Some sample_task.
Proof. apply lookup_singleton_eq. Qed.

Lemma sample_is_task : is_task sample_task = true.
Proof. reflexivity. Qed.

(** ** C1 *)

(** C1. Starting from a task with [aiHistory = []] and [aiCursor = -1],
    after every prefix of every sequence of Edit, Undo and Redo requests on
    it (that is, after each operation) the stored task satisfies
    [-1 <= aiCursor <= len(aiHistory) - 1]; every request of the sequence
    returns. *)
Theorem cursor_stays_in_range `{Unicode} tid i db d ops n :
  ObjectId tid = Some i -> db !! i = Some d -> editable_ok d = true ->
  dict_get "aiHistory" d = Some (VList []) ->
  dict_get "aiCursor" d = Some (VInt (-1)) ->
  (exists d', run_ops tid (take n ops) db !! i = Some d' /\
              cursor_in_range d') /\
  forallb returned (responses tid ops db) = true.
Proof.
  intros Hi Hd He Hh Hc.
  assert (Ht : is_task d = true).
  { unfold is_task. rewrite He. cbn [andb].
    apply (history_ok_intro d [] (-1)); auto. cbn. lia. }
  split.
  - destruct (run_ops_is_task tid i (take n ops) db d Hi Hd Ht)
      as (d' & Hd' & Ht').
    exists d'. split; [exact Hd'|]. now apply is_task_cursor_in_range.
  - exact (responses_returned tid i ops Hi db d Hd Ht).
Qed.

Lemma cursor_stays_in_range_witness :
  let ops := [Edit "make it simpler" "t1"; Undo "t2"; Undo "t3";
              Redo "t4"; Edit "emoji please" "t5"; Redo "t6"] in
  (exists d', run_ops sample_id (take 4 ops) sample_db !! sample_id = Some d' /\
              cursor_in_range d') /\
  forallb returned (responses sample_id ops sample_db) = true.
Proof.
  intros ops.
  apply (cursor_stays_in_range sample_id sample_id sample_db sample_task ops 4).
  - reflexivity.
  - reflexivity.
  - reflexivity.
  - reflexivity.
  - reflexivity.
Defined.

(** ** C2 *)

(** C2 (the code misses a case).  [TaskUpdate] has [description] optional,
    and [update_task] stores the null a body sets it to, where
    [schemas.Task] has a [str].  On the task so patched an Edit whose prompt
    matches no keyword raises (a TypeError: [None + str]) where the claim
    has it push a snapshot and append the suffix: the history stays empty
    and nothing is written. *)
Theorem edit_after_null_description :
  let db0 := snd (create_task sample_payload "t0" "t0" sample_id ∅) in
  let db1 := snd (update_task sample_id null_description "t1" db0) in
  TaskUpdate.valid null_description = true /\
  returned (fst (update_task sample_id null_description "t1" db0)) = true /\
  matches_keyword "hello" = false /\
  (exists d,
     db1 !! sample_id = Some d /\
     dict_get "description" d = Some VNone /\
     dict_get "aiHistory" d = Some (VList []) /\
     dict_get "aiCursor" d = Some (VInt (-1))) /\
  ai_edit_task {| AIEditPayload.taskId := sample_id;
                  AIEditPayload.prompt := "hello" |} "t2" db1 =
  (Raise Uncaught, db1).
Proof.
  cbv zeta. split; [reflexivity|]. split; [reflexivity|].
  split; [reflexivity|]. split.
  - eexists. repeat split; reflexivity.
  - reflexivity.
Qed.

(** ** C3 *)

(** C3 (the code misses a case; the defect is that of C2).  After Create,
    Edit "emoji" and a Patch that sets [description] to null, one Edit
    followed by one Undo does not restore the editable fields: the Edit
    raises and pushes nothing, and the Undo takes back the earlier edit. *)
Theorem failed_edit_then_undo :
  let db0 :=
    handle_all
      [Create sample_payload "t0" "t0" sample_id;
       AiEdit {| AIEditPayload.taskId := sample_id;
                 AIEditPayload.prompt := "emoji" |} "t1";
       Patch sample_id null_description "t2"] ∅ in
  let ops := (edits [("hello", "t3")] ++ undos ["t4"])%list in
  exists d d',
    db0 !! sample_id = Some d /\
    map returned (responses sample_id ops db0) = [false; true] /\
    run_ops sample_id ops db0 !! sample_id = Some d' /\
    dict_get "emoji" d = Some (VStr sparkles) /\
    dict_get "emoji" d' = Some (VStr "R") /\
    editable_fields d' <> editable_fields d.
Proof.
  cbv zeta. do 2 eexists.
  split; [reflexivity|]. split; [reflexivity|]. split; [reflexivity|].
  split; [reflexivity|]. split; [reflexivity|].
  intros E. vm_compute in E. discriminate E.
Qed.

(** ** C4 *)

(** C4 (the code misses the check its siblings make).  A Patch with a valid
    body on a well-formed id that names no stored task does not fail: it
    returns [None] and writes nothing, where [toggle_subtask],
    [ai_edit_task], [ai_undo] and [ai_redo] raise 404 "Task not found" for
    the same id. *)
Theorem patch_unknown_task_no_error :
  ObjectId other_id = Some other_id /\
  sample_db !! other_id = None /\
  TaskUpdate.valid (new_title "Plan") = true /\
  update_task other_id (new_title "Plan") "t1" sample_db =
    (Ok VNone, sample_db) /\
  toggle_subtask other_id 0 "t1" sample_db =
    (Raise (HTTPException 404 "Task not found"), sample_db) /\
  ai_edit_task {| AIEditPayload.taskId := other_id;
                  AIEditPayload.prompt := "expand" |} "t1" sample_db =
    (Raise (HTTPException 404 "Task not found"), sample_db) /\
  ai_undo {| AIHistoryMove.taskId := other_id |} "t1" sample_db =
    (Raise (HTTPException 404 "Task not found"), sample_db) /\
  ai_redo {| AIHistoryMove.taskId := other_id |} "t1" sample_db =
    (Raise (HTTPException 404 "Task not found"), sample_db).
Proof. repeat split; reflexivity. Qed.

(** ** C5 *)

Lemma dump_field_nil {A} k (f : A -> value) x :
  TaskUpdate.dump_field k f x = [] -> x = None.
Proof. destruct x as [[a|]|]; [discriminate|discriminate|reflexivity]. Qed.

Lemma no_fields_unique payload :
  TaskUpdate.model_dump_exclude_unset payload = [] -> payload = no_fields.
Proof.
  unfold TaskUpdate.model_dump_exclude_unset. intros H.
  repeat (apply app_eq_nil in H as [?%dump_field_nil H]).
  apply dump_field_nil in H.
  destruct payload; cbn in *; subst; reflexivity.
Qed.

(** C5. For every existing task, a Patch whose body sets no recognized field
    succeeds, returns the current task, and leaves the collection (so the
    stored [updated_at] and every other stored field) exactly as it was. *)
Theorem patch_no_fields_is_noop tid i db d payload now :
  ObjectId tid = Some i -> db !! i = Some d ->
  TaskUpdate.model_dump_exclude_unset payload = [] ->
  update_task tid payload now db =
  (Ok (serialize (Some (("_id", VObjectId i) :: d))), db).
Proof.
  intros Hi Hd Hp. rewrite (no_fields_unique payload Hp).
  rewrite (update_task_no_fields tid i db now Hi), Hd. reflexivity.
Qed.

Lemma patch_no_fields_is_noop_witness :
  update_task sample_id no_fields "t9" sample_db =
  (Ok (serialize (Some (("_id", VObjectId sample_id) :: sample_task))),
   sample_db).
Proof.
  apply (patch_no_fields_is_noop sample_id sample_id sample_db sample_task
           no_fields "t9").
  - reflexivity.
  - reflexivity.
  - reflexivity.
Defined.

(** ** C6 *)

(** C6 (the code misses a case; the defect is that of C2).  A Patch may set
    [subtasks] to null, which [update_task] stores where [schemas.Task] has
    a list.  On the task so patched [toggle_subtask] with an index that is
    not negative raises (a TypeError: [len(None)]): neither of the two
    errors of the claim, and no flip.  A negative index is refused with 400
    before the length is taken. *)
Theorem toggle_after_null_subtasks :
  let db0 := snd (create_task sample_payload "t0" "t0" sample_id ∅) in
  let db1 := snd (update_task sample_id null_subtasks "t1" db0) in
  TaskUpdate.valid null_subtasks = true /\
  returned (fst (update_task sample_id null_subtasks "t1" db0)) = true /\
  (exists d,
     db1 !! sample_id = Some d /\ dict_get "subtasks" d = Some VNone) /\
  toggle_subtask sample_id 0 "t2" db1 = (Raise Uncaught, db1) /\
  toggle_subtask sample_id 5 "t2" db1 = (Raise Uncaught, db1) /\
  toggle_subtask sample_id (-1) "t2" db1 =
    (Raise (HTTPException 400 "Invalid subtask index"), db1).
Proof.
  cbv zeta. split; [reflexivity|]. split; [reflexivity|]. split.
  - eexists. split; reflexivity.
  - repeat split; reflexivity.
Qed.

(** ** C7 *)



(** ** C8 *)

(** C8. For every existing task, whatever its timer session holds,
    [timer_stop] returns and leaves the stored timer session at the reset
    state [{idle, no startedAt, 0 elapsed, no subtask index}]; so does the
    sequence Start(subtaskIndex=1), Pause(elapsedSeconds=42), Stop. *)
Theorem timer_stop_resets tid i db d now t1 t1' t2 :
  ObjectId tid = Some i -> db !! i = Some d ->
  (exists d',
     timer_stop tid now db =
     (Ok (serialize (Some (("_id", VObjectId i) :: d'))), <[i := d']> db) /\
     dict_get "timerSession" d' = Some reset_timer) /\
  (exists d3,
     start_pause_stop tid t1 t1' t2 now db !! i = Some d3 /\
     dict_get "timerSession" d3 = Some reset_timer).
Proof.
  intros Hi Hd. split.
  - eexists. split; [apply (timer_stop_step tid i db d now Hi Hd)|].
    rewrite !dict_get_dict_set. reflexivity.
  - unfold start_pause_stop.
    destruct (timer_start_present tid i (Some 1) t1 t1' db d Hi Hd)
      as [d1 Hd1].
    destruct (timer_pause_present tid i 42 t2 _ d1 Hi Hd1) as [d2 Hd2].
    rewrite (timer_stop_step tid i _ d2 now Hi Hd2). cbn [snd].
    eexists. split; [apply lookup_insert_eq|].
    rewrite !dict_get_dict_set. reflexivity.
Qed.

Lemma timer_stop_resets_witness :
  (exists d',
     timer_stop sample_id "t4" sample_db =
     (Ok (serialize (Some (("_id", VObjectId sample_id) :: d'))),
      <[sample_id := d']> sample_db) /\
     dict_get "timerSession" d' = Some reset_timer) /\
  (exists d3,
     start_pause_stop sample_id "t1" "t1" "t2" "t4" sample_db !! sample_id
       = Some d3 /\
     dict_get "timerSession" d3 = Some reset_timer).
Proof.
  apply (timer_stop_resets sample_id sample_id sample_db sample_task
           "t4" "t1" "t1" "t2").
  - reflexivity.
  - reflexivity.
Defined.

(** ** C9 *)

(** C9. For every valid Create body (and the fresh id the driver gives the
    document), [create_task] returns, and both the stored task and the
    returned one have [completed = False], the timer session at the reset
    state, [aiHistory = []] and [aiCursor = -1]. *)
Theorem create_task_defaults payload now now' new_id db :
  TaskCreate.valid payload = true -> db !! new_id = None ->
  exists d r,
    create_task payload now now' new_id db = (Ok (VDict r), <[new_id := d]> db) /\
    dict_get "completed" d = Some (VBool false) /\
    dict_get "timerSession" d = Some reset_timer /\
    dict_get "aiHistory" d = Some (VList []) /\
    dict_get "aiCursor" d = Some (VInt (-1)) /\
    dict_get "completed" r = Some (VBool false) /\
    dict_get "timerSession" r = Some reset_timer /\
    dict_get "aiHistory" r = Some (VList []) /\
    dict_get "aiCursor" r = Some (VInt (-1)).
Proof.
  intros Hv Hd.
  exists (new_task payload now now'). eexists. split.
  - rewrite (create_task_step payload now now' new_id db Hv Hd).
    rewrite serialize_task. reflexivity.
  - repeat split; reflexivity.
Qed.

Lemma create_task_defaults_witness :
  exists d r,
    create_task sample_payload "t0" "t0" other_id sample_db =
      (Ok (VDict r), <[other_id := d]> sample_db) /\
    dict_get "completed" d = Some (VBool false) /\
    dict_get "timerSession" d = Some reset_timer /\
    dict_get "aiHistory" d = Some (VList []) /\
    dict_get "aiCursor" d = Some (VInt (-1)) /\
    dict_get "completed" r = Some (VBool false) /\
    dict_get "timerSession" r = Some reset_timer /\
    dict_get "aiHistory" r = Some (VList []) /\
    dict_get "aiCursor" r = Some (VInt (-1)).
Proof.
  apply (create_task_defaults sample_payload "t0" "t0" other_id sample_db).
  - reflexivity.
  - reflexivity.
Defined.

(** ** C10 *)

(** C10. For every existing task, [ai_undo] and [ai_redo], whether they act
    or not, leave the stored [aiHistory] as it was; they touch no other
    document, and of the task they write at most the five snapshotted
    fields, [aiCursor] and [updated_at]. *)
Theorem undo_redo_keep_history tid i db d now :
  ObjectId tid = Some i -> db !! i = Some d -> is_task d = true ->
  forall db',
    db' = snd (ai_undo {| AIHistoryMove.taskId := tid |} now db) \/
    db' = snd (ai_redo {| AIHistoryMove.taskId := tid |} now db) ->
    (forall j, j <> i -> db' !! j = db !! j) /\
    exists d',
      db' !! i = Some d' /\
      dict_get "aiHistory" d' = dict_get "aiHistory" d /\
      forall k,
        ~ In k editable -> k <> "aiCursor" -> k <> "updated_at" ->
        dict_get k d' = dict_get k d.
Proof.
  intros Hi Hd Ht db' Hdb'.
  destruct (is_task_inv d Ht) as [_ Hhist].
  destruct (history_ok_inv d Hhist) as (h & c & Hh & Hc & _ & _).
  assert (Hcase : db' = db \/
            exists snap c', snapshot_ok (VDict snap) = true /\
                            db' = <[i := restored snap c' now d]> db).
  { destruct Hdb' as [-> | ->].
    - destruct (undo_task tid i db d h c now Hi Hd Ht Hh Hc)
        as [[_ ->]|(snap & _ & _ & Hok & Hrun)]; [now left|].
      cbv zeta in Hrun. destruct Hrun as [-> _]. right. eauto.
    - destruct (redo_task tid i db d h c now Hi Hd Ht Hh Hc)
        as [[_ ->]|(snap & _ & _ & Hok & Hrun)]; [now left|].
      cbv zeta in Hrun. destruct Hrun as [-> _]. right. eauto. }
  destruct Hcase as [-> | (snap & c' & Hok & ->)].
  - split; [reflexivity|]. exists d. auto.
  - split.
    + intros j Hj. now apply lookup_insert_ne.
    + eexists. split; [apply lookup_insert_eq|]. split.
      * apply (restored_frame _ _ _ _ _ Hok); [|discriminate|discriminate].
        cbn. intros H. repeat (destruct H as [H|H]; [discriminate|]).
        exact H.
      * intros k Hk H1 H2. now apply restored_frame.
Qed.

Lemma undo_redo_keep_history_witness :
  let db1 := snd (ai_edit_task {| AIEditPayload.taskId := sample_id;
                                  AIEditPayload.prompt := "expand" |}
                    "t1" sample_db) in
  let db' := snd (ai_undo {| AIHistoryMove.taskId := sample_id |} "t2" db1) in
  exists d1,
    db1 !! sample_id = Some d1 /\
    (forall j, j <> sample_id -> db' !! j = db1 !! j) /\
    exists d',
      db' !! sample_id = Some d' /\
      dict_get "aiHistory" d' = dict_get "aiHistory" d1 /\
      forall k,
        ~ In k editable -> k <> "aiCursor" -> k <> "updated_at" ->
        dict_get k d' = dict_get k d1.
Proof.
  intros db1 db'. eexists. split; [reflexivity|].
  apply (undo_redo_keep_history sample_id sample_id db1 _ "t2").
  - reflexivity.
  - reflexivity.
  - reflexivity.
  - left. reflexivity.
Defined.

(** * Further properties *)

(** ** [sorted]: a stable ascending permutation *)

Lemma insert_by_perm x l : Permutation (insert_by x l) (x :: l).
Proof.
  induction l as [|y l IH]; cbn; [reflexivity|].
  destruct (fst x <=? fst y); [reflexivity|].
  rewrite IH. apply perm_swap.
Qed.

Lemma sort_by_perm l : Permutation (sort_by l) l.
Proof.
  induction l as [|x l IH]; cbn; [reflexivity|].
  rewrite insert_by_perm. now apply perm_skip.
Qed.

Lemma ascending_cons a l :
  ascending (a :: l) =
  match l with [] => true | b :: _ => (a <=? b) && ascending l end.
Proof. destruct l; reflexivity. Qed.

Lemma ascending_insert_by x l :
  ascending (map fst l) = true ->
  ascending (map fst (insert_by x l)) = true.
Proof.
  induction l as [|y l IH]; intros H; [reflexivity|].
  cbn [insert_by]. destruct (Z.leb_spec (fst x) (fst y)) as [Hle|Hgt].
  - cbn [map]. rewrite ascending_cons. cbn [map] in H.
    apply andb_true_iff. split; [lia|exact H].
  - cbn [map] in *. rewrite ascending_cons in H.
    rewrite ascending_cons.
    destruct l as [|z l].
    + cbn. rewrite andb_true_r. lia.
    + cbn [map] in H. apply andb_true_iff in H as [Hyz H].
      specialize (IH H). cbn [insert_by] in *.
      destruct (fst x <=? fst z); cbn [map] in *.
      * apply andb_true_iff. split; [lia|exact IH].
      * apply andb_true_iff. split; [exact Hyz|exact IH].
Qed.

Lemma sort_by_ascending l : ascending (map fst (sort_by l)) = true.
Proof.
  induction l as [|x l IH]; [reflexivity|].
  cbn [sort_by fold_right]. now apply ascending_insert_by.
Qed.

Lemma filter_insert_by (k : Z) x l :
  List.filter (fun y => fst y =? k) (insert_by x l) =
  List.filter (fun y => fst y =? k) (x :: l).
Proof.
  induction l as [|y l IH]; [reflexivity|].
  cbn [insert_by]. destruct (Z.leb_spec (fst x) (fst y)) as [Hle|Hgt];
    [reflexivity|].
  cbn [List.filter] in *. rewrite IH.
  destruct (Z.eqb_spec (fst y) k), (Z.eqb_spec (fst x) k);
    try reflexivity; lia.
Qed.

Lemma sort_by_keeps_ties k l :
  List.filter (fun y => fst y =? k) (sort_by l) =
  List.filter (fun y => fst y =? k) l.
Proof.
  induction l as [|x l IH]; [reflexivity|].
  cbn [sort_by fold_right]. rewrite filter_insert_by.
  cbn [List.filter]. fold (sort_by l). now rewrite IH.
Qed.

Lemma keyed_minutes l kl :
  keyed l = Ok kl -> kl = map (fun s => (minutes_of s, s)) l.
Proof.
  revert kl. induction l as [|s l IH]; cbn; intros kl H.
  - now injection H as <-.
  - unfold minutes_of. destruct (sort_key s) as [n|]; [|discriminate].
    cbn in H. destruct (keyed l) as [r|]; [|discriminate].
    cbn in H. injection H as <-. now rewrite (IH r).
Qed.

Lemma keyed_pairs_ok l :
  forallb (fun x => fst x =? minutes_of (snd x))
          (map (fun s => (minutes_of s, s)) l) = true.
Proof.
  induction l as [|s l IH]; cbn; [reflexivity|].
  now rewrite Z.eqb_refl, IH.
Qed.

Lemma map_fst_minutes L :
  forallb (fun x : Z * value => fst x =? minutes_of (snd x)) L = true ->
  map fst L = map minutes_of (map snd L).
Proof.
  induction L as [|x L IH]; cbn; intros H; [reflexivity|].
  apply andb_true_iff in H as [Hx H]. apply Z.eqb_eq in Hx.
  now rewrite Hx, IH.
Qed.

Lemma filter_snd_minutes k L :
  forallb (fun x : Z * value => fst x =? minutes_of (snd x)) L = true ->
  List.filter (fun s => minutes_of s =? k) (map snd L) =
  map snd (List.filter (fun y => fst y =? k) L).
Proof.
  induction L as [|x L IH]; cbn; intros H; [reflexivity|].
  apply andb_true_iff in H as [Hx H]. apply Z.eqb_eq in Hx.
  rewrite <- Hx. destruct (fst x =? k); cbn; now rewrite IH.
Qed.

Lemma sorted_by_minutes_spec l l' :
  sorted_by_minutes (VList l) = Ok (VList l') ->
  Permutation l' l /\
  ascending (map minutes_of l') = true /\
  forall k, List.filter (fun s => minutes_of s =? k) l' =
            List.filter (fun s => minutes_of s =? k) l.
Proof.
  unfold sorted_by_minutes. destruct (keyed l) as [kl|] eqn:E; [|discriminate].
  cbn. intros H. injection H as <-.
  pose proof (keyed_minutes l kl E) as ->.
  set (L := map (fun s => (minutes_of s, s)) l).
  assert (HL : forallb (fun x => fst x =? minutes_of (snd x)) (sort_by L) = true)
    by (apply forallb_sort_by, keyed_pairs_ok).
  assert (Hl : map snd L = l).
  { unfold L. rewrite map_map. cbn. apply map_id. }
  split; [|split].
  - etransitivity; [apply Permutation_map, sort_by_perm|now rewrite Hl].
  - rewrite <- (map_fst_minutes _ HL). apply sort_by_ascending.
  - intros k. rewrite (filter_snd_minutes k _ HL), sort_by_keeps_ties.
    rewrite <- (filter_snd_minutes k L (keyed_pairs_ok l)). now rewrite Hl.
Qed.

(** ** What an edit writes *)

Lemma derive_updates_fields `{Unicode} x d p s e l l' :
  dict_get "description" d = Some (VStr s) ->
  dict_get "emoji" d = Some (VStr e) ->
  dict_get "subtasks" d = Some (VList l) ->
  sorted_by_minutes (VList l) = Ok (VList l') ->
  exists u,
    derive_updates (("_id", x) :: d) (lower p) = Ok u /\
    dict_get "description" (dict_update d u) =
      Some (VStr (edited_description p s)) /\
    dict_get "subtasks" (dict_update d u) =
      Some (VList (if wants ["prioritize"] p then l' else l)) /\
    dict_get "emoji" (dict_update d u) =
      Some (VStr (if wants ["emoji"] p then sparkles else e)).
Proof.
  intros H2 H4 H5 Hs.
  unfold derive_updates, edited_description, wants, keywords.
  cbn [existsb].
  rewrite !(get_task_field "description" _ _ _ _ H2 eq_refl).
  rewrite !(get_task_field "subtasks" _ _ _ _ H5 eq_refl).
  rewrite Hs. unfold simpler, append_stripped. cbn [len rbind].
  destruct (str_in "simpler" (lower p)), (str_in "shorter" (lower p)),
    (str_in "more details" (lower p)), (str_in "expand" (lower p)),
    (str_in "prioritize" (lower p)), (str_in "emoji" (lower p)),
    (120 <? Z.of_nat (str_len s));
    cbn [orb negb truthy rbind dict_set String.eqb Ascii.eqb Bool.eqb];
    (eexists; split; [reflexivity|]);
    unfold dict_update; cbn [fold_left fst snd];
    rewrite ?dict_get_dict_set;
    cbn [String.eqb Ascii.eqb Bool.eqb];
    rewrite ?H2, ?H4, ?H5; repeat split; reflexivity.
Qed.

Lemma edit_fields `{Unicode} tid p i db d h c now s e l :
  ObjectId tid = Some i -> db !! i = Some d -> is_task d = true ->
  dict_get "aiHistory" d = Some (VList h) ->
  dict_get "aiCursor" d = Some (VInt c) ->
  dict_get "description" d = Some (VStr s) ->
  dict_get "emoji" d = Some (VStr e) ->
  dict_get "subtasks" d = Some (VList l) ->
  exists d' l',
    ai_edit_task {| AIEditPayload.taskId := tid; AIEditPayload.prompt := p |}
      now db =
    (Ok (serialize (Some (("_id", VObjectId i) :: d'))), <[i := d']> db) /\
    sorted_by_minutes (VList l) = Ok (VList l') /\
    dict_get "description" d' = Some (VStr (edited_description p s)) /\
    dict_get "subtasks" d' =
      Some (VList (if wants ["prioritize"] p then l' else l)) /\
    dict_get "emoji" d' =
      Some (VStr (if wants ["emoji"] p then sparkles else e)) /\
    dict_get "updated_at" d' = Some (VDatetime now) /\
    forall k,
      ~ In k ["description"; "subtasks"; "emoji"; "aiHistory"; "aiCursor";
              "updated_at"] ->
      dict_get k d' = dict_get k d.
Proof.
  intros Hi Hd Ht Hh Hc H2 H4 H5.
  destruct (is_task_inv d Ht) as [He _].
  destruct (editable_ok_inv d He)
    as (t0 & s0 & m0 & e0 & l0 & _ & _ & _ & _ & H5' & Hl).
  rewrite H5 in H5'. injection H5' as <-.
  destruct (sorted_by_minutes_subtasks l Hl) as (l' & Hs & _).
  destruct (edit_task tid p i db d h c now Hi Hd Ht Hh Hc)
    as (u & Hu & Hok & Hrun).
  cbv zeta in Hrun. destruct Hrun as [Hrun _].
  destruct (derive_updates_fields (VObjectId i) d p s e l l' H2 H4 H5 Hs)
    as (u' & Hu' & Fd & Fs & Fe).
  rewrite Hu in Hu'. injection Hu' as <-.
  eexists. exists l'. split; [exact Hrun|]. split; [exact Hs|].
  rewrite (edited_eq _ _ _ _ Hok).
  split; [rewrite !dict_get_dict_set; exact Fd|].
  split; [rewrite !dict_get_dict_set; exact Fs|].
  split; [rewrite !dict_get_dict_set; exact Fe|].
  split; [rewrite !dict_get_dict_set; reflexivity|].
  intros k Hk. rewrite <- (edited_eq _ _ _ _ Hok).
  assert (Hne : forall w, In w ["description"; "subtasks"; "emoji";
                               "aiHistory"; "aiCursor"; "updated_at"] ->
                          String.eqb k w = false).
  { intros w Hw. apply String.eqb_neq. intros ->. exact (Hk Hw). }
  rewrite (edited_get_other _ _ _ _ _ Hok) by (apply Hne; cbn; tauto).
  rewrite !Hne by (cbn; tauto). reflexivity.
Qed.

(** X1. What an Edit writes, for every prompt: the description follows the
    keyword rules (an "expand" wins over a "simpler", which truncates to 120
    characters plus "..." only above 120; the "Tuned for clarity." fallback
    applies only when no keyword at all matched), the emoji becomes the
    sparkles exactly when "emoji" is asked for, the subtasks are touched only
    by "prioritize", and no field besides these three, the history, its
    cursor and [updated_at] changes. *)
Theorem edit_applies_keywords `{Unicode} tid p i db d h c now s e l :
  ObjectId tid = Some i -> db !! i = Some d -> is_task d = true ->
  dict_get "aiHistory" d = Some (VList h) ->
  dict_get "aiCursor" d = Some (VInt c) ->
  dict_get "description" d = Some (VStr s) ->
  dict_get "emoji" d = Some (VStr e) ->
  dict_get "subtasks" d = Some (VList l) ->
  exists d',
    snd (ai_edit_task {| AIEditPayload.taskId := tid;
                         AIEditPayload.prompt := p |} now db)
      = <[i := d']> db /\
    dict_get "description" d' = Some (VStr (edited_description p s)) /\
    dict_get "emoji" d' =
      Some (VStr (if wants ["emoji"] p then sparkles else e)) /\
    (wants ["prioritize"] p = false ->
     dict_get "subtasks" d' = Some (VList l)) /\
    dict_get "updated_at" d' = Some (VDatetime now) /\
    forall k,
      ~ In k ["description"; "subtasks"; "emoji"; "aiHistory"; "aiCursor";
              "updated_at"] ->
      dict_get k d' = dict_get k d.
Proof.
  intros Hi Hd Ht Hh Hc H2 H4 H5.
  destruct (edit_fields tid p i db d h c now s e l Hi Hd Ht Hh Hc H2 H4 H5)
    as (d' & l' & Hrun & _ & Fd & Fs & Fe & Fu & Frame).
  exists d'. rewrite Hrun. split; [reflexivity|].
  split; [exact Fd|]. split; [exact Fe|].
  split; [intros Hw; now rewrite Hw in Fs|].
  split; [exact Fu|exact Frame].
Qed.

Lemma edit_applies_keywords_witness :
  exists d',
    snd (ai_edit_task {| AIEditPayload.taskId := sample_id;
                         AIEditPayload.prompt := "Shorter, then EXPAND" |}
           "t1" sample_db)
      = <[sample_id := d']> sample_db /\
    dict_get "description" d' =
      Some (VStr (edited_description "Shorter, then EXPAND"
                    "Quarterly figures")) /\
    dict_get "emoji" d' =
      Some (VStr (if wants ["emoji"] "Shorter, then EXPAND"
                  then sparkles else "R")) /\
    (wants ["prioritize"] "Shorter, then EXPAND" = false ->
     dict_get "subtasks" d' = dict_get "subtasks" sample_task) /\
    dict_get "updated_at" d' = Some (VDatetime "t1") /\
    forall k,
      ~ In k ["description"; "subtasks"; "emoji"; "aiHistory"; "aiCursor";
              "updated_at"] ->
      dict_get k d' = dict_get k sample_task.
Proof.
  apply (edit_applies_keywords sample_id "Shorter, then EXPAND" sample_id
           sample_db sample_task [] (-1) "t1" "Quarterly figures" "R").
  - reflexivity.
  - reflexivity.
  - reflexivity.
  - reflexivity.
  - reflexivity.
  - reflexivity.
  - reflexivity.
  - reflexivity.
Defined.

(** X2. An Edit whose prompt contains "prioritize" stores the subtasks
    reordered by [sorted]: a permutation of the old list, ascending in
    estimatedMinutes, and stable (the subtasks of any one duration keep
    their relative order). *)
Theorem edit_prioritize_sorts `{Unicode} tid p i db d h c now l :
  ObjectId tid = Some i -> db !! i = Some d -> is_task d = true ->
  dict_get "aiHistory" d = Some (VList h) ->
  dict_get "aiCursor" d = Some (VInt c) ->
  dict_get "subtasks" d = Some (VList l) ->
  wants ["prioritize"] p = true ->
  exists d' l',
    snd (ai_edit_task {| AIEditPayload.taskId := tid;
                         AIEditPayload.prompt := p |} now db)
      = <[i := d']> db /\
    dict_get "subtasks" d' = Some (VList l') /\
    Permutation l' l /\
    ascending (map minutes_of l') = true /\
    forall k, List.filter (fun s => minutes_of s =? k) l' =
              List.filter (fun s => minutes_of s =? k) l.
Proof.
  intros Hi Hd Ht Hh Hc H5 Hw.
  destruct (is_task_inv d Ht) as [He _].
  destruct (editable_ok_inv d He)
    as (t0 & s & m0 & e & l0 & _ & H2 & _ & H4 & H5' & _).
  destruct (edit_fields tid p i db d h c now s e l Hi Hd Ht Hh Hc H2 H4 H5)
    as (d' & l' & Hrun & Hs & _ & Fs & _).
  rewrite Hw in Fs.
  exists d', l'. rewrite Hrun. split; [reflexivity|]. split; [exact Fs|].
  now apply sorted_by_minutes_spec.
Qed.

Lemma edit_prioritize_sorts_witness :
  exists d' l',
    snd (ai_edit_task {| AIEditPayload.taskId := sample_id;
                         AIEditPayload.prompt := "Please PRIORITIZE" |}
           "t1" sample_db)
      = <[sample_id := d']> sample_db /\
    dict_get "subtasks" d' = Some (VList l') /\
    Permutation l' (map SubTaskModel.model_dump
                      (TaskCreate.subtasks sample_payload)) /\
    ascending (map minutes_of l') = true /\
    forall k, List.filter (fun s => minutes_of s =? k) l' =
              List.filter (fun s => minutes_of s =? k)
                (map SubTaskModel.model_dump
                   (TaskCreate.subtasks sample_payload)).
Proof.
  apply (edit_prioritize_sorts sample_id "Please PRIORITIZE" sample_id
           sample_db sample_task [] (-1) "t1").
  - reflexivity.
  - reflexivity.
  - reflexivity.
  - reflexivity.
  - reflexivity.
  - reflexivity.
  - reflexivity.
Defined.

(** ** Moving through the history *)

Lemma edit_then_state `{Unicode} tid p i db d h c now :
  ObjectId tid = Some i -> db !! i = Some d -> is_task d = true ->
  dict_get "aiHistory" d = Some (VList h) ->
  dict_get "aiCursor" d = Some (VInt c) ->
  let nh := (take (Z.to_nat (c + 1)) h ++ [VDict (snapshot_of d)])%list in
  exists d1,
    ai_edit_task {| AIEditPayload.taskId := tid; AIEditPayload.prompt := p |}
      now db =
    (Ok (serialize (Some (("_id", VObjectId i) :: d1))), <[i := d1]> db) /\
    is_task d1 = true /\
    dict_get "aiHistory" d1 = Some (VList nh) /\
    dict_get "aiCursor" d1 = Some (VInt (c + 1)) /\
    Z.of_nat (length nh) = c + 2 /\
    nh !! Z.to_nat (c + 1) = Some (VDict (snapshot_of d)).
Proof.
  intros Hi Hd Ht Hh Hc nh.
  destruct (is_task_inv d Ht) as [He Hhist].
  destruct (history_ok_inv d Hhist) as (h0 & c0 & Hh0 & Hc0 & Hall & Hr).
  rewrite Hh in Hh0. injection Hh0 as <-.
  rewrite Hc in Hc0. injection Hc0 as <-.
  destruct (edit_task tid p i db d h c now Hi Hd Ht Hh Hc)
    as (u & Hu & Hok & Hrun).
  cbv zeta in Hrun. destruct Hrun as [Hrun Ht1]. fold nh in Hrun, Ht1.
  assert (Hlen_take : length (take (Z.to_nat (c + 1)) h) = Z.to_nat (c + 1))
    by (rewrite length_take; lia).
  assert (Hnh : Z.of_nat (length nh) = c + 2)
    by (unfold nh; rewrite length_app, Hlen_take; cbn; lia).
  exists (edited u nh now d).
  split; [exact Hrun|]. split; [exact Ht1|].
  split; [now rewrite (edited_get_other _ _ _ _ _ Hok) by reflexivity|].
  split.
  { rewrite (edited_get_other _ _ _ _ _ Hok) by reflexivity. cbn.
    do 2 f_equal. lia. }
  split; [exact Hnh|].
  unfold nh. rewrite lookup_app_r by lia.
  now rewrite Hlen_take, Nat.sub_diag.
Qed.

Lemma restored_history snap c now d :
  snapshot_ok (VDict snap) = true ->
  dict_get "aiHistory" (restored snap c now d) = dict_get "aiHistory" d /\
  dict_get "aiCursor" (restored snap c now d) = Some (VInt c).
Proof.
  intros Hok. split.
  - apply (restored_frame _ _ _ _ _ Hok); [|discriminate|discriminate].
    cbn. intros H. repeat (destruct H as [H|H]; [discriminate|]). exact H.
  - now rewrite (restored_get _ _ _ _ _ Hok).
Qed.

(** X3. Edit, Undo, Redo: the Redo does not bring the edit back.  It
    restores the snapshot at the new cursor, which is the state before the
    edit; so after the three requests the editable fields are those before
    the Edit while the cursor points at the edit's history entry again. *)
Theorem redo_restores_pre_edit_state `{Unicode} tid p i db d h c t1 t2 t3 :
  ObjectId tid = Some i -> db !! i = Some d -> is_task d = true ->
  dict_get "aiHistory" d = Some (VList h) ->
  dict_get "aiCursor" d = Some (VInt c) ->
  exists d3,
    run_ops tid [Edit p t1; Undo t2; Redo t3] db !! i = Some d3 /\
    editable_fields d3 = editable_fields d /\
    dict_get "aiCursor" d3 = Some (VInt (c + 1)) /\
    dict_get "aiHistory" d3 =
      Some (VList (take (Z.to_nat (c + 1)) h ++ [VDict (snapshot_of d)])).
Proof.
  intros Hi Hd Ht Hh Hc.
  destruct (is_task_inv d Ht) as [He Hhist].
  destruct (history_ok_inv d Hhist) as (h0 & c0 & Hh0 & Hc0 & _ & Hr).
  rewrite Hh in Hh0. injection Hh0 as <-.
  rewrite Hc in Hc0. injection Hc0 as <-.
  destruct (edit_then_state tid p i db d h c t1 Hi Hd Ht Hh Hc)
    as (d1 & Hrun1 & Ht1 & Hh1 & Hc1 & Hlen & Hsnap).
  set (nh := (take (Z.to_nat (c + 1)) h ++ [VDict (snapshot_of d)])%list) in *.
  rewrite !run_ops_cons. cbn [run_ops fold_left run_op].
  rewrite Hrun1. cbn [snd].
  destruct (undo_task tid i (<[i := d1]> db) d1 nh (c + 1) t2 Hi
              (lookup_insert_eq _ _ _) Ht1 Hh1 Hc1)
    as [[Hneg _]|(snap & _ & Hs & Hsok & Hrun2)]; [lia|].
  rewrite Hsnap in Hs. injection Hs as <-.
  cbv zeta in Hrun2. destruct Hrun2 as [-> Ht2]. cbn [snd].
  replace (c + 1 - 1) with c in * by lia.
  set (d2 := restored (snapshot_of d) c t2 d1) in *.
  destruct (restored_history (snapshot_of d) c t2 d1 Hsok) as [Hh2 Hc2].
  fold d2 in Hh2, Hc2. rewrite Hh1 in Hh2.
  destruct (redo_task tid i (<[i := d2]> (<[i := d1]> db)) d2 nh c t3 Hi
              (lookup_insert_eq _ _ _) Ht2 Hh2 Hc2)
    as [[Hend _]|(snap & _ & Hs & Hsok' & Hrun3)]; [lia|].
  rewrite Hsnap in Hs. injection Hs as <-.
  cbv zeta in Hrun3. destruct Hrun3 as [-> Ht3]. cbn [snd].
  eexists. split; [apply lookup_insert_eq|].
  split; [now apply restored_editable_fields|].
  destruct (restored_history (snapshot_of d) (c + 1) t3 d2 Hsok) as [Hh3 Hc3].
  split; [exact Hc3|]. now rewrite Hh3.
Qed.

Lemma redo_restores_pre_edit_state_witness :
  exists d3,
    run_ops sample_id [Edit "expand" "t1"; Undo "t2"; Redo "t3"] sample_db
      !! sample_id = Some d3 /\
    editable_fields d3 = editable_fields sample_task /\
    dict_get "aiCursor" d3 = Some (VInt (-1 + 1)) /\
    dict_get "aiHistory" d3 =
      Some (VList (take (Z.to_nat (-1 + 1)) [] ++
                   [VDict (snapshot_of sample_task)])).
Proof.
  apply (redo_restores_pre_edit_state sample_id "expand" sample_id sample_db
           sample_task [] (-1) "t1" "t2" "t3").
  - reflexivity.
  - reflexivity.
  - reflexivity.
  - reflexivity.
  - reflexivity.
Defined.

(** X4. An Edit discards the redo branch: it keeps at most the entries up
    to the cursor, and a Redo sent right after any Edit finds nothing to
    redo, returns the task as the Edit left it and writes nothing. *)
Theorem redo_after_edit_is_noop `{Unicode} tid p i db d h c t1 t2 :
  ObjectId tid = Some i -> db !! i = Some d -> is_task d = true ->
  dict_get "aiHistory" d = Some (VList h) ->
  dict_get "aiCursor" d = Some (VInt c) ->
  exists d1 h1,
    snd (ai_edit_task {| AIEditPayload.taskId := tid;
                         AIEditPayload.prompt := p |} t1 db)
      = <[i := d1]> db /\
    dict_get "aiHistory" d1 = Some (VList h1) /\
    Z.of_nat (length h1) = c + 2 /\
    ai_redo {| AIHistoryMove.taskId := tid |} t2 (<[i := d1]> db) =
    (Ok (serialize (Some (("_id", VObjectId i) :: d1))), <[i := d1]> db).
Proof.
  intros Hi Hd Ht Hh Hc.
  destruct (edit_then_state tid p i db d h c t1 Hi Hd Ht Hh Hc)
    as (d1 & Hrun1 & Ht1 & Hh1 & Hc1 & Hlen & _).
  exists d1. eexists. rewrite Hrun1. split; [reflexivity|].
  split; [exact Hh1|]. split; [exact Hlen|].
  apply (ai_redo_noop tid i _ d1 _ (c + 1) t2 Hi (lookup_insert_eq _ _ _)
           Hh1 Hc1).
  lia.
Qed.

Lemma redo_after_edit_is_noop_witness :
  exists d1 h1,
    snd (ai_edit_task {| AIEditPayload.taskId := sample_id;
                         AIEditPayload.prompt := "simpler" |} "t5" sample_db)
      = <[sample_id := d1]> sample_db /\
    dict_get "aiHistory" d1 = Some (VList h1) /\
    Z.of_nat (length h1) = -1 + 2 /\
    ai_redo {| AIHistoryMove.taskId := sample_id |} "t6"
      (<[sample_id := d1]> sample_db) =
    (Ok (serialize (Some (("_id", VObjectId sample_id) :: d1))),
     <[sample_id := d1]> sample_db).
Proof.
  apply (redo_after_edit_is_noop sample_id "simpler" sample_id sample_db
           sample_task [] (-1) "t5" "t6").
  - reflexivity.
  - reflexivity.
  - reflexivity.
  - reflexivity.
  - reflexivity.
Defined.

(** X5. Nothing to undo, nothing to redo: an Undo on a task whose cursor is
    negative (a new task has -1) and a Redo on a task whose cursor is at the
    last history entry return the current task and write nothing, not even
    [updated_at]. *)
Theorem undo_redo_at_the_ends tid i db d h c now :
  ObjectId tid = Some i -> db !! i = Some d ->
  dict_get "aiHistory" d = Some (VList h) ->
  dict_get "aiCursor" d = Some (VInt c) ->
  (c < 0 ->
   ai_undo {| AIHistoryMove.taskId := tid |} now db =
   (Ok (serialize (Some (("_id", VObjectId i) :: d))), db)) /\
  (Z.of_nat (length h) <= c + 1 ->
   ai_redo {| AIHistoryMove.taskId := tid |} now db =
   (Ok (serialize (Some (("_id", VObjectId i) :: d))), db)).
Proof.
  intros Hi Hd Hh Hc. split; intros Hr.
  - now apply (ai_undo_noop tid i db d c).
  - now apply (ai_redo_noop tid i db d h c).
Qed.

Lemma undo_redo_at_the_ends_witness :
  ai_undo {| AIHistoryMove.taskId := sample_id |} "t1" sample_db =
    (Ok (serialize (Some (("_id", VObjectId sample_id) :: sample_task))),
     sample_db) /\
  ai_redo {| AIHistoryMove.taskId := sample_id |} "t1" sample_db =
    (Ok (serialize (Some (("_id", VObjectId sample_id) :: sample_task))),
     sample_db).
Proof.
  destruct (undo_redo_at_the_ends sample_id sample_id sample_db sample_task
              [] (-1) "t1" eq_refl eq_refl eq_refl eq_refl) as [Hu Hr].
  split; [apply Hu; lia|apply Hr; cbn; lia].
Defined.

(** ** Unknown and malformed ids *)

(** X6. The three AI handlers raise 404 "Task not found" for a well-formed
    id that names no stored task, and write nothing. *)
Theorem ai_handlers_unknown_task `{Unicode} tid i p db now :
  ObjectId tid = Some i -> db !! i = None ->
  ai_edit_task {| AIEditPayload.taskId := tid; AIEditPayload.prompt := p |}
    now db = (Raise (HTTPException 404 "Task not found"), db) /\
  ai_undo {| AIHistoryMove.taskId := tid |} now db =
    (Raise (HTTPException 404 "Task not found"), db) /\
  ai_redo {| AIHistoryMove.taskId := tid |} now db =
    (Raise (HTTPException 404 "Task not found"), db).
Proof.
  intros Hi Hd.
  unfold ai_edit_task, ai_undo, ai_redo.
  cbn [AIEditPayload.taskId AIHistoryMove.taskId].
  rewrite !(bind_lift_Ok _ i) by now apply oid_Some.
  rewrite !bind_find_one, Hd. repeat split; reflexivity.
Qed.

Lemma ai_handlers_unknown_task_witness :
  ai_edit_task {| AIEditPayload.taskId := other_id;
                  AIEditPayload.prompt := "expand" |} "t1" sample_db =
    (Raise (HTTPException 404 "Task not found"), sample_db) /\
  ai_undo {| AIHistoryMove.taskId := other_id |} "t1" sample_db =
    (Raise (HTTPException 404 "Task not found"), sample_db) /\
  ai_redo {| AIHistoryMove.taskId := other_id |} "t1" sample_db =
    (Raise (HTTPException 404 "Task not found"), sample_db).
Proof.
  apply (ai_handlers_unknown_task other_id other_id "expand" sample_db "t1").
  - reflexivity.
  - reflexivity.
Defined.

(** X7. Every handler that takes a task id answers 400 "Invalid id", before
    it reads or writes anything (the body, where there is one, having
    passed validation), for every string [ObjectId] refuses: one that has
    not 24 characters, or that [bytes.fromhex] does not read as pairs of
    hexadecimal digits with white space between pairs at most. *)
Theorem malformed_id_is_refused `{Unicode} r tid db :
  request_task_id r = Some tid ->
  str_len tid <> 24%nat \/ fromhex tid = None ->
  body_valid r = true ->
  handle r db = (Raise (HTTPException 400 "Invalid id"), db).
Proof.
  intros Hr Hbad Hv.
  assert (Hi : ObjectId tid = None).
  { unfold ObjectId. destruct Hbad as [Hlen | Hhex].
    - apply Nat.eqb_neq in Hlen. now rewrite Hlen.
    - rewrite Hhex. now destruct (str_len tid =? 24)%nat. }
  pose proof (oid_None tid Hi) as Ho.
  destruct r; cbn [request_task_id] in Hr; try discriminate;
    injection Hr as Hr; subst tid; cbn [handle body_valid] in *.
  - unfold update_task, validated. rewrite Hv. cbv zeta.
    destruct (negb (truthy (VDict (TaskUpdate.model_dump_exclude_unset payload))));
      now rewrite (bind_lift_Raise _ _ _ _ Ho).
  - unfold delete_task. now rewrite (bind_lift_Raise _ _ _ _ Ho).
  - unfold complete_task. now rewrite (bind_lift_Raise _ _ _ _ Ho).
  - unfold toggle_subtask. now rewrite (bind_lift_Raise _ _ _ _ Ho).
  - unfold timer_start. now rewrite (bind_lift_Raise _ _ _ _ Ho).
  - unfold timer_pause. now rewrite (bind_lift_Raise _ _ _ _ Ho).
  - unfold timer_stop. now rewrite (bind_lift_Raise _ _ _ _ Ho).
  - unfold ai_edit_task. now rewrite (bind_lift_Raise _ _ _ _ Ho).
  - unfold ai_undo. now rewrite (bind_lift_Raise _ _ _ _ Ho).
  - unfold ai_redo. now rewrite (bind_lift_Raise _ _ _ _ Ho).
Qed.

Lemma malformed_id_is_refused_witness :
  handle (TimerStart "not-an-id" (Some 1) "t1" "t1") sample_db =
    (Raise (HTTPException 400 "Invalid id"), sample_db) /\
  handle (Toggle "0123456789abcdef0123456g" 0 "t1") sample_db =
    (Raise (HTTPException 400 "Invalid id"), sample_db) /\
  handle (Delete "0 123456789abcdef0123456") sample_db =
    (Raise (HTTPException 400 "Invalid id"), sample_db).
Proof.
  split; [|split].
  - apply (malformed_id_is_refused (TimerStart "not-an-id" (Some 1) "t1" "t1")
             "not-an-id" sample_db).
    + reflexivity.
    + left. vm_compute. discriminate.
    + reflexivity.
  - apply (malformed_id_is_refused (Toggle "0123456789abcdef0123456g" 0 "t1")
             "0123456789abcdef0123456g" sample_db).
    + reflexivity.
    + right. reflexivity.
    + reflexivity.
  - apply (malformed_id_is_refused (Delete "0 123456789abcdef0123456")
             "0 123456789abcdef0123456" sample_db).
    + reflexivity.
    + right. reflexivity.
    + reflexivity.
Defined.

Lemma set_then_read_unknown tid i upd db :
  ObjectId tid = Some i -> db !! i = None ->
  bind (lift (oid tid)) (fun i =>
    bind (update_one i upd)
      (fun _ => bind (lift (oid tid))
         (fun j => bind (find_one j) (fun doc => ret (serialize doc))))) db
  = (Ok VNone, db).
Proof.
  intros Hi Hd.
  rewrite (bind_lift_Ok _ i) by now apply oid_Some.
  rewrite (bind_update_one_None _ _ _ _ Hd).
  rewrite (bind_lift_Ok _ i) by now apply oid_Some.
  rewrite bind_find_one, Hd. reflexivity.
Qed.

(** X8. The handlers that only write never report a missing task: for a
    well-formed id that names no stored task, [complete_task],
    [timer_start], [timer_pause] and [timer_stop] return [None] (a null
    body, status 200); nothing is inserted and the collection is
    unchanged. *)
Theorem write_only_handlers_unknown_task tid i db b sub secs now now' :
  ObjectId tid = Some i -> db !! i = None ->
  complete_task tid b now db = (Ok VNone, db) /\
  timer_start tid sub now now' db = (Ok VNone, db) /\
  timer_pause tid secs now db = (Ok VNone, db) /\
  timer_stop tid now db = (Ok VNone, db).
Proof.
  intros Hi Hd. unfold complete_task, timer_start, timer_pause, timer_stop.
  repeat split; now apply (set_then_read_unknown tid i).
Qed.

Lemma write_only_handlers_unknown_task_witness :
  complete_task other_id true "t1" sample_db = (Ok VNone, sample_db) /\
  timer_start other_id None "t1" "t1" sample_db = (Ok VNone, sample_db) /\
  timer_pause other_id 7 "t1" sample_db = (Ok VNone, sample_db) /\
  timer_stop other_id "t1" sample_db = (Ok VNone, sample_db).
Proof.
  apply (write_only_handlers_unknown_task other_id other_id sample_db true
           None 7 "t1" "t1").
  - reflexivity.
  - reflexivity.
Defined.

(** ** Delete and complete *)

(** X9. [delete_task] answers [{"ok": True}] for every well-formed id,
    stored or not; afterwards the id names no task, the other documents are
    untouched, a second delete changes nothing, and [toggle_subtask] on the
    id raises 404. *)
Theorem delete_task_removes tid i db index now :
  ObjectId tid = Some i ->
  let db' := snd (delete_task tid db) in
  fst (delete_task tid db) = Ok (VDict [("ok", VBool true)]) /\
  db' !! i = None /\
  (forall j, j <> i -> db' !! j = db !! j) /\
  delete_task tid db' = (Ok (VDict [("ok", VBool true)]), db') /\
  toggle_subtask tid index now db' =
    (Raise (HTTPException 404 "Task not found"), db').
Proof.
  intros Hi db'.
  assert (Hrun : forall x, delete_task tid x =
                           (Ok (VDict [("ok", VBool true)]), delete i x)).
  { intros x. unfold delete_task.
    rewrite (bind_lift_Ok _ i) by now apply oid_Some. reflexivity. }
  unfold db'. rewrite !Hrun. cbn [fst snd].
  split; [reflexivity|].
  split; [apply lookup_delete_eq|].
  split; [intros j Hj; now apply lookup_delete_ne|].
  split.
  - f_equal. apply delete_id. apply lookup_delete_eq.
  - apply (toggle_subtask_missing tid i); [exact Hi|apply lookup_delete_eq].
Qed.

Lemma delete_task_removes_witness :
  let db' := snd (delete_task sample_id sample_db) in
  fst (delete_task sample_id sample_db) = Ok (VDict [("ok", VBool true)]) /\
  db' !! sample_id = None /\
  (forall j, j <> sample_id -> db' !! j = sample_db !! j) /\
  delete_task sample_id db' = (Ok (VDict [("ok", VBool true)]), db') /\
  toggle_subtask sample_id 0 "t1" db' =
    (Raise (HTTPException 404 "Task not found"), db').
Proof.
  apply (delete_task_removes sample_id sample_id sample_db 0 "t1").
  reflexivity.
Defined.

(** X10. [complete_task] on a stored task sets [completed] to the flag given
    and [updated_at] to the time, and nothing else: the subtasks in
    particular keep their own [completed] flags. *)
Theorem complete_task_sets_flag tid i db d b now :
  ObjectId tid = Some i -> db !! i = Some d ->
  exists d',
    complete_task tid b now db =
    (Ok (serialize (Some (("_id", VObjectId i) :: d'))), <[i := d']> db) /\
    dict_get "completed" d' = Some (VBool b) /\
    dict_get "updated_at" d' = Some (VDatetime now) /\
    forall k, k <> "completed" -> k <> "updated_at" ->
              dict_get k d' = dict_get k d.
Proof.
  intros Hi Hd.
  exists (dict_set "updated_at" (VDatetime now)
            (dict_set "completed" (VBool b) d)).
  split.
  - unfold complete_task.
    rewrite (bind_lift_Ok _ i) by now apply oid_Some.
    rewrite (bind_update_one_Some _ _ d _ _ _ Hd) by reflexivity.
    rewrite (bind_lift_Ok _ i) by now apply oid_Some.
    rewrite bind_find_one, lookup_insert_eq. reflexivity.
  - rewrite !dict_get_dict_set. repeat split; try reflexivity.
    intros k H1 H2. rewrite !dict_get_dict_set.
    apply String.eqb_neq in H1, H2. now rewrite H1, H2.
Qed.

Lemma complete_task_sets_flag_witness :
  exists d',
    complete_task sample_id true "t1" sample_db =
    (Ok (serialize (Some (("_id", VObjectId sample_id) :: d'))),
     <[sample_id := d']> sample_db) /\
    dict_get "completed" d' = Some (VBool true) /\
    dict_get "updated_at" d' = Some (VDatetime "t1") /\
    forall k, k <> "completed" -> k <> "updated_at" ->
              dict_get k d' = dict_get k sample_task.
Proof.
  apply (complete_task_sets_flag sample_id sample_id sample_db sample_task
           true "t1").
  - reflexivity.
  - reflexivity.
Defined.

(** ** Patch *)

Lemma dump_field_update_same {A} k (f : A -> value) x d :
  dict_get k (dict_update d (TaskUpdate.dump_field k f x)) =
  patched f x (dict_get k d).
Proof.
  destruct x as [[a|]|]; cbn; rewrite ?dict_get_dict_set, ?String.eqb_refl;
    reflexivity.
Qed.

Lemma dump_field_update_other {A} k0 k (f : A -> value) x d :
  String.eqb k0 k = false ->
  dict_get k0 (dict_update d (TaskUpdate.dump_field k f x)) = dict_get k0 d.
Proof.
  intros H. destruct x as [[a|]|]; cbn; rewrite ?dict_get_dict_set, ?H;
    reflexivity.
Qed.

Lemma dump_field_keys {A} (P : string -> bool) k (f : A -> value) x :
  P k = true ->
  forallb (fun kv => P (fst kv)) (TaskUpdate.dump_field k f x) = true.
Proof. intros H. destruct x as [[a|]|]; cbn; rewrite ?H; reflexivity. Qed.

Lemma dump_keys (P : string -> bool) payload :
  forallb P ["title"; "description"; "estimatedMinutes"; "emoji";
             "completed"; "voiceReminder"; "subtasks"] = true ->
  forallb (fun kv => P (fst kv))
          (TaskUpdate.model_dump_exclude_unset payload) = true.
Proof.
  cbn [forallb]. intros H. repeat (apply andb_true_iff in H as [? H]).
  unfold TaskUpdate.model_dump_exclude_unset.
  rewrite !forallb_app.
  repeat (apply andb_true_iff; split); now apply dump_field_keys.
Qed.

Lemma subtask_dump_fields s :
  exists sd,
    SubTaskModel.model_dump_exclude_unset s = VDict sd /\
    dict_get "title" sd = Some (VStr (SubTaskModel.title s)) /\
    dict_get "emoji" sd = option_map VStr (SubTaskModel.emoji s) /\
    dict_get "estimatedMinutes" sd =
      option_map VInt (SubTaskModel.estimatedMinutes s) /\
    dict_get "completed" sd = option_map VBool (SubTaskModel.completed s) /\
    forall k,
      ~ In k ["emoji"; "title"; "estimatedMinutes"; "completed"] ->
      dict_get k sd = None.
Proof.
  eexists. split; [reflexivity|].
  destruct s as [[e|] t [m|] [c|]]; cbn [SubTaskModel.model_dump_exclude_unset
    SubTaskModel.dump_set SubTaskModel.emoji SubTaskModel.title
    SubTaskModel.estimatedMinutes SubTaskModel.completed app option_map];
    (repeat split; [reflexivity..|]);
    intros k Hk; cbn [dict_get];
    assert (Hneq : forall w,
               In w ["emoji"; "title"; "estimatedMinutes"; "completed"] ->
               String.eqb k w = false)
      by (intros w Hw; apply String.eqb_neq; intros ->; exact (Hk Hw));
    rewrite ?Hneq by (cbn; tauto);
    reflexivity.
Qed.

Lemma patched_subtasks v payload old l n s :
  v = patched (fun l => VList (map SubTaskModel.model_dump_exclude_unset l))
        (TaskUpdate.subtasks payload) old ->
  TaskUpdate.subtasks payload = Some (Some l) -> l !! n = Some s ->
  exists stored sd,
    v = Some (VList stored) /\
    length stored = length l /\
    stored !! n = Some (VDict sd) /\
    dict_get "title" sd = Some (VStr (SubTaskModel.title s)) /\
    dict_get "emoji" sd = option_map VStr (SubTaskModel.emoji s) /\
    dict_get "estimatedMinutes" sd =
      option_map VInt (SubTaskModel.estimatedMinutes s) /\
    dict_get "completed" sd = option_map VBool (SubTaskModel.completed s) /\
    forall k,
      ~ In k ["emoji"; "title"; "estimatedMinutes"; "completed"] ->
      dict_get k sd = None.
Proof.
  intros -> Hl Hn. rewrite Hl. cbn [patched].
  destruct (subtask_dump_fields s) as (sd & Hsd & Hrest).
  exists (map SubTaskModel.model_dump_exclude_unset l), sd.
  split; [reflexivity|]. split; [apply length_map|].
  split; [|exact Hrest].
  now rewrite list_lookup_fmap, Hn, <- Hsd.
Qed.

(** X11. Patch semantics: for a stored task and a valid body that sets at
    least one field, each of the seven fields ends up as the body has it
    (its new value, or null when the body says null) or as it was when the
    body leaves it unset; [updated_at] becomes the time of the request and
    every other field of the document is untouched.  Subtasks are stored
    with the fields the body gave them and no others: a field left to its
    default is not stored. *)
Theorem patch_sets_supplied_fields tid i db d payload now :
  ObjectId tid = Some i -> db !! i = Some d ->
  TaskUpdate.valid payload = true ->
  TaskUpdate.model_dump_exclude_unset payload <> [] ->
  exists d',
    update_task tid payload now db =
    (Ok (serialize (Some (("_id", VObjectId i) :: d'))), <[i := d']> db) /\
    dict_get "title" d' =
      patched VStr (TaskUpdate.title payload) (dict_get "title" d) /\
    dict_get "description" d' =
      patched VStr (TaskUpdate.description payload)
        (dict_get "description" d) /\
    dict_get "estimatedMinutes" d' =
      patched VInt (TaskUpdate.estimatedMinutes payload)
        (dict_get "estimatedMinutes" d) /\
    dict_get "emoji" d' =
      patched VStr (TaskUpdate.emoji payload) (dict_get "emoji" d) /\
    dict_get "completed" d' =
      patched VBool (TaskUpdate.completed payload) (dict_get "completed" d) /\
    dict_get "voiceReminder" d' =
      patched VBool (TaskUpdate.voiceReminder payload)
        (dict_get "voiceReminder" d) /\
    dict_get "subtasks" d' =
      patched (fun l => VList (map SubTaskModel.model_dump_exclude_unset l))
        (TaskUpdate.subtasks payload) (dict_get "subtasks" d) /\
    dict_get "updated_at" d' = Some (VDatetime now) /\
    (forall k,
       ~ In k ["title"; "description"; "estimatedMinutes"; "emoji";
               "completed"; "voiceReminder"; "subtasks"; "updated_at"] ->
       dict_get k d' = dict_get k d) /\
    forall l n s,
      TaskUpdate.subtasks payload = Some (Some l) -> l !! n = Some s ->
      exists stored sd,
        dict_get "subtasks" d' = Some (VList stored) /\
        length stored = length l /\
        stored !! n = Some (VDict sd) /\
        dict_get "title" sd = Some (VStr (SubTaskModel.title s)) /\
        dict_get "emoji" sd = option_map VStr (SubTaskModel.emoji s) /\
        dict_get "estimatedMinutes" sd =
          option_map VInt (SubTaskModel.estimatedMinutes s) /\
        dict_get "completed" sd =
          option_map VBool (SubTaskModel.completed s) /\
        forall k,
          ~ In k ["emoji"; "title"; "estimatedMinutes"; "completed"] ->
          dict_get k sd = None.
Proof.
  intros Hi Hd Hv Hne.
  set (dump := TaskUpdate.model_dump_exclude_unset payload) in *.
  exists (dict_set "updated_at" (VDatetime now) (dict_update d dump)).
  split.
  - unfold update_task, validated. rewrite Hv. cbv zeta. fold dump.
    assert (Htruthy : negb (truthy (VDict dump)) = false)
      by (destruct dump; [contradiction|reflexivity]).
    rewrite Htruthy.
    rewrite (bind_lift_Ok _ i) by now apply oid_Some.
    rewrite (bind_update_one_Some _ _ d
               (dict_set "updated_at" (VDatetime now) (dict_update d dump))
               _ _ Hd).
    2:{ rewrite apply_set_plain.
        - f_equal. apply dict_update_set_fresh.
          now apply (dump_keys (fun k => negb (String.eqb "updated_at" k))).
        - apply forallb_keys_dict_set; [reflexivity|].
          now apply (dump_keys plain_key). }
    rewrite (bind_lift_Ok _ i) by now apply oid_Some.
    rewrite bind_find_one, lookup_insert_eq. reflexivity.
  - rewrite !dict_get_dict_set. cbn [String.eqb Ascii.eqb Bool.eqb].
    unfold dump, TaskUpdate.model_dump_exclude_unset.
    rewrite !dict_update_app.
    repeat (split; [repeat (rewrite dump_field_update_other by reflexivity);
                    rewrite ?dump_field_update_same;
                    repeat (rewrite dump_field_update_other by reflexivity);
                    reflexivity|]).
    split.
    2:{ intros l n s.
        apply (patched_subtasks _ payload (dict_get "subtasks" d)).
        rewrite dump_field_update_same.
        repeat (rewrite dump_field_update_other by reflexivity).
        reflexivity. }
    intros k Hk.
    assert (Hneq : forall w,
               In w ["title"; "description"; "estimatedMinutes"; "emoji";
                     "completed"; "voiceReminder"; "subtasks"; "updated_at"] ->
               String.eqb k w = false).
    { intros w Hw. apply String.eqb_neq. intros ->. exact (Hk Hw). }
    rewrite dict_get_dict_set, Hneq by (cbn; tauto).
    repeat (rewrite dump_field_update_other by (apply Hneq; cbn; tauto)).
    reflexivity.
Qed.

Lemma patch_sets_supplied_fields_witness :
  let only_title :=
    {| SubTaskModel.emoji := None; SubTaskModel.title := "s";
       SubTaskModel.estimatedMinutes := None;
       SubTaskModel.completed := None |} in
  let body :=
    {| TaskUpdate.title := Some (Some "Write the report");
       TaskUpdate.description := Some None;
       TaskUpdate.estimatedMinutes := None; TaskUpdate.emoji := None;
       TaskUpdate.completed := Some (Some true);
       TaskUpdate.voiceReminder := None;
       TaskUpdate.subtasks := Some (Some [only_title]) |} in
  exists d',
    update_task sample_id body "t1" sample_db =
    (Ok (serialize (Some (("_id", VObjectId sample_id) :: d'))),
     <[sample_id := d']> sample_db) /\
    dict_get "title" d' = Some (VStr "Write the report") /\
    dict_get "description" d' = Some VNone /\
    dict_get "estimatedMinutes" d' = Some (VInt 15) /\
    dict_get "emoji" d' = Some (VStr "R") /\
    dict_get "completed" d' = Some (VBool true) /\
    dict_get "voiceReminder" d' = Some (VBool false) /\
    dict_get "subtasks" d' = Some (VList [VDict [("title", VStr "s")]]) /\
    dict_get "updated_at" d' = Some (VDatetime "t1") /\
    (forall k,
       ~ In k ["title"; "description"; "estimatedMinutes"; "emoji";
               "completed"; "voiceReminder"; "subtasks"; "updated_at"] ->
       dict_get k d' = dict_get k sample_task) /\
    forall l n s,
      Some (Some [only_title]) = Some (Some l) -> l !! n = Some s ->
      exists stored sd,
        dict_get "subtasks" d' = Some (VList stored) /\
        length stored = length l /\
        stored !! n = Some (VDict sd) /\
        dict_get "title" sd = Some (VStr (SubTaskModel.title s)) /\
        dict_get "emoji" sd = option_map VStr (SubTaskModel.emoji s) /\
        dict_get "estimatedMinutes" sd =
          option_map VInt (SubTaskModel.estimatedMinutes s) /\
        dict_get "completed" sd =
          option_map VBool (SubTaskModel.completed s) /\
        forall k,
          ~ In k ["emoji"; "title"; "estimatedMinutes"; "completed"] ->
          dict_get k sd = None.
Proof.
  intros only_title body.
  apply (patch_sets_supplied_fields sample_id sample_id sample_db sample_task
           body "t1").
  - reflexivity.
  - reflexivity.
  - reflexivity.
  - discriminate.
Defined.

(** ** Timer start and pause *)

Lemma set_path_embedded k f v d sub :
  String.eqb k "" = false -> String.eqb f "" = false ->
  dict_get k d = Some (VDict sub) ->
  set_path [k; f] v d = Ok (dict_set k (VDict (dict_set f v sub)) d).
Proof.
  intros Hk Hf Hd. cbn [set_path]. now rewrite Hk, Hd, Hf.
Qed.

Lemma timer_start_step tid i db d ts sub now now' :
  ObjectId tid = Some i -> db !! i = Some d ->
  dict_get "timerSession" d = Some (VDict ts) ->
  let ts' :=
    dict_set "currentSubtaskIndex"
      (match sub with Some n => VInt n | None => VNone end)
      (dict_set "startedAt" (VStr now)
         (dict_set "status" (VStr "running") ts)) in
  let d' := dict_set "updated_at" (VDatetime now')
              (dict_set "timerSession" (VDict ts') d) in
  timer_start tid sub now now' db =
  (Ok (serialize (Some (("_id", VObjectId i) :: d'))), <[i := d']> db).
Proof.
  intros Hi Hd Hts ts' d'. unfold timer_start.
  rewrite (bind_lift_Ok _ i) by now apply oid_Some.
  rewrite (bind_update_one_Some _ _ d d' _ _ Hd).
  2:{ rewrite apply_set_cons.
      unfold set_field at 1. cbn [split Ascii.eqb Bool.eqb String.eqb].
      rewrite (set_path_embedded "timerSession" "status" _ _ ts
                 eq_refl eq_refl Hts).
      cbn [rbind]. rewrite apply_set_cons.
      unfold set_field at 1. cbn [split Ascii.eqb Bool.eqb String.eqb].
      erewrite (set_path_embedded "timerSession" "startedAt");
        [|reflexivity|reflexivity|
         rewrite dict_get_dict_set; reflexivity].
      cbn [rbind]. rewrite apply_set_cons.
      unfold set_field at 1. cbn [split Ascii.eqb Bool.eqb String.eqb].
      erewrite (set_path_embedded "timerSession" "currentSubtaskIndex");
        [|reflexivity|reflexivity|
         rewrite dict_get_dict_set; reflexivity].
      cbn [rbind]. rewrite apply_set_cons.
      rewrite set_field_plain by reflexivity.
      cbn [rbind]. unfold apply_set. cbn [fold_left].
      unfold d', ts'. now rewrite !dict_set_dict_set. }
  rewrite (bind_lift_Ok _ i) by now apply oid_Some.
  rewrite bind_find_one, lookup_insert_eq. reflexivity.
Qed.

Lemma timer_pause_step tid i db d ts secs now :
  ObjectId tid = Some i -> db !! i = Some d ->
  dict_get "timerSession" d = Some (VDict ts) ->
  let ts' :=
    dict_set "elapsedSeconds" (VInt secs)
      (dict_set "status" (VStr "paused") ts) in
  let d' := dict_set "updated_at" (VDatetime now)
              (dict_set "timerSession" (VDict ts') d) in
  timer_pause tid secs now db =
  (Ok (serialize (Some (("_id", VObjectId i) :: d'))), <[i := d']> db).
Proof.
  intros Hi Hd Hts ts' d'. unfold timer_pause.
  rewrite (bind_lift_Ok _ i) by now apply oid_Some.
  rewrite (bind_update_one_Some _ _ d d' _ _ Hd).
  2:{ rewrite apply_set_cons.
      unfold set_field at 1. cbn [split Ascii.eqb Bool.eqb String.eqb].
      rewrite (set_path_embedded "timerSession" "status" _ _ ts
                 eq_refl eq_refl Hts).
      cbn [rbind]. rewrite apply_set_cons.
      unfold set_field at 1. cbn [split Ascii.eqb Bool.eqb String.eqb].
      erewrite (set_path_embedded "timerSession" "elapsedSeconds");
        [|reflexivity|reflexivity|
         rewrite dict_get_dict_set; reflexivity].
      cbn [rbind]. rewrite apply_set_cons.
      rewrite set_field_plain by reflexivity.
      cbn [rbind]. unfold apply_set. cbn [fold_left].
      unfold d', ts'. now rewrite !dict_set_dict_set. }
  rewrite (bind_lift_Ok _ i) by now apply oid_Some.
  rewrite bind_find_one, lookup_insert_eq. reflexivity.
Qed.

(** X12. [timer_start] on a task with a timer session sets the status to
    running, [startedAt] to the time of the request and the current subtask
    index to the one given (null when none is), whatever the status was;
    the elapsed seconds and every field outside the timer session, except
    [updated_at], stay as they were. *)
Theorem timer_start_sets_running tid i db d ts sub now now' :
  ObjectId tid = Some i -> db !! i = Some d ->
  dict_get "timerSession" d = Some (VDict ts) ->
  exists d' ts',
    timer_start tid sub now now' db =
    (Ok (serialize (Some (("_id", VObjectId i) :: d'))), <[i := d']> db) /\
    dict_get "timerSession" d' = Some (VDict ts') /\
    dict_get "status" ts' = Some (VStr "running") /\
    dict_get "startedAt" ts' = Some (VStr now) /\
    dict_get "currentSubtaskIndex" ts' =
      Some (match sub with Some n => VInt n | None => VNone end) /\
    dict_get "elapsedSeconds" ts' = dict_get "elapsedSeconds" ts /\
    dict_get "updated_at" d' = Some (VDatetime now') /\
    forall k, k <> "timerSession" -> k <> "updated_at" ->
              dict_get k d' = dict_get k d.
Proof.
  intros Hi Hd Hts.
  pose proof (timer_start_step tid i db d ts sub now now' Hi Hd Hts) as Hrun.
  cbv zeta in Hrun.
  eexists.
  exists (dict_set "currentSubtaskIndex"
            (match sub with Some n => VInt n | None => VNone end)
            (dict_set "startedAt" (VStr now)
               (dict_set "status" (VStr "running") ts))).
  split; [exact Hrun|].
  rewrite !dict_get_dict_set. cbn [String.eqb Ascii.eqb Bool.eqb].
  repeat split; try reflexivity.
  intros k H1 H2. rewrite !dict_get_dict_set.
  apply String.eqb_neq in H1, H2. now rewrite H1, H2.
Qed.

Lemma timer_start_sets_running_witness :
  exists d' ts',
    timer_start sample_id (Some 1) "t1" "t2" sample_db =
    (Ok (serialize (Some (("_id", VObjectId sample_id) :: d'))),
     <[sample_id := d']> sample_db) /\
    dict_get "timerSession" d' = Some (VDict ts') /\
    dict_get "status" ts' = Some (VStr "running") /\
    dict_get "startedAt" ts' = Some (VStr "t1") /\
    dict_get "currentSubtaskIndex" ts' = Some (VInt 1) /\
    dict_get "elapsedSeconds" ts' = Some (VInt 0) /\
    dict_get "updated_at" d' = Some (VDatetime "t2") /\
    forall k, k <> "timerSession" -> k <> "updated_at" ->
              dict_get k d' = dict_get k sample_task.
Proof.
  apply (timer_start_sets_running sample_id sample_id sample_db sample_task
           [("status", VStr "idle"); ("startedAt", VNone);
            ("elapsedSeconds", VInt 0); ("currentSubtaskIndex", VNone)]
           (Some 1) "t1" "t2").
  - reflexivity.
  - reflexivity.
  - reflexivity.
Defined.

(** X13. [timer_pause] on a task with a timer session sets the status to
    paused and the elapsed seconds to the number the caller sends, as it
    is, for every number of 64 bits: negative or not, and whatever
    [startedAt] and the elapsed seconds were; [startedAt], the current
    subtask index and every field outside the timer session, except
    [updated_at], stay as they were. *)
Theorem timer_pause_trusts_caller tid i db d ts secs now :
  ObjectId tid = Some i -> db !! i = Some d ->
  dict_get "timerSession" d = Some (VDict ts) ->
  int64 secs = true ->
  exists d' ts',
    timer_pause tid secs now db =
    (Ok (serialize (Some (("_id", VObjectId i) :: d'))), <[i := d']> db) /\
    dict_get "timerSession" d' = Some (VDict ts') /\
    dict_get "status" ts' = Some (VStr "paused") /\
    dict_get "elapsedSeconds" ts' = Some (VInt secs) /\
    dict_get "startedAt" ts' = dict_get "startedAt" ts /\
    dict_get "currentSubtaskIndex" ts' = dict_get "currentSubtaskIndex" ts /\
    dict_get "updated_at" d' = Some (VDatetime now) /\
    forall k, k <> "timerSession" -> k <> "updated_at" ->
              dict_get k d' = dict_get k d.
Proof.
  intros Hi Hd Hts _.
  pose proof (timer_pause_step tid i db d ts secs now Hi Hd Hts) as Hrun.
  cbv zeta in Hrun.
  eexists.
  exists (dict_set "elapsedSeconds" (VInt secs)
            (dict_set "status" (VStr "paused") ts)).
  split; [exact Hrun|].
  rewrite !dict_get_dict_set. cbn [String.eqb Ascii.eqb Bool.eqb].
  repeat split; try reflexivity.
  intros k H1 H2. rewrite !dict_get_dict_set.
  apply String.eqb_neq in H1, H2. now rewrite H1, H2.
Qed.

Lemma timer_pause_trusts_caller_witness :
  exists d' ts',
    timer_pause sample_id (-42) "t3" sample_db =
    (Ok (serialize (Some (("_id", VObjectId sample_id) :: d'))),
     <[sample_id := d']> sample_db) /\
    dict_get "timerSession" d' = Some (VDict ts') /\
    dict_get "status" ts' = Some (VStr "paused") /\
    dict_get "elapsedSeconds" ts' = Some (VInt (-42)) /\
    dict_get "startedAt" ts' = Some VNone /\
    dict_get "currentSubtaskIndex" ts' = Some VNone /\
    dict_get "updated_at" d' = Some (VDatetime "t3") /\
    forall k, k <> "timerSession" -> k <> "updated_at" ->
              dict_get k d' = dict_get k sample_task.
Proof.
  apply (timer_pause_trusts_caller sample_id sample_id sample_db sample_task
           [("status", VStr "idle"); ("startedAt", VNone);
            ("elapsedSeconds", VInt 0); ("currentSubtaskIndex", VNone)]
           (-42) "t3").
  - reflexivity.
  - reflexivity.
  - reflexivity.
  - reflexivity.
Defined.

(** ** The response *)

Lemma json_ready_iso_field v : json_ready (iso_field v) = true.
Proof.
  destruct v as [| | | | | |l|]; try reflexivity.
  cbn. induction l as [|x l IH]; [reflexivity|].
  cbn. rewrite IH. now destruct x.
Qed.

(** X14. What [serialize] makes of a document read from the collection:
    nothing for a missing document; otherwise a dict in which ["id"] is the
    id as text, every other field of the stored document is kept under its
    name with datetimes (also those directly inside a list) turned into
    their ISO text, and no value is a datetime or a list holding one. *)
Theorem serialize_response i (d : dict) :
  serialize None = VNone /\
  exists r,
    serialize (Some (("_id", VObjectId i) :: d)) = VDict r /\
    dict_get "id" r = Some (VStr i) /\
    (forall k, k <> "id" ->
               dict_get k r = option_map iso_field (dict_get k d)) /\
    forallb (fun kv => json_ready (snd kv)) r = true.
Proof.
  split; [reflexivity|].
  rewrite serialize_task. eexists. split; [reflexivity|].
  split; [|split].
  - rewrite dict_get_map_iso, dict_get_dict_set. reflexivity.
  - intros k Hk. rewrite dict_get_map_iso, dict_get_dict_set.
    apply String.eqb_neq in Hk. now rewrite Hk.
  - rewrite forallb_map. cbn [snd].
    induction (dict_set "id" (VStr i) d) as [|[k v] l IH]; [reflexivity|].
    cbn. now rewrite json_ready_iso_field, IH.
Qed.

(** ** Generated subtasks *)

(** X15. [ai_generate_subtasks] answers with five subtasks when the
    description strips to the empty string (it is empty or holds white
    space only, that of Unicode included) and with six otherwise (the extra
    one in second place); every one of them has the four fields of a
    subtask, within the bounds of the model, and is not completed, and the
    first names the stripped title. *)
Theorem generated_subtasks payload :
  let blank :=
    String.eqb (strip (AIGeneratePayload.description payload)) "" in
  exists first rest,
    ai_generate_subtasks payload =
      VDict [("subtasks", VList (first :: rest))] /\
    length rest = (if blank then 4 else 5)%nat /\
    forallb fresh_subtask (first :: rest) = true /\
    dict_get "title" (match first with VDict s => s | _ => [] end) =
      Some (VStr ("Define the goal for '" +:+
                  strip (AIGeneratePayload.title payload) +:+ "'")) /\
    (blank = false ->
     exists skim more, rest = skim :: more /\
       dict_get "title" (match skim with VDict s => s | _ => [] end) =
         Some (VStr "Skim any reference/context provided")).
Proof.
  intros blank. unfold ai_generate_subtasks. cbv zeta.
  unfold truthy. fold blank.
  destruct blank; cbn [negb insert_at_1].
  - do 2 eexists. split; [reflexivity|]. split; [reflexivity|].
    split; [reflexivity|]. split; [reflexivity|]. discriminate.
  - do 2 eexists. split; [reflexivity|]. split; [reflexivity|].
    split; [reflexivity|]. split; [reflexivity|].
    intros _. do 2 eexists. split; reflexivity.
Qed.

(** ** The collection as a whole *)

Lemma handle_all_keeps_tasks `{Unicode} rs db :
  tasks_only db -> forallb null_free rs = true ->
  forallb whole_subtasks rs = true ->
  tasks_only (handle_all rs db).
Proof.
  revert db. induction rs as [|r rs IH]; intros db Hdb Hrs Hws; [exact Hdb|].
  cbn [forallb] in Hrs, Hws.
  apply andb_true_iff in Hrs as [Hr Hrs].
  apply andb_true_iff in Hws as [Hw Hws].
  unfold handle_all. cbn [fold_left]. apply IH; [|exact Hrs|exact Hws].
  now apply handle_keeps_tasks.
Qed.

(** X16. Starting from the empty collection, after any sequence of
    requests to the eleven task handlers in which no Patch sets title,
    description, estimatedMinutes, emoji or subtasks to null, and no Patch
    sends a subtask with one of its fields left out, every stored document
    is a task: its editable fields have the types of the schema (each
    subtask with its four fields), its history holds snapshots only, and
    [-1 <= aiCursor <= len(aiHistory) - 1]. *)
Theorem reachable_documents_are_tasks `{Unicode} rs i d :
  forallb null_free rs = true ->
  forallb whole_subtasks rs = true ->
  handle_all rs ∅ !! i = Some d ->
  is_task d = true /\ cursor_in_range d.
Proof.
  intros Hrs Hws Hd.
  pose proof (handle_all_keeps_tasks rs ∅ tasks_only_empty Hrs Hws i d Hd)
    as Ht.
  split; [exact Ht|now apply is_task_cursor_in_range].
Qed.

Lemma reachable_documents_are_tasks_witness :
  let rs :=
    [Create sample_payload "t0" "t0" sample_id;
     AiEdit {| AIEditPayload.taskId := sample_id;
               AIEditPayload.prompt := "prioritize" |} "t1";
     Toggle sample_id 0 "t2";
     TimerStart sample_id (Some 0) "t3" "t3";
     AiUndo {| AIHistoryMove.taskId := sample_id |} "t4";
     Patch sample_id sample_patch "t5";
     Complete sample_id true "t6";
     AiRedo {| AIHistoryMove.taskId := sample_id |} "t7"] in
  exists d,
    handle_all rs ∅ !! sample_id = Some d /\
    is_task d = true /\ cursor_in_range d.
Proof.
  intros rs. eexists. split; [vm_compute; reflexivity|].
  apply (reachable_documents_are_tasks rs sample_id).
  - reflexivity.
  - reflexivity.
  - reflexivity.
Defined.

(** ** Toggle *)

(** X17. What [toggle_subtask] writes on a valid index: the subtask's
    [completed] becomes the negation of its truth value (of [False] when
    the key is missing); the other fields of that subtask, the other
    subtasks and every field of the task except [subtasks] and
    [updated_at] stay as they were. *)
Theorem toggle_subtask_frame tid i db d l s index now :
  ObjectId tid = Some i -> db !! i = Some d ->
  dict_get "subtasks" d = Some (VList l) ->
  0 <= index -> l !! Z.to_nat index = Some (VDict s) ->
  exists d' l' s',
    snd (toggle_subtask tid index now db) = <[i := d']> db /\
    dict_get "subtasks" d' = Some (VList l') /\
    length l' = length l /\
    l' !! Z.to_nat index = Some (VDict s') /\
    dict_get "completed" s' =
      Some (VBool (negb (truthy (get s "completed" (VBool false))))) /\
    (forall f, f <> "completed" -> dict_get f s' = dict_get f s) /\
    (forall j, j <> Z.to_nat index -> l' !! j = l !! j) /\
    dict_get "updated_at" d' = Some (VDatetime now) /\
    forall k, k <> "subtasks" -> k <> "updated_at" ->
              dict_get k d' = dict_get k d.
Proof.
  intros Hi Hd Hl Hge Hs.
  pose proof (lookup_lt_Some _ _ _ Hs) as Hlt.
  pose proof (toggle_subtask_step tid i db d l s index now Hi Hd Hl Hge Hs)
    as Hrun.
  cbv zeta in Hrun. rewrite Hrun. cbn [snd].
  eexists. exists (<[Z.to_nat index := flipped s]> l).
  exists (dict_set "completed"
            (VBool (negb (truthy (get s "completed" (VBool false))))) s).
  split; [reflexivity|].
  split; [rewrite !dict_get_dict_set; reflexivity|].
  split; [apply length_insert|].
  split; [now apply list_lookup_insert_eq|].
  split; [rewrite dict_get_dict_set; now rewrite String.eqb_refl|].
  split.
  { intros f Hf. rewrite dict_get_dict_set.
    apply String.eqb_neq in Hf. now rewrite Hf. }
  split; [intros j Hj; now apply list_lookup_insert_ne|].
  split; [rewrite !dict_get_dict_set; reflexivity|].
  intros k H1 H2. rewrite !dict_get_dict_set.
  apply String.eqb_neq in H1, H2. now rewrite H1, H2.
Qed.

Lemma toggle_subtask_frame_witness :
  exists d' l' s',
    snd (toggle_subtask sample_id 2 "t1" sample_db)
      = <[sample_id := d']> sample_db /\
    dict_get "subtasks" d' = Some (VList l') /\
    length l' = 3%nat /\
    l' !! Z.to_nat 2 = Some (VDict s') /\
    dict_get "completed" s' = Some (VBool false) /\
    (forall f, f <> "completed" ->
               dict_get f s' =
               dict_get f [("emoji", VStr "*"); ("title", VStr "Review");
                           ("estimatedMinutes", VInt 10);
                           ("completed", VBool true)]) /\
    (forall j, j <> Z.to_nat 2 ->
               l' !! j =
               map SubTaskModel.model_dump
                 (TaskCreate.subtasks sample_payload) !! j) /\
    dict_get "updated_at" d' = Some (VDatetime "t1") /\
    forall k, k <> "subtasks" -> k <> "updated_at" ->
              dict_get k d' = dict_get k sample_task.
Proof.
  apply (toggle_subtask_frame sample_id sample_id sample_db sample_task
           (map SubTaskModel.model_dump (TaskCreate.subtasks sample_payload))
           [("emoji", VStr "*"); ("title", VStr "Review");
            ("estimatedMinutes", VInt 10); ("completed", VBool true)]
           2 "t1").
  - reflexivity.
  - reflexivity.
  - reflexivity.
  - lia.
  - reflexivity.
Defined.

(** ** Auth *)

Lemma find_first_upsert {A} (p : A -> bool) (f : A -> A) fresh l :
  p fresh = true -> (forall x, p x = true -> p (f x) = true) ->
  Auth.find_first p (Auth.upsert p f fresh l) =
  Some (match Auth.find_first p l with
        | Some x => f x
        | None => fresh
        end).
Proof.
  intros Hfresh Hf. induction l as [|x l IH]; cbn.
  - now rewrite Hfresh.
  - destruct (p x) eqn:E; cbn.
    + now rewrite (Hf x E).
    + now rewrite E.
Qed.

Lemma filter_upsert_same {A} (p : A -> bool) (f : A -> A) fresh l :
  p fresh = true -> (forall x, p x = true -> p (f x) = true) ->
  length (List.filter p (Auth.upsert p f fresh l)) =
  Nat.max 1 (length (List.filter p l)).
Proof.
  intros Hfresh Hf. induction l as [|x l IH]; cbn.
  - now rewrite Hfresh.
  - destruct (p x) eqn:E; cbn.
    + rewrite (Hf x E). cbn. lia.
    + rewrite E. exact IH.
Qed.

Lemma filter_upsert_other {A} (p q : A -> bool) (f : A -> A) fresh l :
  q fresh = false -> (forall x, p x = true -> q (f x) = false /\ q x = false) ->
  List.filter q (Auth.upsert p f fresh l) = List.filter q l.
Proof.
  intros Hfresh Hf. induction l as [|x l IH]; cbn.
  - now rewrite Hfresh.
  - destruct (p x) eqn:E; cbn.
    + destruct (Hf x E) as [-> ->]. reflexivity.
    + destruct (q x); now rewrite IH.
Qed.

Lemma request_otp_stores email clock oid uid db :
  let db1 := snd (Auth.request_otp email clock oid uid db) in
  (exists rec,
     Auth.find_first (Auth.has_email email) (Auth.otp db1) = Some rec /\
     Auth.otp_code rec =
       Auth.six_digits (Auth.seconds (clock 0%nat) mod 1000000) /\
     Auth.otp_expiresAt rec = clock 1%nat + Auth.ten_minutes) /\
  (exists u,
     Auth.find_first (Auth.user_has_email email) (Auth.user db1) = Some u /\
     Auth.user_id u =
       match Auth.find_first (Auth.user_has_email email) (Auth.user db) with
       | Some u0 => Auth.user_id u0
       | None => uid
       end).
Proof.
  cbn. split.
  - rewrite find_first_upsert.
    + eexists. split; [reflexivity|].
      destruct (Auth.find_first _ _); split; reflexivity.
    + unfold Auth.has_email. cbn. apply String.eqb_refl.
    + intros x _. unfold Auth.has_email. cbn. apply String.eqb_refl.
  - rewrite find_first_upsert.
    + eexists. split; [reflexivity|].
      destruct (Auth.find_first _ _); reflexivity.
    + unfold Auth.user_has_email. cbn. apply String.eqb_refl.
    + auto.
Qed.

(** X18. The mock OTP round trip: [request_otp] answers with the code it
    stores, and a [verify_otp] for the same email with that code, read no
    later than ten minutes after the request computed the expiry, succeeds:
    it appends one session for the user of that email (the existing one, or
    the one the request created) and answers with that user's id and the
    token. *)
Theorem otp_request_then_verify email clock oid uid db utcnow now token :
  utcnow <= clock 1%nat + Auth.ten_minutes ->
  let code := Auth.six_digits (Auth.seconds (clock 0%nat) mod 1000000) in
  let '(resp, db1) := Auth.request_otp email clock oid uid db in
  let user_of :=
    match Auth.find_first (Auth.user_has_email email) (Auth.user db) with
    | Some u0 => Auth.user_id u0
    | None => uid
    end in
  resp = VDict [("ok", VBool true); ("message", VStr "OTP sent (mock)");
                ("code", VStr code)] /\
  Auth.verify_otp email code utcnow now token db1 =
  (Ok (VDict [("ok", VBool true); ("token", VStr token);
              ("userId", VStr user_of)]),
   {| Auth.otp := Auth.otp db1; Auth.user := Auth.user db1;
      Auth.session :=
        (Auth.session db ++
         [{| Auth.session_userId := user_of; Auth.session_token := token;
             Auth.session_createdAt := now |}])%list |}).
Proof.
  intros Hnow code.
  destruct (Auth.request_otp email clock oid uid db) as [resp db1] eqn:E.
  pose proof (request_otp_stores email clock oid uid db) as H.
  rewrite E in H. cbn [snd] in H.
  destruct H as [(rec & Hrec & Hcode & Hexp) (u & Hu & Huid)].
  split.
  - unfold Auth.request_otp in E. now injection E as <- _.
  - unfold Auth.verify_otp. rewrite Hrec, Hcode. fold code.
    rewrite String.eqb_refl. cbn [negb]. rewrite Hexp.
    destruct (Z.ltb_spec (clock 1%nat + Auth.ten_minutes) utcnow); [lia|].
    rewrite Hu, Huid.
    unfold Auth.request_otp in E. injection E as _ <-. reflexivity.
Qed.

Lemma otp_request_then_verify_witness :
  let clock := fun k : nat => 1700000123456789 + Z.of_nat k in
  let db0 := {| Auth.otp := []; Auth.user := []; Auth.session := [] |} in
  let '(resp, db1) :=
    Auth.request_otp "a@b.c" clock sample_id other_id db0 in
  resp = VDict [("ok", VBool true); ("message", VStr "OTP sent (mock)");
                ("code", VStr "000123")] /\
  Auth.verify_otp "a@b.c" "000123" (1700000123456789 + 599000000)
    1700000999999999 "tok" db1 =
  (Ok (VDict [("ok", VBool true); ("token", VStr "tok");
              ("userId", VStr other_id)]),
   {| Auth.otp := Auth.otp db1; Auth.user := Auth.user db1;
      Auth.session :=
        [{| Auth.session_userId := other_id; Auth.session_token := "tok";
            Auth.session_createdAt := 1700000999999999 |}] |}).
Proof.
  intros clock db0.
  apply (otp_request_then_verify "a@b.c" clock sample_id other_id db0
           (1700000123456789 + 599000000) 1700000999999999 "tok").
  unfold clock, Auth.ten_minutes. lia.
Defined.

(** X19. [verify_otp] opens a session only for the stored code before it
    expires: when it returns, the first OTP document of the email carries
    exactly the code sent and an expiry not earlier than the clock read, a
    user with the email exists, and the only write is one appended session
    for that user; the OTP itself is not consumed.  When it raises, nothing
    is written. *)
Theorem verify_otp_outcomes email code utcnow now token db r db' :
  Auth.verify_otp email code utcnow now token db = (r, db') ->
  match r with
  | Ok v =>
      exists rec u,
        Auth.find_first (Auth.has_email email) (Auth.otp db) = Some rec /\
        Auth.otp_code rec = code /\
        utcnow <= Auth.otp_expiresAt rec /\
        Auth.find_first (Auth.user_has_email email) (Auth.user db) = Some u /\
        v = VDict [("ok", VBool true); ("token", VStr token);
                   ("userId", VStr (Auth.user_id u))] /\
        Auth.otp db' = Auth.otp db /\ Auth.user db' = Auth.user db /\
        Auth.session db' =
          (Auth.session db ++
           [{| Auth.session_userId := Auth.user_id u;
               Auth.session_token := token;
               Auth.session_createdAt := now |}])%list
  | Raise e => db' = db
  end.
Proof.
  unfold Auth.verify_otp.
  destruct (Auth.find_first (Auth.has_email email) (Auth.otp db)) as [rec|];
    [|intros H; now injection H as <- <-].
  destruct (String.eqb_spec (Auth.otp_code rec) code) as [Hc|Hc]; cbn [negb];
    [|intros H; now injection H as <- <-].
  destruct (Z.ltb_spec (Auth.otp_expiresAt rec) utcnow) as [Hlt|Hge];
    [intros H; now injection H as <- <-|].
  destruct (Auth.find_first (Auth.user_has_email email) (Auth.user db))
    as [u|]; [|intros H; now injection H as <- <-].
  intros H. injection H as <- <-.
  exists rec, u. cbn. repeat split; auto.
Qed.

Lemma verify_otp_outcomes_witness :
  let db :=
    {| Auth.otp :=
         [{| Auth.otp_id := sample_id; Auth.otp_email := "a@b.c";
             Auth.otp_code := "000123"; Auth.otp_expiresAt := 1000;
             Auth.otp_updated_at := 400; Auth.otp_created_at := 400 |}];
       Auth.user :=
         [{| Auth.user_id := other_id; Auth.user_email := Some "a@b.c";
             Auth.user_name := None; Auth.user_role := "user";
             Auth.user_isGuest := false; Auth.user_created_at := 400;
             Auth.user_updated_at := 400 |}];
       Auth.session := [] |} in
  snd (Auth.verify_otp "a@b.c" "000124" 500 500 "tok" db) = db /\
  snd (Auth.verify_otp "a@b.c" "000123" 1001 1001 "tok" db) = db.
Proof.
  intros db. split.
  - exact (verify_otp_outcomes "a@b.c" "000124" 500 500 "tok" db
             (Raise (HTTPException 400 "Invalid code")) _ eq_refl).
  - exact (verify_otp_outcomes "a@b.c" "000123" 1001 1001 "tok" db
             (Raise (HTTPException 400 "Code expired")) _ eq_refl).
Defined.

(** X20. The upserts of [request_otp] never duplicate: afterwards the email
    has exactly one OTP document and one user where it had none, and as many
    as before otherwise; the documents of every other email are as they
    were, and no session is touched. *)
Theorem request_otp_upserts email clock oid uid db :
  let db1 := snd (Auth.request_otp email clock oid uid db) in
  length (List.filter (Auth.has_email email) (Auth.otp db1)) =
    Nat.max 1 (length (List.filter (Auth.has_email email) (Auth.otp db))) /\
  length (List.filter (Auth.user_has_email email) (Auth.user db1)) =
    Nat.max 1
      (length (List.filter (Auth.user_has_email email) (Auth.user db))) /\
  (forall e, e <> email ->
     List.filter (Auth.has_email e) (Auth.otp db1) =
       List.filter (Auth.has_email e) (Auth.otp db) /\
     List.filter (Auth.user_has_email e) (Auth.user db1) =
       List.filter (Auth.user_has_email e) (Auth.user db)) /\
  Auth.session db1 = Auth.session db.
Proof.
  cbn. split; [|split; [|split; [|reflexivity]]].
  - apply filter_upsert_same.
    + unfold Auth.has_email. cbn. apply String.eqb_refl.
    + intros x _. unfold Auth.has_email. cbn. apply String.eqb_refl.
  - apply filter_upsert_same.
    + unfold Auth.user_has_email. cbn. apply String.eqb_refl.
    + auto.
  - intros e He. split.
    + apply filter_upsert_other.
      * unfold Auth.has_email. cbn. apply String.eqb_neq. congruence.
      * intros x Hx. unfold Auth.has_email in *. cbn.
        apply String.eqb_eq in Hx. rewrite Hx.
        split; apply String.eqb_neq; congruence.
    + apply filter_upsert_other.
      * unfold Auth.user_has_email. cbn. apply String.eqb_neq. congruence.
      * intros x Hx. unfold Auth.user_has_email in *.
        destruct (Auth.user_email x) as [e'|]; [|discriminate].
        apply String.eqb_eq in Hx. subst e'.
        split; apply String.eqb_neq; congruence.
Qed.

(** X21. [guest_login] appends a guest user without email, named as asked
    or "Guest" when the name is null or empty, and a session for that user;
    the OTP documents are untouched, and no lookup of a user by email finds
    the guest. *)
Theorem guest_login_creates_guest name clock uid token db :
  let '(resp, db1) := Auth.guest_login name clock uid token db in
  resp = VDict [("ok", VBool true); ("token", VStr token);
                ("userId", VStr uid)] /\
  Auth.otp db1 = Auth.otp db /\
  (exists g,
     Auth.user db1 = (Auth.user db ++ [g])%list /\
     Auth.user_id g = uid /\ Auth.user_isGuest g = true /\
     Auth.user_email g = None /\
     Auth.user_name g =
       Some (match name with
             | Some (String a n) => String a n
             | _ => "Guest"
             end)) /\
  Auth.session db1 =
    (Auth.session db ++
     [{| Auth.session_userId := uid; Auth.session_token := token;
         Auth.session_createdAt := clock 2%nat |}])%list /\
  forall e,
    Auth.find_first (Auth.user_has_email e) (Auth.user db1) =
    Auth.find_first (Auth.user_has_email e) (Auth.user db).
Proof.
  cbn. split; [reflexivity|]. split; [reflexivity|]. split; [|split].
  - eexists. split; [reflexivity|]. cbn. repeat split.
    destruct name as [[|a n]|]; reflexivity.
  - reflexivity.
  - intros e. induction (Auth.user db) as [|u l IH]; cbn; [reflexivity|].
    destruct (Auth.user_has_email e u); [reflexivity|exact IH].
Qed.

(** ** On tasks with the types of the schema *)

(** X22. On a stored task whose fields have the types of [schemas.Task],
    for every prompt, Edit returns and stores a document whose history is
    [history[0 .. cursor]] followed by the snapshot of the five editable
    fields as they were before the edit, and whose cursor is
    [len(newHistory) - 1]; this also happens when the prompt matches no
    keyword, and the description then becomes the old one with the suffix
    appended and stripped, which ends in "Tuned for clarity.". *)
Theorem edit_pushes_snapshot `{Unicode} tid p i db d h c now :
  ObjectId tid = Some i -> db !! i = Some d -> is_task d = true ->
  dict_get "aiHistory" d = Some (VList h) ->
  dict_get "aiCursor" d = Some (VInt c) ->
  let snapshot := VDict (snapshot_of d) in
  let new_history := (take (Z.to_nat (c + 1)) h ++ [snapshot])%list in
  exists d',
    ai_edit_task {| AIEditPayload.taskId := tid; AIEditPayload.prompt := p |}
      now db =
    (Ok (serialize (Some (("_id", VObjectId i) :: d'))), <[i := d']> db) /\
    map fst (snapshot_of d) = editable /\
    map (fun kv => Some (snd kv)) (snapshot_of d) = editable_fields d /\
    dict_get "aiHistory" d' = Some (VList new_history) /\
    dict_get "aiCursor" d' =
      Some (VInt (Z.of_nat (length new_history) - 1)) /\
    (matches_keyword p = false ->
     exists s,
       dict_get "description" d = Some (VStr s) /\
       dict_get "description" d' = Some (VStr (strip (s +:+ tuned))) /\
       endswith "Tuned for clarity." (strip (s +:+ tuned)) = true).
Proof.
  intros Hi Hd Ht Hh Hc snapshot nh.
  destruct (is_task_inv d Ht) as [He _].
  destruct (editable_ok_inv d He)
    as (t & s & m & e & l & H1 & H2 & H3 & H4 & H5 & Hl).
  destruct (edit_task tid p i db d h c now Hi Hd Ht Hh Hc)
    as (u & Hu & Hok & Hrun).
  cbv zeta in Hrun. destruct Hrun as [Hrun _]. fold snapshot nh in Hrun.
  exists (edited u nh now d).
  split; [exact Hrun|].
  split; [now rewrite (snapshot_of_editable d t s m e l)|].
  split.
  { rewrite (snapshot_of_editable d t s m e l) by assumption.
    unfold editable_fields, editable. cbn [map snd].
    now rewrite H1, H2, H3, H4, H5. }
  split; [now rewrite (edited_get_other _ _ _ _ _ Hok) by reflexivity|].
  split; [now rewrite (edited_get_other _ _ _ _ _ Hok) by reflexivity|].
  intros Hk. exists s. split; [exact H2|].
  split; [|apply strip_tuned_endswith].
  rewrite (derive_updates_no_keyword _ d p s H2 Hk) in Hu.
  injection Hu as <-.
  rewrite (edited_eq _ _ _ _ Hok), !dict_get_dict_set.
  cbn. now rewrite dict_get_dict_set.
Qed.

Lemma edit_pushes_snapshot_witness :
  let db :=
    run_ops sample_id
      [Edit "emoji please" "t1"; Edit "expand" "t2"; Undo "t3"] sample_db in
  exists d h0 h1 d',
    db !! sample_id = Some d /\
    dict_get "aiHistory" d = Some (VList [h0; h1]) /\
    dict_get "aiCursor" d = Some (VInt 0) /\
    matches_keyword "Make it nicer" = false /\
    ai_edit_task {| AIEditPayload.taskId := sample_id;
                    AIEditPayload.prompt := "Make it nicer" |}
      "t4" db =
    (Ok (serialize (Some (("_id", VObjectId sample_id) :: d'))),
     <[sample_id := d']> db) /\
    dict_get "aiHistory" d' = Some (VList [h0; VDict (snapshot_of d)]) /\
    dict_get "aiCursor" d' = Some (VInt 1) /\
    exists s,
      dict_get "description" d = Some (VStr s) /\
      dict_get "description" d' = Some (VStr (strip (s +:+ tuned))) /\
      endswith "Tuned for clarity." (strip (s +:+ tuned)) = true.
Proof.
  intros db.
  destruct (db !! sample_id) as [d|] eqn:Hd; [|vm_compute in Hd; discriminate].
  assert (Hd' : Some d = db !! sample_id) by now rewrite Hd.
  vm_compute in Hd'. injection Hd' as ->.
  match goal with
  | H : db !! sample_id = Some ?D |- _ =>
      destruct (edit_pushes_snapshot sample_id "Make it nicer" sample_id db
                  D _ 0 "t4" eq_refl H eq_refl eq_refl eq_refl)
        as (d' & Hrun & _ & _ & Hh & Hc & Hs)
  end.
  do 3 eexists. exists d'.
  split; [reflexivity|]. split; [reflexivity|]. split; [reflexivity|].
  split; [reflexivity|]. split; [exact Hrun|].
  split; [exact Hh|]. split; [exact Hc|].
  exact (Hs eq_refl).
Defined.

(** X23. On a stored task whose fields have the types of [schemas.Task],
    for every [n], [n] Edit requests with any prompts followed by [n] Undo
    requests all return and leave the task with the editable fields title,
    description, estimatedMinutes, emoji and subtasks it had before the
    first Edit. *)
Theorem edits_then_undos_restore `{Unicode} tid i db d ps ts :
  ObjectId tid = Some i -> db !! i = Some d -> is_task d = true ->
  length ps = length ts ->
  forallb returned (responses tid (edits ps ++ undos ts) db) = true /\
  exists d',
    run_ops tid (edits ps ++ undos ts) db !! i = Some d' /\
    editable_fields d' = editable_fields d.
Proof.
  intros Hi Hd Ht Hlen. split.
  - exact (responses_returned tid i _ Hi db d Hd Ht).
  - destruct (is_task_inv d Ht) as [_ Hhist].
    destruct (history_ok_inv d Hhist) as (h & c & Hh & Hc & _ & _).
    destruct (edits_undos_restore tid i ps Hi ts db d h c Hd Ht Hh Hc Hlen)
      as (d' & h' & Hd' & _ & He' & _).
    exists d'. auto.
Qed.

Lemma edits_then_undos_restore_witness :
  let ps := [("please prioritize this", "t1"); ("make it simpler", "t2");
             ("add emoji and expand", "t3")] in
  let ts := ["t4"; "t5"; "t6"] in
  forallb returned (responses sample_id (edits ps ++ undos ts) sample_db)
    = true /\
  exists d',
    run_ops sample_id (edits ps ++ undos ts) sample_db !! sample_id
      = Some d' /\
    editable_fields d' = editable_fields sample_task.
Proof.
  intros ps ts.
  apply (edits_then_undos_restore sample_id sample_id sample_db sample_task
           ps ts).
  - reflexivity.
  - reflexivity.
  - reflexivity.
  - reflexivity.
Defined.

(** X24. [toggle_subtask] raises 404 when the id names no stored task; on
    a stored task whose fields have the types of [schemas.Task] it raises
    400 "Invalid subtask index" exactly when the index is outside
    [0, len(subtasks)); in both failures the collection is left as it was;
    otherwise it returns and stores the task with
    [subtasks[index].completed] negated and the other subtasks as they
    were. *)
Theorem toggle_subtask_outcomes tid i db index now :
  ObjectId tid = Some i ->
  (db !! i = None ->
   toggle_subtask tid index now db =
   (Raise (HTTPException 404 "Task not found"), db)) /\
  (forall d,
     db !! i = Some d -> is_task d = true ->
     exists l,
       dict_get "subtasks" d = Some (VList l) /\
       (fst (toggle_subtask tid index now db) =
          Raise (HTTPException 400 "Invalid subtask index") <->
        index < 0 \/ Z.of_nat (length l) <= index) /\
       (index < 0 \/ Z.of_nat (length l) <= index ->
        snd (toggle_subtask tid index now db) = db) /\
       (0 <= index < Z.of_nat (length l) ->
        exists s b d',
          l !! Z.to_nat index = Some (VDict s) /\
          dict_get "completed" s = Some (VBool b) /\
          toggle_subtask tid index now db =
          (Ok (serialize (Some (("_id", VObjectId i) :: d'))),
           <[i := d']> db) /\
          dict_get "subtasks" d' =
          Some (VList (<[Z.to_nat index :=
                           VDict (dict_set "completed" (VBool (negb b)) s)]>
                         l)))).
Proof.
  intros Hi. split.
  { intros Hd. now apply (toggle_subtask_missing tid i). }
  intros d Hd Ht. destruct (is_task_inv d Ht) as [He _].
  destruct (editable_ok_inv d He)
    as (t & s0 & m & e & l & H1 & H2 & H3 & H4 & H5 & Hl).
  exists l. split; [exact H5|].
  assert (Hin : 0 <= index < Z.of_nat (length l) ->
          exists s b d',
            l !! Z.to_nat index = Some (VDict s) /\
            dict_get "completed" s = Some (VBool b) /\
            toggle_subtask tid index now db =
            (Ok (serialize (Some (("_id", VObjectId i) :: d'))),
             <[i := d']> db) /\
            dict_get "subtasks" d' =
            Some (VList (<[Z.to_nat index :=
                             VDict (dict_set "completed" (VBool (negb b)) s)]>
                           l))).
  { intros Hr.
    destruct (lookup_lt_is_Some_2 l (Z.to_nat index)) as [v Hv]; [lia|].
    destruct (subtask_ok_inv v (forallb_lookup _ _ _ _ Hl Hv))
      as (s & b & -> & Hb).
    exists s, b. eexists. split; [exact Hv|]. split; [exact Hb|].
    split.
    - apply (toggle_subtask_step tid i db d l s index now); auto. lia.
    - rewrite !dict_get_dict_set. cbn. now rewrite (flipped_bool s b Hb). }
  split; [|split; [|exact Hin]].
  - split.
    + intros Hfail.
      destruct (Z_lt_ge_dec index 0) as [|Hge]; [now left|].
      destruct (Z_lt_ge_dec index (Z.of_nat (length l))) as [Hlt|]; [|right; lia].
      destruct Hin as (s & b & d' & _ & _ & Hrun & _); [lia|].
      rewrite Hrun in Hfail. discriminate.
    + intros Hr.
      now rewrite (toggle_subtask_invalid tid i db d l index now Hi Hd H5 Hr).
  - intros Hr.
    now rewrite (toggle_subtask_invalid tid i db d l index now Hi Hd H5 Hr).
Qed.

Lemma toggle_subtask_outcomes_witness :
  toggle_subtask other_id 0 "t1" sample_db =
    (Raise (HTTPException 404 "Task not found"), sample_db) /\
  (fst (toggle_subtask sample_id 5 "t1" sample_db) =
     Raise (HTTPException 400 "Invalid subtask index") /\
   snd (toggle_subtask sample_id 5 "t1" sample_db) = sample_db) /\
  exists s b d',
    TaskCreate.subtasks sample_payload !! 2%nat =
      Some (sample_subtask "Review" 10 b) /\
    SubTaskModel.model_dump (sample_subtask "Review" 10 b) = VDict s /\
    b = true /\
    toggle_subtask sample_id 2 "t1" sample_db =
    (Ok (serialize (Some (("_id", VObjectId sample_id) :: d'))),
     <[sample_id := d']> sample_db) /\
    subtask_completed d' 2 = Some (VBool (negb b)).
Proof.
  pose (l := map SubTaskModel.model_dump (TaskCreate.subtasks sample_payload)).
  split.
  - apply (proj1 (toggle_subtask_outcomes other_id other_id sample_db 0
                    "t1" eq_refl)); reflexivity.
  - split.
    + destruct (proj2 (toggle_subtask_outcomes sample_id sample_id sample_db
                         5 "t1" eq_refl) sample_task eq_refl eq_refl)
        as (l5 & Hl5 & Hiff & Hsame & _).
      injection Hl5 as <-.
      split; [apply Hiff|apply Hsame]; right; cbn; lia.
    + destruct (proj2 (toggle_subtask_outcomes sample_id sample_id sample_db
                         2 "t1" eq_refl) sample_task eq_refl eq_refl)
        as (l2 & Hl2 & _ & _ & Hflip).
      injection Hl2 as <-.
      destruct Hflip as (s & b & d' & Hs & Hb & Hrun & Hsub); [cbn; lia|].
      injection Hs as <-. injection Hb as <-.
      eexists _, true, d'.
      split; [reflexivity|]. split; [reflexivity|]. split; [reflexivity|].
      split; [exact Hrun|].
      unfold subtask_completed. rewrite Hsub. reflexivity.
Defined.

(** X25. [update_task] never reports a missing task: for every id that
    [ObjectId] accepts and that names no stored task, and every valid body,
    [update_one] matches nothing, [serialize] passes the missing document
    on, and the handler returns [None] (a null body) with the collection
    unchanged. *)
Theorem patch_unknown_task_returns_null tid i payload now db :
  ObjectId tid = Some i -> db !! i = None ->
  TaskUpdate.valid payload = true ->
  update_task tid payload now db = (Ok VNone, db).
Proof. apply update_task_missing. Qed.

Lemma patch_unknown_task_returns_null_witness :
  update_task other_id sample_patch "t1" sample_db = (Ok VNone, sample_db).
Proof.
  apply (patch_unknown_task_returns_null other_id other_id sample_patch "t1"
           sample_db).
  - reflexivity.
  - reflexivity.
  - reflexivity.
Defined.
